(** * Card inventory ledger and recharge request workflow

    A shallow embedding of the persistence core of the bot:
    - [app/database/models.py]: the enumerations and the mapped classes;
    - [app/services/cards.py]: [CardService];
    - [app/services/requests.py]: [RequestService];
    - the parts of [app/handlers/requests.py], [app/handlers/admin.py] and
      [app/handlers/responsible.py] that drive those services.

    Modelling conventions.
    - A table with an integer primary key is a [gmap Z row]: the key of the
      map is the [id] column, so a primary key is unique by construction and
      [session.get(Model, id)] is a lookup. A mapped object is the pair of
      its key and its row.
    - The two audit tables are only ever appended to; they are lists in
      insertion order, which is the order of their autoincremented ids and of
      their [created_at] stamps.
    - Python [int] is [Z]; [str] is [string]; [datetime.now(timezone.utc)] is
      a reading [now : Z] of the clock handed to each operation.
    - An [async with self.database.session() as session] block is a
      computation over a [Session], which holds the committed store and the
      view of the open transaction. Leaving the block publishes only what
      [commit] has published: an exception raised before [commit] discards
      the transaction.
    - The constraints declared in [__table_args__] (CHECK and UNIQUE) are
      checked when a row is inserted. Foreign keys are not checked: the rows
      the services write refer to rows they have just loaded, and the user
      ids they are handed come from the user table, which they never write.
    - Calls to the structured logger write to log files only and are left
      out, as are the texts of the Telegram messages. *)

From stdpp Require Import gmap list sorting strings.

Local Open Scope Z_scope.

(** ** Enumerations ([app/database/models.py]) *)

Inductive UserRole := ADMIN | RESPONSIBLE | USER.
Inductive CardType := ASIA | ATHIR.
Inductive CardStatus := AVAILABLE | RESERVED | SENT | ARCHIVED.
Inductive InventoryAction := ADD | RESERVE | SEND | RESTORE | THRESHOLD_ALERT.
Inductive RequestStatus :=
  PENDING_MANAGER | PENDING_ACCOUNTING | APPROVED | REJECTED | CANCELLED.
Inductive RequestType := FIXED | CUSTOM.

Global Instance UserRole_eq_dec : EqDecision UserRole.
Proof. solve_decision. Defined.
Global Instance CardType_eq_dec : EqDecision CardType.
Proof. solve_decision. Defined.
Global Instance CardStatus_eq_dec : EqDecision CardStatus.
Proof. solve_decision. Defined.
Global Instance InventoryAction_eq_dec : EqDecision InventoryAction.
Proof. solve_decision. Defined.
Global Instance RequestStatus_eq_dec : EqDecision RequestStatus.
Proof. solve_decision. Defined.
Global Instance RequestType_eq_dec : EqDecision RequestType.
Proof. solve_decision. Defined.

(** [for card_type in CardType]: the members in definition order. *)
Definition CardType_members : list CardType := [ASIA; ATHIR].

(** [card_type.value] *)
Definition CardType_value (card_type : CardType) : string :=
  match card_type with
  | ASIA => "asia"
  | ATHIR => "athir"
  end.

(** [request_type.value] *)
Definition RequestType_value (request_type : RequestType) : string :=
  match request_type with
  | FIXED => "fixed"
  | CUSTOM => "custom"
  end.

(** ** Mapped classes

    Each class is a module holding the record of its columns (the primary
    key apart) and the attribute assignments the services perform. *)

Module User.
(** Columns read by the workflow; [phone], [department], [line_expiry] and
    [created_at] play no part in it. *)
Record t := mk {
  full_name : string;
  telegram_id : option Z;
  role : UserRole;
  manager_id : option Z;
  line_type : option CardType;
  can_approve_directly : bool;
  is_active : bool
}.

(** [member.manager_id = None] *)
Definition clear_manager_id (u : t) : t :=
  mk (full_name u) (telegram_id u) (role u) None (line_type u)
     (can_approve_directly u) (is_active u).

(** [user.is_active = False; user.telegram_id = None] *)
Definition deactivate (u : t) : t :=
  mk (full_name u) None (role u) (manager_id u) (line_type u)
     (can_approve_directly u) false.
End User.

Module Card.
Record t := mk {
  card_type : CardType;
  amount : Z;
  status : CardStatus;
  image_file_id : option string;
  image_path : option string;
  serial_number : option string;
  added_by_id : option Z;
  added_at : Z
}.

(** [card.status = s] *)
Definition set_status (s : CardStatus) (c : t) : t :=
  mk (card_type c) (amount c) s (image_file_id c) (image_path c)
     (serial_number c) (added_by_id c) (added_at c).
End Card.

Module CardInventoryLog.
Record t := mk {
  card_id : Z;
  actor_id : option Z;
  action : InventoryAction;
  note : option string;
  created_at : Z
}.
End CardInventoryLog.

Module RechargeRequest.
Record t := mk {
  requester_id : Z;
  responsible_id : option Z;
  accounting_id : option Z;
  approver_id : option Z;
  request_type : RequestType;
  amount : Z;
  status : RequestStatus;
  final_card_id : option Z;
  card_type : option CardType;
  reason : option string;
  created_at : Z;
  updated_at : Z
}.

(** [request.status = s] *)
Definition set_status (s : RequestStatus) (r : t) : t :=
  mk (requester_id r) (responsible_id r) (accounting_id r) (approver_id r)
     (request_type r) (amount r) s (final_card_id r) (card_type r)
     (reason r) (created_at r) (updated_at r).

(** [request.updated_at = now] *)
Definition set_updated_at (now : Z) (r : t) : t :=
  mk (requester_id r) (responsible_id r) (accounting_id r) (approver_id r)
     (request_type r) (amount r) (status r) (final_card_id r) (card_type r)
     (reason r) (created_at r) now.

(** [request.final_card_id = card_id] *)
Definition set_final_card_id (card_id : Z) (r : t) : t :=
  mk (requester_id r) (responsible_id r) (accounting_id r) (approver_id r)
     (request_type r) (amount r) (status r) (Some card_id) (card_type r)
     (reason r) (created_at r) (updated_at r).

(** [request.approver_id = approver] *)
Definition set_approver_id (approver : Z) (r : t) : t :=
  mk (requester_id r) (responsible_id r) (accounting_id r) (Some approver)
     (request_type r) (amount r) (status r) (final_card_id r) (card_type r)
     (reason r) (created_at r) (updated_at r).
End RechargeRequest.

Module RequestStatusHistory.
Record t := mk {
  request_id : Z;
  actor_id : option Z;
  from_status : option RequestStatus;
  to_status : RequestStatus;
  note : option string;
  created_at : Z
}.
End RequestStatusHistory.

Global Instance User_eq_dec : EqDecision User.t.
Proof. solve_decision. Defined.
Global Instance Card_eq_dec : EqDecision Card.t.
Proof. solve_decision. Defined.
Global Instance CardInventoryLog_eq_dec : EqDecision CardInventoryLog.t.
Proof. solve_decision. Defined.
Global Instance RechargeRequest_eq_dec : EqDecision RechargeRequest.t.
Proof. solve_decision. Defined.
Global Instance RequestStatusHistory_eq_dec : EqDecision RequestStatusHistory.t.
Proof. solve_decision. Defined.

(** ** The store *)

Record Database := mkDatabase {
  users : gmap Z User.t;
  cards : gmap Z Card.t;
  card_logs : list CardInventoryLog.t;
  requests : gmap Z RechargeRequest.t;
  history : list RequestStatusHistory.t
}.

Definition empty_database : Database := mkDatabase ∅ ∅ [] ∅ [].

Definition with_users (f : gmap Z User.t → gmap Z User.t) (db : Database) : Database :=
  mkDatabase (f (users db)) (cards db) (card_logs db) (requests db) (history db).

Definition with_cards (f : gmap Z Card.t → gmap Z Card.t) (db : Database) : Database :=
  mkDatabase (users db) (f (cards db)) (card_logs db) (requests db) (history db).

Definition with_card_logs (f : list CardInventoryLog.t → list CardInventoryLog.t)
    (db : Database) : Database :=
  mkDatabase (users db) (cards db) (f (card_logs db)) (requests db) (history db).

Definition with_requests (f : gmap Z RechargeRequest.t → gmap Z RechargeRequest.t)
    (db : Database) : Database :=
  mkDatabase (users db) (cards db) (card_logs db) (f (requests db)) (history db).

Definition with_history (f : list RequestStatusHistory.t → list RequestStatusHistory.t)
    (db : Database) : Database :=
  mkDatabase (users db) (cards db) (card_logs db) (requests db) (f (history db)).

(** The key an autoincremented integer primary key gives to the next row:
    one more than the largest key in the table. *)
Definition next_id {A} (m : gmap Z A) : Z :=
  1 + map_fold (λ k _ acc, Z.max k acc) 0 m.

(** ** Exceptions and the state-and-exception monad *)

Inductive exn :=
  | ValueError          (* raised by [add_card] itself *)
  | NoResultFound       (* sqlalchemy.exc.NoResultFound *)
  | IntegrityError      (* sqlalchemy.exc.IntegrityError, from a constraint *)
  | OverflowError       (* a Python int that does not fit an SQLite INTEGER *)
  | MissingGreenlet     (* sqlalchemy.exc.MissingGreenlet, from a lazy load
                           under AsyncSession *)
  | TelegramBadRequest      (* aiogram.exceptions *)
  | TelegramForbiddenError
  | TelegramNetworkError.

Global Instance exn_eq_dec : EqDecision exn.
Proof. solve_decision. Defined.

Inductive result (A : Type) :=
  | Ok (a : A)
  | Raise (e : exn).
Arguments Ok {A} a.
Arguments Raise {A} e.

(** A computation over a state [S] that returns or raises; the state reached
    when an exception is raised is kept, so that a handler can go on. *)
Definition M (S A : Type) : Type := S → result A * S.

Definition ret {S A} (a : A) : M S A := λ s, (Ok a, s).

Definition raise {S A} (e : exn) : M S A := λ s, (Raise e, s).

Definition bind {S A B} (m : M S A) (k : A → M S B) : M S B :=
  λ s, match m s with
       | (Ok a, s') => k a s'
       | (Raise e, s') => (Raise e, s')
       end.

Notation "'let!' x ':=' m 'in' k" := (bind m (λ x, k))
  (at level 10, x pattern, m at level 100, k at level 200).

(** [try: m except Exception: h] *)
Definition try_except {S A} (m : M S A) (h : exn → M S A) : M S A :=
  λ s, match m s with
       | (Ok a, s') => (Ok a, s')
       | (Raise e, s') => h e s'
       end.

(** ** Sessions ([app/database/session.py]) *)

Record Session := mkSession {
  committed : Database;
  pending : Database
}.

(** Code running inside a session block. *)
Definition Tx (A : Type) : Type := M Session A.

(** A service call or a handler: code running on the store. *)
Definition Svc (A : Type) : Type := M Database A.

(** [async with self.database.session() as session: body]. The transaction
    starts from the committed store; on exit (normal or not) whatever was not
    committed is rolled back. *)
Definition session {A} (body : Tx A) : Svc A :=
  λ db, let '(r, s) := body (mkSession db db) in (r, committed s).

(** [await session.commit()] *)
Definition commit : Tx unit :=
  λ s, (Ok tt, mkSession (pending s) (pending s)).

(** Reading and writing the transaction's view. *)
Definition query {A} (f : Database → A) : Tx A := λ s, (Ok (f (pending s)), s).

Definition write (f : Database → Database) : Tx unit :=
  λ s, (Ok tt, mkSession (committed s) (f (pending s))).

(** A read-only service call, as a computation on the store. *)
Definition read {A} (f : Database → A) : Svc A := λ db, (Ok (f db), db).

(** ** Queries *)

(** [.order_by(Card.id)]: ascending primary key. *)
Definition id_le {A} (x y : Z * A) : Prop := x.1 ≤ y.1.

Global Instance id_le_dec {A} (x y : Z * A) : Decision (id_le x y).
Proof. unfold id_le. apply _. Defined.

Definition order_by_id {A} (rows : list (Z * A)) : list (Z * A) :=
  merge_sort id_le rows.

(** ** CardService ([app/services/cards.py]) *)

Module CardService.

(** The WHERE clause shared by [list_available], [take_first_available] and
    [count_available]. *)
Definition available_match (card_type : CardType) (amount : Z) (kc : Z * Card.t) : Prop :=
  Card.card_type kc.2 = card_type ∧ Card.amount kc.2 = amount
  ∧ Card.status kc.2 = AVAILABLE.

Global Instance available_match_dec card_type amount kc :
  Decision (available_match card_type amount kc).
Proof. unfold available_match. apply _. Defined.

(** The uniqueness constraint [uq_card_serial]: no row holds the serial
    number of the new row. NULL serial numbers never collide. *)
Definition serial_free (serial_number : option string) (m : gmap Z Card.t) : Prop :=
  match serial_number with
  | None => True
  | Some sn => map_Forall (λ _ c, Card.serial_number c ≠ Some sn) m
  end.

Global Instance serial_free_dec serial_number m : Decision (serial_free serial_number m).
Proof. unfold serial_free. destruct serial_number; apply _. Defined.

(** [session.add(card); await session.flush()]: the INSERT into [card], with
    [ck_card_amount_positive] and [uq_card_serial]. Gives the new key. *)
Definition insert_card (card : Card.t) : Tx Z :=
  let! m := query cards in
  if decide (0 < Card.amount card ∧ serial_free (Card.serial_number card) m) then
    let id := next_id m in
    let! _ := write (with_cards (insert id card)) in
    ret id
  else raise IntegrityError.

(** [card.status = ...; await session.flush()]: the UPDATE of one row. *)
Definition update_card (card_id : Z) (card : Card.t) : Tx unit :=
  write (with_cards (insert card_id card)).

(** [await session.get(Card, card_id, with_for_update=True)] *)
Definition get_card (card_id : Z) : Tx (option Card.t) :=
  query (λ db, cards db !! card_id).

(** [CardService._log]: the row joins the unit of work and is published by
    [commit]. *)
Definition _log (card_id : Z) (action : InventoryAction) (actor_id : option Z)
    (note : option string) (now : Z) : Tx unit :=
  write (with_card_logs (λ l, l ++ [CardInventoryLog.mk card_id actor_id action note now])).

Definition add_card (card_type : CardType) (amount : Z) (actor_id : option Z)
    (image_file_id image_path serial_number : option string) (now : Z)
    : Svc (Z * Card.t) :=
  if decide (image_file_id = None ∧ serial_number = None) then raise ValueError
  else session (
    let card := Card.mk card_type amount AVAILABLE image_file_id image_path
                        serial_number actor_id now in
    let! id := insert_card card in
    let! _ := _log id ADD actor_id None now in
    let! _ := commit in
    ret (id, card)).

Definition list_available (card_type : CardType) (amount : Z) (db : Database)
    : list (Z * Card.t) :=
  order_by_id (filter (available_match card_type amount) (map_to_list (cards db))).

(** [locked] holds the keys of the rows that transactions in flight have
    locked: SKIP LOCKED leaves them out of the result. *)
Definition take_first_available (locked : gset Z) (card_type : CardType) (amount : Z)
    (actor_id : option Z) (now : Z) : Svc (Z * Card.t) :=
  session (
    let! rows := query (λ db,
      order_by_id (filter (λ kc, available_match card_type amount kc ∧ kc.1 ∉ locked)
                          (map_to_list (cards db)))) in
    match head rows with
    | None => raise NoResultFound
    | Some (id, card) =>
        let card := Card.set_status RESERVED card in
        let! _ := update_card id card in
        let! _ := _log id RESERVE actor_id None now in
        let! _ := commit in
        ret (id, card)
    end).

Definition count_available (card_type : CardType) (amount : Z) (db : Database) : Z :=
  Z.of_nat (size (filter (available_match card_type amount) (cards db))).

Definition reserve_card (card_id : Z) (actor_id : option Z) (now : Z) : Svc (Z * Card.t) :=
  session (
    let! found := get_card card_id in
    match found with
    | None => raise NoResultFound
    | Some card =>
        if decide (Card.status card ≠ AVAILABLE) then raise NoResultFound
        else
          let card := Card.set_status RESERVED card in
          let! _ := update_card card_id card in
          let! _ := _log card_id RESERVE actor_id None now in
          let! _ := commit in
          ret (card_id, card)
    end).

Definition mark_sent (card_id : Z) (actor_id : option Z) (now : Z) : Svc (Z * Card.t) :=
  session (
    let! found := get_card card_id in
    match found with
    | None => raise NoResultFound
    | Some card =>
        let card := Card.set_status SENT card in
        let! _ := update_card card_id card in
        let! _ := _log card_id SEND actor_id None now in
        let! _ := commit in
        ret (card_id, card)
    end).

Definition restore_card (card_id : Z) (actor_id : option Z) (now : Z) : Svc (Z * Card.t) :=
  session (
    let! found := get_card card_id in
    match found with
    | None => raise NoResultFound
    | Some card =>
        let card := Card.set_status AVAILABLE card in
        let! _ := update_card card_id card in
        let! _ := _log card_id RESTORE actor_id None now in
        let! _ := commit in
        ret (card_id, card)
    end).

(** [.order_by(Card.card_type, Card.amount)] on the rows of
    [available_summary]: the type first (ASIA before ATHIR), then the amount. *)
Definition summary_le (x y : CardType * Z * Z) : Prop :=
  match x.1.1, y.1.1 with
  | ASIA, ATHIR => True
  | ATHIR, ASIA => False
  | _, _ => x.1.2 ≤ y.1.2
  end.

Global Instance summary_le_dec x y : Decision (summary_le x y).
Proof. unfold summary_le. destruct x.1.1, y.1.1; apply _. Defined.

(** [summary[card_type.value][amount] += 1] on a [defaultdict] of
    [defaultdict(int)]: a missing key counts from zero. *)
Definition summary_add (summary : gmap string (gmap Z Z)) (row : CardType * Z * Z)
    : gmap string (gmap Z Z) :=
  let inner := default ∅ (summary !! CardType_value row.1.1) in
  <[CardType_value row.1.1 := <[row.1.2 := default 0 (inner !! row.1.2) + 1]> inner]>
    summary.

(** [available_summary]: the rows are (type, amount, id) of the AVAILABLE
    cards; the dictionary is kept by its contents. *)
Definition available_summary (db : Database) : gmap string (gmap Z Z) :=
  foldl summary_add ∅
    (merge_sort summary_le
       ((λ kc, (Card.card_type kc.2, Card.amount kc.2, kc.1)) <$>
        filter (λ kc : Z * Card.t, Card.status kc.2 = AVAILABLE)
               (map_to_list (cards db)))).

End CardService.

(** ** RequestService ([app/services/requests.py]) *)

Module RequestService.

(** The integers the driver can bind to an SQLite INTEGER: 64 bits, signed.
    The keys are read from the store; the amount of a request is the one
    integer that a user types in ([charge_custom_amount]). *)
Definition sqlite_integer (n : Z) : Prop := - 2 ^ 63 ≤ n < 2 ^ 63.

Global Instance sqlite_integer_dec n : Decision (sqlite_integer n).
Proof. unfold sqlite_integer. apply _. Defined.

(** [session.add(request); await session.flush()]: the INSERT into
    [rechargerequest]. Binding an amount out of range raises OverflowError
    before the statement runs; then [ck_recharge_amount_positive] is
    checked. *)
Definition insert_request (request : RechargeRequest.t) : Tx Z :=
  let! m := query requests in
  if decide (sqlite_integer (RechargeRequest.amount request)) then
    if decide (0 < RechargeRequest.amount request) then
      let id := next_id m in
      let! _ := write (with_requests (insert id request)) in
      ret id
    else raise IntegrityError
  else raise OverflowError.

(** The flush of a loaded request after attribute assignments. The unit of
    work emits an UPDATE only when some column differs from the loaded row;
    that UPDATE stamps [updated_at] through the column's [onupdate] default
    unless the code has assigned [updated_at] itself. Gives the row as
    stored. *)
Definition flush_request (request_id : Z) (loaded assigned : RechargeRequest.t)
    (now : Z) : Tx RechargeRequest.t :=
  if decide (assigned = loaded) then ret loaded
  else
    let row :=
      if decide (RechargeRequest.updated_at assigned = RechargeRequest.updated_at loaded)
      then RechargeRequest.set_updated_at now assigned
      else assigned in
    let! _ := write (with_requests (insert request_id row)) in
    ret row.

(** [await session.get(RechargeRequest, request_id, with_for_update=True)] *)
Definition get_request_for_update (request_id : Z) : Tx (option RechargeRequest.t) :=
  query (λ db, requests db !! request_id).

(** [RequestService._log] *)
Definition _log (request_id : Z) (actor_id : option Z)
    (from_status : option RequestStatus) (to_status : RequestStatus)
    (note : option string) (now : Z) : Tx unit :=
  write (with_history (λ l,
    l ++ [RequestStatusHistory.mk request_id actor_id from_status to_status note now])).

Definition create_request (requester_id : Z) (responsible_id : option Z) (amount : Z)
    (request_type : RequestType) (status : RequestStatus) (note : option string)
    (card_type : option CardType) (now : Z) : Svc (Z * RechargeRequest.t) :=
  session (
    let request := RechargeRequest.mk requester_id responsible_id None None
                     request_type amount status None card_type None now now in
    let! id := insert_request request in
    let! _ := _log id (Some requester_id) None status note now in
    let! _ := commit in
    ret (id, request)).

Definition set_status (request_id : Z) (actor_id : option Z) (new_status : RequestStatus)
    (note : option string) (now : Z) : Svc (Z * RechargeRequest.t) :=
  session (
    let! found := get_request_for_update request_id in
    match found with
    | None => raise NoResultFound
    | Some request =>
        let previous_status := RechargeRequest.status request in
        let assigned :=
          RechargeRequest.set_updated_at now
            (RechargeRequest.set_status new_status request) in
        let! stored := flush_request request_id request assigned now in
        let! _ := _log request_id actor_id (Some previous_status) new_status
                    note now in
        let! _ := commit in
        ret (request_id, stored)
    end).

Definition get_request (request_id : Z) (db : Database) : option RechargeRequest.t :=
  requests db !! request_id.

Definition attach_card (request_id : Z) (card_id : Z) (actor_id : option Z) (now : Z)
    : Svc (Z * RechargeRequest.t) :=
  session (
    let! found := get_request_for_update request_id in
    match found with
    | None => raise NoResultFound
    | Some request =>
        let assigned := RechargeRequest.set_final_card_id card_id request in
        let! stored := flush_request request_id request assigned now in
        let! _ := _log request_id actor_id
                    (Some (RechargeRequest.status stored))
                    (RechargeRequest.status stored)
                    (Some "Card assigned"%string) now in
        let! _ := commit in
        ret (request_id, stored)
    end).

Definition set_approver (request_id : Z) (approver_id : Z) (now : Z)
    : Svc (Z * RechargeRequest.t) :=
  session (
    let! found := get_request_for_update request_id in
    match found with
    | None => raise NoResultFound
    | Some request =>
        let assigned := RechargeRequest.set_approver_id approver_id request in
        let! stored := flush_request request_id request assigned now in
        let! _ := commit in
        ret (request_id, stored)
    end).

(** One dictionary of the list that [export_consumed_requests] returns. *)
Record ConsumedRow := mkConsumedRow {
  row_id : Z;
  row_amount : Z;
  row_type : string;
  row_updated_at : Z;
  row_requester : string;
  row_responsible : option string;
  row_approver : option string;
  row_card_type : option string
}.

(** The joins of [export_consumed_requests] for one request: the requester is
    joined (a request without a requester row gives no row), the responsible,
    the approver and the card are outer-joined (a missing row gives NULL). *)
Definition consumed_join (db : Database) (kr : Z * RechargeRequest.t)
    : option (RechargeRequest.t * ConsumedRow) :=
  match users db !! RechargeRequest.requester_id kr.2 with
  | None => None
  | Some requester =>
      Some (kr.2,
            mkConsumedRow kr.1 (RechargeRequest.amount kr.2)
              (RequestType_value (RechargeRequest.request_type kr.2))
              (RechargeRequest.updated_at kr.2)
              (User.full_name requester)
              (User.full_name <$>
                 (RechargeRequest.responsible_id kr.2 ≫= λ i, users db !! i))
              (User.full_name <$>
                 (RechargeRequest.approver_id kr.2 ≫= λ i, users db !! i))
              (CardType_value <$>
                 (Card.card_type <$>
                    (RechargeRequest.final_card_id kr.2 ≫= λ i, cards db !! i))))
  end.

(** The WHERE clause of [export_consumed_requests] with its optional parts. *)
Definition consumed_where (responsible_id : option Z) (start end_ : option Z)
    (jr : RechargeRequest.t * ConsumedRow) : Prop :=
  RechargeRequest.status jr.1 = APPROVED
  ∧ match responsible_id with
    | Some r => RechargeRequest.responsible_id jr.1 = Some r
    | None => True
    end
  ∧ match start with
    | Some t => t ≤ RechargeRequest.updated_at jr.1
    | None => True
    end
  ∧ match end_ with
    | Some t => RechargeRequest.updated_at jr.1 ≤ t
    | None => True
    end.

Global Instance consumed_where_dec responsible_id start end_ jr :
  Decision (consumed_where responsible_id start end_ jr).
Proof.
  unfold consumed_where. destruct responsible_id, start, end_; apply _.
Defined.

(** [.order_by(RechargeRequest.updated_at)] *)
Definition updated_le (x y : RechargeRequest.t * ConsumedRow) : Prop :=
  RechargeRequest.updated_at x.1 ≤ RechargeRequest.updated_at y.1.

Global Instance updated_le_dec x y : Decision (updated_le x y).
Proof. unfold updated_le. apply _. Defined.

Definition export_consumed_requests (responsible_id : option Z) (start end_ : option Z)
    (db : Database) : list ConsumedRow :=
  snd <$>
    merge_sort updated_le
      (filter (consumed_where responsible_id start end_)
              (omap (consumed_join db) (map_to_list (requests db)))).

End RequestService.

(** ** UserService ([app/services/users.py]), the lookup the handlers use *)

Module UserService.

Definition get_by_id (user_id : Z) (db : Database) : option User.t :=
  users db !! user_id.

(** [get_by_telegram_id]: the first row of the active users with that
    Telegram id (the query has no ORDER BY; [uq_user_telegram_id] leaves at
    most one such row). *)
Definition get_by_telegram_id (telegram_id : Z) (db : Database) : option (Z * User.t) :=
  head (filter (λ ku : Z * User.t,
                  User.telegram_id ku.2 = Some telegram_id
                  ∧ User.is_active ku.2 = true)
               (map_to_list (users db))).

Definition list_responsibles (db : Database) : list (Z * User.t) :=
  filter (λ ku : Z * User.t, User.role ku.2 = RESPONSIBLE ∧ User.is_active ku.2 = true)
         (map_to_list (users db)).

Definition list_members (manager_id : Z) (db : Database) : list (Z * User.t) :=
  filter (λ ku : Z * User.t, User.manager_id ku.2 = Some manager_id)
         (map_to_list (users db)).

Definition list_users (db : Database) : list (Z * User.t) := map_to_list (users db).

Definition list_admins (db : Database) : list (Z * User.t) :=
  filter (λ ku : Z * User.t, User.role ku.2 = ADMIN ∧ User.is_active ku.2 = true)
         (map_to_list (users db)).

(** Reading a relationship attribute that the session has not loaded.
    [session.get] loads the columns of the row only, the relationships are
    lazy (the default of [relationship]), and under [AsyncSession] the SELECT
    that a lazy attribute emits on access raises MissingGreenlet. [select]
    is the SELECT that would have run. *)
Definition lazy_load {A} (select : Database → A) : Tx A :=
  raise MissingGreenlet.

(** [deactivate_user]. [user.members] is such an attribute, read right after
    [session.get]. *)
Definition deactivate_user (user_id : Z) : Svc (Z * User.t) :=
  session (
    let! found := query (λ db, users db !! user_id) in
    match found with
    | None => raise NoResultFound
    | Some user =>
        let! members :=
          lazy_load (λ db, filter (λ ku : Z * User.t,
                                     User.manager_id ku.2 = Some user_id)
                                  (map_to_list (users db))) in
        let! _ :=
          write (with_users (λ m,
                   foldl (λ m (member : Z * User.t),
                            alter User.clear_manager_id member.1 m)
                         m members)) in
        let! _ := write (with_users (alter User.deactivate user_id)) in
        let! _ := commit in
        let! refreshed := query (λ db, users db !! user_id) in
        ret (user_id, default user refreshed)
    end).

End UserService.

(** ** Handlers

    A handler is modelled from the point where its inputs are resolved: the
    current user is what [get_current_user] returned, and [delivered] is what
    [send_card_to_chat] returns, which depends on Telegram alone; the direct
    sends take the answers of Telegram themselves, as a [Bot]. What a
    handler tells the user is kept as the constructor of its outcome. The
    handlers run alone: no other transaction holds a row lock. *)

(** Python truthiness of an optional integer: [None] and [0] are false. *)
Definition truthy (o : option Z) : bool :=
  match o with
  | Some n => bool_decide (n ≠ 0)
  | None => false
  end.

(** Python truthiness of an optional string: [None] and the empty string are
    false. *)
Definition nonempty (o : option string) : bool :=
  match o with
  | Some s => bool_decide (s ≠ ""%string)
  | None => false
  end.

(** What lies outside the program when it sends: the answer of Telegram to
    each call of the bot, [None] when the call returns and [Some e] when it
    raises [e], and whether a saved card file is on the disk. *)
Record Bot := mkBot {
  send_photo : option Z → string → option exn;       (* chat, Telegram file id *)
  send_photo_file : option Z → string → option exn;  (* chat, path of the file *)
  send_message : option Z → option exn;              (* chat *)
  file_exists : string → bool
}.

(** A call that returns or raises and leaves the store alone. *)
Definition outside {S A} (r : result A) : M S A := λ s, (r, s).

(** The messages Telegram has accepted, each as the chat it went to and the
    count of remaining cards it reports. *)
Definition Outbox : Type := list (Z * Z).

(** [await bot.send_message(chat, text)] of a stock alert. *)
Definition send_alert (bot : Bot) (chat remaining : Z) : M Outbox unit :=
  λ sent, match send_message bot (Some chat) with
          | None => (Ok tt, sent ++ [(chat, remaining)])
          | Some e => (Raise e, sent)
          end.

Module HandlersRequests.

(** The keys of the conversation state that [_process_request] reads. *)
Record FlowData := mkFlowData {
  data_amount : option Z;
  data_origin : option string;
  data_request_type : option RequestType;
  data_card_type : option CardType
}.

Inductive ProcessOutcome :=
  | UserNotIdentified
  | InvalidAmount
  | NoResponsibleDefined
  | Registered (request : Z * RechargeRequest.t).

(** [_process_request], up to and including the creation of the request.
    What follows in the source only notifies people and resets the
    conversation. *)
Definition _process_request (current_user : option (Z * User.t)) (data : FlowData)
    (now : Z) : Svc ProcessOutcome :=
  match current_user with
  | None => ret UserNotIdentified
  | Some (user_id, user) =>
      let amount := default 0 (data_amount data) in
      let origin := default "user"%string (data_origin data) in
      let request_type := default FIXED (data_request_type data) in
      let card_type :=
        match data_card_type data with
        | Some ct => if decide (origin = "admin"%string) then Some ct
                     else User.line_type user
        | None => User.line_type user
        end in
      if decide (amount ≤ 0) then ret InvalidAmount
      else
        let create responsible_id status :=
          let! request :=
            RequestService.create_request user_id responsible_id amount
              request_type status None card_type now in
          ret (Registered request) in
        match User.role user with
        | USER =>
            match User.manager_id user with
            | None => ret NoResponsibleDefined
            | Some manager => create (Some manager) PENDING_MANAGER
            end
        | RESPONSIBLE => create (Some user_id) PENDING_ACCOUNTING
        | ADMIN => create None PENDING_ACCOUNTING
        end
  end.

(** [_accounting_options]: the card types that have stock for the amount,
    with their counts. *)
Definition _accounting_options (amount : Z) (db : Database) : list (CardType * Z) :=
  foldl (λ options card_type,
           let count := CardService.count_available card_type amount db in
           if decide (count ≠ 0) then options ++ [(card_type, count)] else options)
        [] CardType_members.

Inductive ManagerAction := Approve | Send | Reject | OtherAction.

Inductive ManagerOutcome :=
  | AccountNotFound
  | RequestNotFound
  | NotYourRequest
  | AlreadyHandled
  | ForwardedToAccounting
  | NoDirectPermission
  | NoSuitableCard
  | StockExhausted
  | RequesterNotOnTelegram
  | DeliveryFailed
  | CardDelivered (card : Z * Card.t)
  | RequestRejected
  | NothingDone.

(** [handle_manager_decision]; [action] is the second field of the callback
    data. *)
Definition handle_manager_decision (action : ManagerAction) (request_id : Z)
    (current_user : option (Z * User.t)) (delivered : bool) (now : Z)
    : Svc ManagerOutcome :=
  match current_user with
  | None => ret AccountNotFound
  | Some (manager_id, manager) =>
      let! found := read (RequestService.get_request request_id) in
      match found with
      | None => ret RequestNotFound
      | Some request =>
          if decide (RechargeRequest.responsible_id request ≠ Some manager_id)
          then ret NotYourRequest
          else if decide (RechargeRequest.status request ≠ PENDING_MANAGER)
          then ret AlreadyHandled
          else
            let! requester :=
              read (UserService.get_by_id (RechargeRequest.requester_id request)) in
            match action with
            | Approve =>
                let! _ := RequestService.set_status request_id (Some manager_id)
                            PENDING_ACCOUNTING None now in
                ret ForwardedToAccounting
            | Send =>
                if negb (User.can_approve_directly manager)
                then ret NoDirectPermission
                else
                  let! options :=
                    read (_accounting_options (RechargeRequest.amount request)) in
                  match options with
                  | [] => ret NoSuitableCard
                  | (card_type, _) :: _ =>
                      let! reserved :=
                        try_except
                          (let! card :=
                             CardService.take_first_available ∅ card_type
                               (RechargeRequest.amount request) (Some manager_id) now in
                           ret (Some card))
                          (λ e, match e with
                                | NoResultFound => ret None
                                | _ => raise e
                                end) in
                      match reserved with
                      | None => ret StockExhausted
                      | Some card =>
                          let! _ := RequestService.attach_card request_id card.1
                                      (Some manager_id) now in
                          let! _ := RequestService.set_approver request_id manager_id
                                      now in
                          let! _ := RequestService.set_status request_id
                                      (Some manager_id) APPROVED None now in
                          if negb (match requester with
                                   | Some u => truthy (User.telegram_id u)
                                   | None => false
                                   end)
                          then ret RequesterNotOnTelegram
                          else if negb delivered then ret DeliveryFailed
                          else
                            let! _ := CardService.mark_sent card.1 (Some manager_id)
                                        now in
                            ret (CardDelivered card)
                      end
                  end
            | Reject =>
                let! _ := RequestService.set_status request_id (Some manager_id)
                            REJECTED None now in
                ret RequestRejected
            | OtherAction => ret NothingDone
            end
      end
  end.

Inductive AccountingAction := AccountingReject | AccountingApprove | AccountingOther.

Inductive AccountingOutcome :=
  | AccessDenied
  | AccountingRequestNotFound
  | AccountingAlreadyHandled
  | RejectedByAccounting
  | LineTypeUnknown
  | NoStockForRequester
  | CardUnbound
  | CardSent (card : Z * Card.t).

(** [handle_accounting_decision]; [action] is the second field of the
    callback data. With an action that is neither [reject] nor [approve] the
    local [card] is never assigned and evaluating [card.id] raises
    UnboundLocalError before any service is called: this is the outcome
    [CardUnbound]. What [send_card_to_chat] returns is dropped. *)
Definition handle_accounting_decision (action : AccountingAction) (request_id : Z)
    (current_user : option (Z * User.t)) (delivered : bool) (now : Z)
    : Svc AccountingOutcome :=
  match current_user with
  | None => ret AccessDenied
  | Some (admin_id, admin) =>
      if decide (User.role admin ≠ ADMIN) then ret AccessDenied
      else
        let! found := read (RequestService.get_request request_id) in
        match found with
        | None => ret AccountingRequestNotFound
        | Some request =>
            if decide (RechargeRequest.status request ≠ PENDING_ACCOUNTING)
            then ret AccountingAlreadyHandled
            else
              let deliver (card : Z * Card.t) : Svc AccountingOutcome :=
                let! _ := RequestService.attach_card request_id card.1 (Some admin_id)
                            now in
                let! _ := RequestService.set_approver request_id admin_id now in
                let! _ := RequestService.set_status request_id (Some admin_id)
                            APPROVED None now in
                let! requester :=
                  read (UserService.get_by_id (RechargeRequest.requester_id request)) in
                let _sent :=
                  match requester with
                  | Some u => if truthy (User.telegram_id u) then delivered else false
                  | None => false
                  end in
                let! _ := CardService.mark_sent card.1 (Some admin_id) now in
                ret (CardSent card) in
              match action with
              | AccountingReject =>
                  let! _ := RequestService.set_status request_id (Some admin_id)
                              REJECTED None now in
                  ret RejectedByAccounting
              | AccountingApprove =>
                  let! requester :=
                    read (UserService.get_by_id
                            (RechargeRequest.requester_id request)) in
                  match requester ≫= User.line_type with
                  | None => ret LineTypeUnknown
                  | Some card_type =>
                      let! reserved :=
                        try_except
                          (let! card :=
                             CardService.take_first_available ∅ card_type
                               (RechargeRequest.amount request) (Some admin_id) now in
                           ret (Some card))
                          (λ e, match e with
                                | NoResultFound => ret None
                                | _ => raise e
                                end) in
                      match reserved with
                      | None => ret NoStockForRequester
                      | Some card => deliver card
                      end
                  end
              | AccountingOther => ret CardUnbound
              end
        end
  end.

(** [send_card_to_chat]: the photo by its Telegram file id, else the saved
    file, else a text message. Only TelegramBadRequest is caught around the
    first attempt; the two others catch every exception. *)
Definition send_card_to_chat (bot : Bot) (card : Card.t) (chat_id : option Z)
    : result bool :=
  let text_message :=
    match send_message bot chat_id with
    | None => Ok true
    | Some _ => Ok false
    end in
  let saved_file :=
    match Card.image_path card with
    | Some path =>
        if nonempty (Some path) && file_exists bot path then
          match send_photo_file bot chat_id path with
          | None => Ok true
          | Some _ => text_message
          end
        else text_message
    | None => text_message
    end in
  match Card.image_file_id card with
  | Some file_id =>
      if nonempty (Some file_id) then
        match send_photo bot chat_id file_id with
        | None => Ok true
        | Some TelegramBadRequest => saved_file
        | Some e => Raise e
        end
      else saved_file
  | None => saved_file
  end.

(** The loop of [_check_inventory_threshold] over the admins: no [try]
    around the send. *)
Fixpoint check_threshold_loop (bot : Bot) (remaining : Z) (admins : list (Z * User.t))
    : M Outbox unit :=
  match admins with
  | [] => ret tt
  | admin :: admins =>
      if truthy (User.telegram_id admin.2) then
        let! _ := send_alert bot (default 0 (User.telegram_id admin.2)) remaining in
        check_threshold_loop bot remaining admins
      else check_threshold_loop bot remaining admins
  end.

(** [_check_inventory_threshold], on the store it reads. *)
Definition _check_inventory_threshold (bot : Bot) (card_type : CardType) (amount : Z)
    (db : Database) : M Outbox unit :=
  let remaining := CardService.count_available card_type amount db in
  if decide (remaining > 2) then ret tt
  else check_threshold_loop bot remaining (UserService.list_admins db).

End HandlersRequests.

Module HandlersAdmin.

Inductive SendOutcome :=
  | NoStock
  | DeliveryFailed
  | RegistrationFailed
  | Completed (card : Z * Card.t).

(** [admin_send_card_amount], from the reservation to [mark_sent].
    [operator] is the current user, [target_user] the user chosen earlier in
    the dialogue. The call of [send_card_to_chat] stands outside every
    [try]. *)
Definition admin_send_card_amount (operator : option (Z * User.t))
    (target_user : Z * User.t) (card_type : CardType) (amount : Z)
    (bot : Bot) (now : Z) : Svc SendOutcome :=
  let actor_id := fst <$> operator in
  let! reserved :=
    try_except
      (let! card := CardService.take_first_available ∅ card_type amount actor_id now in
       ret (Some card))
      (λ e, match e with
            | NoResultFound => ret None
            | _ => raise e
            end) in
  match reserved with
  | None => ret NoStock
  | Some card =>
      let! sent :=
        outside (HandlersRequests.send_card_to_chat bot card.2
                   (User.telegram_id target_user.2)) in
      if negb sent then
        let! _ := CardService.restore_card card.1 actor_id now in
        ret DeliveryFailed
      else
        let! registered :=
          try_except
            (let! request :=
               RequestService.create_request target_user.1 None (Card.amount card.2)
                 FIXED PENDING_MANAGER None (Some (Card.card_type card.2)) now in
             let! _ := RequestService.attach_card request.1 card.1 actor_id now in
             let! _ := RequestService.set_status request.1 actor_id APPROVED
                         (Some "Direct admin send"%string) now in
             let! _ :=
               match actor_id with
               | Some actor =>
                   if decide (actor ≠ 0) then
                     let! _ := RequestService.set_approver request.1 actor now in
                     ret tt
                   else ret tt
               | None => ret tt
               end in
             ret true)
            (λ _,
               let! _ := CardService.restore_card card.1 actor_id now in
               ret false) in
        if negb registered then ret RegistrationFailed
        else
          let! _ := CardService.mark_sent card.1 actor_id now in
          ret (Completed card)
  end.

(** An entry collected by the dialogue that adds cards: a photo, with its
    Telegram file id and the path of the saved file relative to the media
    directory, or a serial number. *)
Inductive CardEntry :=
  | PhotoEntry (file_id relative_path : string)
  | SerialEntry (serial : string).

Inductive AddCardsOutcome :=
  | CardsAdded (count : nat)
  | DuplicateSuspected
  | UnexpectedFailure.

(** The loop of [admin_add_cards_confirm]: one [add_card] call, and so one
    transaction, for each entry. *)
Fixpoint add_entries (card_type : CardType) (amount : Z) (actor_id : option Z)
    (now : Z) (entries : list CardEntry) : Svc unit :=
  match entries with
  | [] => ret tt
  | entry :: entries =>
      let! _ :=
        match entry with
        | PhotoEntry file_id relative_path =>
            CardService.add_card card_type amount actor_id (Some file_id)
              (Some relative_path) None now
        | SerialEntry serial =>
            CardService.add_card card_type amount actor_id None None (Some serial) now
        end in
      add_entries card_type amount actor_id now entries
  end.

(** [admin_add_cards_confirm], for a complete conversation state. *)
Definition admin_add_cards_confirm (current_user : option (Z * User.t))
    (card_type : CardType) (amount : Z) (entries : list CardEntry) (now : Z)
    : Svc AddCardsOutcome :=
  let actor_id := fst <$> current_user in
  let count := length entries in
  try_except
    (let! _ := add_entries card_type amount actor_id now entries in
     ret (CardsAdded count))
    (λ e, match e with
          | IntegrityError => ret DuplicateSuspected
          | _ => ret UnexpectedFailure
          end).

End HandlersAdmin.

Module HandlersResponsible.

Inductive SendOutcome :=
  | NoStock
  | DeliveryFailed
  | RegistrationFailed
  | Completed (card : Z * Card.t)
  | Requested (request : Z * RechargeRequest.t).

(** [responsible_send_card_amount], from the point where the two users are
    resolved: with [can_direct] the direct send, from the reservation to
    [mark_sent]; without it the request filed for the target user, up to its
    creation. The call of [send_card_to_chat] stands outside every [try]. *)
Definition responsible_send_card_amount (responsible_user : Z * User.t)
    (target_user : Z * User.t) (card_type : CardType) (amount : Z)
    (can_direct : bool) (bot : Bot) (now : Z) : Svc SendOutcome :=
  let actor_id := Some responsible_user.1 in
  if can_direct then
    let! reserved :=
      try_except
        (let! card :=
           CardService.take_first_available ∅ card_type amount actor_id now in
         ret (Some card))
        (λ e, match e with
              | NoResultFound => ret None
              | _ => raise e
              end) in
    match reserved with
    | None => ret NoStock
    | Some card =>
        let! sent :=
          outside (HandlersRequests.send_card_to_chat bot card.2
                     (User.telegram_id target_user.2)) in
        if negb sent then
          let! _ := CardService.restore_card card.1 actor_id now in
          ret DeliveryFailed
        else
          let! registered :=
            try_except
              (let! request :=
                 RequestService.create_request target_user.1 actor_id
                   (Card.amount card.2) FIXED PENDING_MANAGER None
                   (Some (Card.card_type card.2)) now in
               let! _ := RequestService.attach_card request.1 card.1 actor_id now in
               let! _ := RequestService.set_status request.1 actor_id APPROVED
                           (Some "Direct responsible send"%string) now in
               let! _ :=
                 RequestService.set_approver request.1 responsible_user.1 now in
               ret true)
              (λ _,
                 let! _ := CardService.restore_card card.1 actor_id now in
                 ret false) in
          if negb registered then ret RegistrationFailed
          else
            let! _ := CardService.mark_sent card.1 actor_id now in
            ret (Completed card)
    end
  else
    let! request :=
      RequestService.create_request target_user.1 actor_id amount FIXED
        PENDING_ACCOUNTING None (Some card_type) now in
    ret (Requested request).

End HandlersResponsible.

Module HandlersUtils.

(** The loop of [notify_inventory_threshold] over the admins: a send that
    Telegram turns down with TelegramBadRequest or TelegramForbiddenError is
    logged and skipped. *)
Fixpoint notify_loop (bot : Bot) (remaining : Z) (exclude_user_id : option Z)
    (admins : list (Z * User.t)) : M Outbox unit :=
  match admins with
  | [] => ret tt
  | admin :: admins =>
      if negb (truthy (User.telegram_id admin.2)) then
        notify_loop bot remaining exclude_user_id admins
      else if decide (exclude_user_id = Some admin.1) then
        notify_loop bot remaining exclude_user_id admins
      else
        let! _ :=
          try_except
            (send_alert bot (default 0 (User.telegram_id admin.2)) remaining)
            (λ e, match e with
                  | TelegramBadRequest | TelegramForbiddenError => ret tt
                  | _ => raise e
                  end) in
        notify_loop bot remaining exclude_user_id admins
  end.

(** [notify_inventory_threshold], on the store it reads. *)
Definition notify_inventory_threshold (bot : Bot) (card_type : CardType) (amount : Z)
    (exclude_user_id : option Z) (db : Database) : M Outbox unit :=
  let remaining := CardService.count_available card_type amount db in
  if decide (remaining > 2) then ret tt
  else notify_loop bot remaining exclude_user_id (UserService.list_admins db).

End HandlersUtils.

(** ** Tariffs ([app/keyboards/cards.py]) *)

Module KeyboardsCards.

Definition calculate_tariff (amount : Z) : Z :=
  if decide (amount ≤ 15000) then amount + 500 else amount + 1000.

End KeyboardsCards.

(** ** Phone numbers ([app/utils/formatters.py])

    A Python string is the list of its code points. [str.isdigit] on one
    character is a table of Unicode that the functions take as [isdigit]. *)

Module Formatters.

Definition plus_sign : Z := 43.
Definition digit_zero : Z := 48.

Section normalize.
Variable isdigit : Z → bool.

Definition normalize_phone (phone : list Z) : list Z :=
  let digits := filter (λ ch, isdigit ch = true ∨ ch = plus_sign) phone in
  let digits :=
    match digits with
    | a :: b :: rest =>
        if decide (a = digit_zero ∧ b = digit_zero) then plus_sign :: rest else digits
    | _ => digits
    end in
  match digits with
  | a :: _ => if decide (a = plus_sign) then digits else plus_sign :: digits
  | [] => plus_sign :: digits
  end.

End normalize.

End Formatters.

(** ** Monthly reports ([RequestService.record_monthly_report])

    The table [monthlyreport] is read and written by this operation alone; it
    is kept apart from the store of the cards and requests. *)

Module MonthlyReport.
Record t := mk {
  period_start : Z;
  period_end : Z;
  total_amount : Z;
  report_path : string;
  created_at : Z
}.

(** [report.total_amount = ...; report.report_path = ...] *)
Definition set_totals (total_amount : Z) (report_path : string) (r : t) : t :=
  mk (period_start r) (period_end r) total_amount report_path (created_at r).
End MonthlyReport.

Module Reports.

(** A [datetime]: its calendar day, as a day number, and the time within the
    day; [date] is the method [.date()]. *)
Record datetime := mkDatetime {
  date : Z;
  time : Z
}.

(** [record_monthly_report]. The block selects, changes or adds one row and
    commits once at its end; nothing in it raises. *)
Definition record_monthly_report (period_start period_end : datetime)
    (total_amount : Z) (report_path : string) (now : Z)
    (reports : gmap Z MonthlyReport.t)
    : (Z * MonthlyReport.t) * gmap Z MonthlyReport.t :=
  match head (filter (λ kr : Z * MonthlyReport.t,
                        MonthlyReport.period_start kr.2 = date period_start
                        ∧ MonthlyReport.period_end kr.2 = date period_end)
                     (map_to_list reports)) with
  | Some (id, report) =>
      let report := MonthlyReport.set_totals total_amount report_path report in
      ((id, report), <[id := report]> reports)
  | None =>
      let report := MonthlyReport.mk (date period_start) (date period_end)
                      total_amount report_path now in
      let id := next_id reports in
      ((id, report), <[id := report]> reports)
  end.

End Reports.

(** ** Sequences of workflow operations *)

Inductive RequestOp :=
  | CreateRequest (requester_id : Z) (responsible_id : option Z) (amount : Z)
      (request_type : RequestType) (status : RequestStatus) (note : option string)
      (card_type : option CardType) (now : Z)
  | SetStatus (request_id : Z) (actor_id : option Z) (new_status : RequestStatus)
      (note : option string) (now : Z)
  | AttachCard (request_id : Z) (card_id : Z) (actor_id : option Z) (now : Z).

(** The store after one call, whether it returned or raised. *)
Definition run_op (op : RequestOp) (db : Database) : Database :=
  match op with
  | CreateRequest requester_id responsible_id amount request_type status note
      card_type now =>
      (RequestService.create_request requester_id responsible_id amount request_type
         status note card_type now db).2
  | SetStatus request_id actor_id new_status note now =>
      (RequestService.set_status request_id actor_id new_status note now db).2
  | AttachCard request_id card_id actor_id now =>
      (RequestService.attach_card request_id card_id actor_id now db).2
  end.

Definition run_ops (ops : list RequestOp) (db : Database) : Database :=
  foldl (λ db op, run_op op db) db ops.

(** The history rows of one request, oldest first. *)
Definition history_of (request_id : Z) (db : Database) : list RequestStatusHistory.t :=
  filter (λ h, RequestStatusHistory.request_id h = request_id) (history db).

(** The history of a request reconstructs it: there is a first row, it has no
    [from_status], and the last row leads to the status [status]. *)
Definition reconstructs (rows : list RequestStatusHistory.t) (status : RequestStatus)
    : Prop :=
  (∃ first, head rows = Some first ∧ RequestStatusHistory.from_status first = None)
  ∧ (∃ final, last rows = Some final ∧ RequestStatusHistory.to_status final = status).

(** Every history row belongs to a stored request, and every stored request
    is reconstructed by its rows. *)
Definition history_consistent (db : Database) : Prop :=
  (∀ h, h ∈ history db → is_Some (requests db !! RequestStatusHistory.request_id h))
  ∧ (∀ k r, requests db !! k = Some r →
            reconstructs (history_of k db) (RechargeRequest.status r)).

(** ** Sequences of inventory operations *)

Inductive CardOp :=
  | AddCard (card_type : CardType) (amount : Z) (actor_id : option Z)
      (image_file_id image_path serial_number : option string) (now : Z)
  | TakeFirstAvailable (locked : gset Z) (card_type : CardType) (amount : Z)
      (actor_id : option Z) (now : Z)
  | ReserveCard (card_id : Z) (actor_id : option Z) (now : Z)
  | MarkSent (card_id : Z) (actor_id : option Z) (now : Z)
  | RestoreCard (card_id : Z) (actor_id : option Z) (now : Z).

(** The store after one call, whether it returned or raised. *)
Definition run_card_op (op : CardOp) (db : Database) : Database :=
  match op with
  | AddCard card_type amount actor_id image_file_id image_path serial_number now =>
      (CardService.add_card card_type amount actor_id image_file_id image_path
         serial_number now db).2
  | TakeFirstAvailable locked card_type amount actor_id now =>
      (CardService.take_first_available locked card_type amount actor_id now db).2
  | ReserveCard card_id actor_id now =>
      (CardService.reserve_card card_id actor_id now db).2
  | MarkSent card_id actor_id now => (CardService.mark_sent card_id actor_id now db).2
  | RestoreCard card_id actor_id now =>
      (CardService.restore_card card_id actor_id now db).2
  end.

Definition run_card_ops (ops : list CardOp) (db : Database) : Database :=
  foldl (λ db op, run_card_op op db) db ops.

(** The inventory-log rows of one card, oldest first. *)
Definition log_of (card_id : Z) (db : Database) : list CardInventoryLog.t :=
  filter (λ row, CardInventoryLog.card_id row = card_id) (card_logs db).

(** The status in which an action leaves a card. *)
Definition status_after (action : InventoryAction) : option CardStatus :=
  match action with
  | ADD => Some AVAILABLE
  | RESERVE => Some RESERVED
  | SEND => Some SENT
  | RESTORE => Some AVAILABLE
  | THRESHOLD_ALERT => None
  end.

(** The log of a card explains it: its first row is the ADD, and its last row
    is the action that leaves the status [status]. *)
Definition explains (rows : list CardInventoryLog.t) (status : CardStatus) : Prop :=
  (∃ first, head rows = Some first ∧ CardInventoryLog.action first = ADD)
  ∧ (∃ final, last rows = Some final
              ∧ status_after (CardInventoryLog.action final) = Some status).

(** Every log row belongs to a stored card, and every stored card is
    explained by its rows. *)
Definition inventory_consistent (db : Database) : Prop :=
  (∀ row, row ∈ card_logs db → is_Some (cards db !! CardInventoryLog.card_id row))
  ∧ (∀ k c, cards db !! k = Some c → explains (log_of k db) (Card.status c)).

(** The constraints of the card table: [ck_card_amount_positive] and
    [uq_card_serial]. *)
Definition card_constraints (db : Database) : Prop :=
  (∀ k c, cards db !! k = Some c → 0 < Card.amount c)
  ∧ (∀ k k' c c' sn, cards db !! k = Some c → cards db !! k' = Some c' →
       Card.serial_number c = Some sn → Card.serial_number c' = Some sn → k = k').

(** ** Vocabulary of the statements *)

(** A row that [take_first_available] may pick: a match of the WHERE clause
    that no transaction in flight has locked. *)
Definition unlocked_match (locked : gset Z) (card_type : CardType) (amount : Z)
    (db : Database) (id : Z) (card : Card.t) : Prop :=
  cards db !! id = Some card ∧ CardService.available_match card_type amount (id, card)
  ∧ id ∉ locked.

(** The inventory-log row of an action on a card. *)
Definition log_row (card_id : Z) (action : InventoryAction) (actor_id : option Z)
    (now : Z) : CardInventoryLog.t :=
  CardInventoryLog.mk card_id actor_id action None now.

(** The store after the row of [card_id] became [card] and [action] was
    logged: nothing else differs. *)
Definition moved (card_id : Z) (card : Card.t) (action : InventoryAction)
    (actor_id : option Z) (now : Z) (db : Database) : Database :=
  mkDatabase (users db) (<[card_id := card]> (cards db))
    (card_logs db ++ [log_row card_id action actor_id now]) (requests db) (history db).

(** The store after the row of [request_id] became [request] and [rows] were
    appended to the history: nothing else differs. *)
Definition recorded (request_id : Z) (request : RechargeRequest.t)
    (rows : list RequestStatusHistory.t) (db : Database) : Database :=
  mkDatabase (users db) (cards db) (card_logs db)
    (<[request_id := request]> (requests db)) (history db ++ rows).

(** The row a flush leaves in the table, see [RequestService.flush_request]. *)
Definition stored (loaded assigned : RechargeRequest.t) (now : Z) : RechargeRequest.t :=
  if decide (assigned = loaded) then loaded
  else if decide (RechargeRequest.updated_at assigned = RechargeRequest.updated_at loaded)
       then RechargeRequest.set_updated_at now assigned
       else assigned.

(** Two request rows that agree on every column but [approver_id] and
    [updated_at]. *)
Definition same_but_approver (r r' : RechargeRequest.t) : Prop :=
  RechargeRequest.requester_id r' = RechargeRequest.requester_id r
  ∧ RechargeRequest.responsible_id r' = RechargeRequest.responsible_id r
  ∧ RechargeRequest.accounting_id r' = RechargeRequest.accounting_id r
  ∧ RechargeRequest.request_type r' = RechargeRequest.request_type r
  ∧ RechargeRequest.amount r' = RechargeRequest.amount r
  ∧ RechargeRequest.status r' = RechargeRequest.status r
  ∧ RechargeRequest.final_card_id r' = RechargeRequest.final_card_id r
  ∧ RechargeRequest.card_type r' = RechargeRequest.card_type r
  ∧ RechargeRequest.reason r' = RechargeRequest.reason r
  ∧ RechargeRequest.created_at r' = RechargeRequest.created_at r.

(** Two request rows that agree on every column but [final_card_id] and
    [updated_at]. *)
Definition same_but_final_card (r r' : RechargeRequest.t) : Prop :=
  RechargeRequest.requester_id r' = RechargeRequest.requester_id r
  ∧ RechargeRequest.responsible_id r' = RechargeRequest.responsible_id r
  ∧ RechargeRequest.accounting_id r' = RechargeRequest.accounting_id r
  ∧ RechargeRequest.approver_id r' = RechargeRequest.approver_id r
  ∧ RechargeRequest.request_type r' = RechargeRequest.request_type r
  ∧ RechargeRequest.amount r' = RechargeRequest.amount r
  ∧ RechargeRequest.status r' = RechargeRequest.status r
  ∧ RechargeRequest.card_type r' = RechargeRequest.card_type r
  ∧ RechargeRequest.reason r' = RechargeRequest.reason r
  ∧ RechargeRequest.created_at r' = RechargeRequest.created_at r.

(** The request row after [attach_card], [set_approver] and [set_status] to
    APPROVED, in that order, as the approving handlers call them. *)
Definition approved_with (card_id approver_id now : Z) (request : RechargeRequest.t)
    : RechargeRequest.t :=
  let attached :=
    stored request (RechargeRequest.set_final_card_id card_id request) now in
  let attributed :=
    stored attached (RechargeRequest.set_approver_id approver_id attached) now in
  RechargeRequest.set_updated_at now (RechargeRequest.set_status APPROVED attributed).

(** The two history rows that sequence appends. *)
Definition approval_rows (request_id : Z) (actor_id : option Z) (now : Z)
    (request : RechargeRequest.t) : list RequestStatusHistory.t :=
  [RequestStatusHistory.mk request_id actor_id (Some (RechargeRequest.status request))
     (RechargeRequest.status request) (Some "Card assigned"%string) now;
   RequestStatusHistory.mk request_id actor_id (Some (RechargeRequest.status request))
     APPROVED None now].

(** The serial numbers among the entries of a batch. *)
Definition entry_serials (entries : list HandlersAdmin.CardEntry) : list string :=
  omap (λ entry, match entry with
                 | HandlersAdmin.SerialEntry serial => Some serial
                 | HandlersAdmin.PhotoEntry _ _ => None
                 end) entries.

(** The constraint [uq_monthly_report_period]: one row for a period. *)
Definition period_unique (reports : gmap Z MonthlyReport.t) : Prop :=
  ∀ k k' r r', reports !! k = Some r → reports !! k' = Some r' →
    MonthlyReport.period_start r = MonthlyReport.period_start r' →
    MonthlyReport.period_end r = MonthlyReport.period_end r' → k = k'.

(** The chats a stock alert is meant for, in the order of the admins: those
    of the admins with a Telegram id other than 0, but the excluded user. *)
Definition alert_chats (exclude_user_id : option Z) (admins : list (Z * User.t))
    : list Z :=
  omap (λ admin : Z * User.t,
          match User.telegram_id admin.2 with
          | Some chat =>
              if decide (chat ≠ 0 ∧ exclude_user_id ≠ Some admin.1) then Some chat
              else None
          | None => None
          end) admins.

(** Telegram accepts a message to the chat. *)
Definition accepts (bot : Bot) (chat : Z) : Prop := send_message bot (Some chat) = None.

Global Instance accepts_dec bot chat : Decision (accepts bot chat).
Proof. unfold accepts. apply _. Defined.

(** The exceptions that [notify_inventory_threshold] catches. *)
Definition skipped (e : exn) : Prop :=
  e = TelegramBadRequest ∨ e = TelegramForbiddenError.

(** The alerts to the chats, each reporting [remaining]. *)
Definition alerts (remaining : Z) (chats : list Z) : Outbox :=
  (λ chat, (chat, remaining)) <$> chats.

(** ** Sample stores *)

Module Sample.

Definition manager : User.t :=
  User.mk "manager" (Some 100) RESPONSIBLE None (Some ASIA) true true.

Definition member : User.t :=
  User.mk "member" (Some 200) USER (Some 1) (Some ASIA) false true.

Definition card_a : Card.t :=
  Card.mk ASIA 5000 AVAILABLE (Some "file-a"%string) None None None 0.

Definition card_b : Card.t :=
  Card.mk ASIA 5000 AVAILABLE None None (Some "serial-b"%string) None 0.

Definition pending_request : RechargeRequest.t :=
  RechargeRequest.mk 2 (Some 1) None None FIXED 5000 PENDING_MANAGER None (Some ASIA)
    None 0 0.

(** Two users, two available ASIA cards of 5000 (keys 3 and 7), and the
    request 1 of the member waiting for the manager. *)
Definition store : Database :=
  mkDatabase (<[1 := manager]> (<[2 := member]> ∅))
    (<[7 := card_a]> (<[3 := card_b]> ∅)) []
    (<[1 := pending_request]> ∅)
    [RequestStatusHistory.mk 1 (Some 2) None PENDING_MANAGER None 0].

Definition admin : User.t :=
  User.mk "admin" (Some 900) ADMIN None (Some ATHIR) false true.

Definition waiting_request : RechargeRequest.t :=
  RechargeRequest.mk 2 (Some 1) None None FIXED 5000 PENDING_ACCOUNTING None
    (Some ASIA) None 0 5.

(** The store with an admin (user 9) and a second request of the member, which
    the manager has forwarded to the accounting. *)
Definition office : Database :=
  mkDatabase (<[9 := admin]> (users store)) (cards store) []
    (<[2 := waiting_request]> (requests store))
    (history store ++
       [RequestStatusHistory.mk 2 (Some 2) None PENDING_MANAGER None 0;
        RequestStatusHistory.mk 2 (Some 1) (Some PENDING_MANAGER) PENDING_ACCOUNTING
          None 5]).

(** A request created for the member, forwarded by the manager, given the
    card 3 and approved. *)
Definition ops : list RequestOp :=
  [CreateRequest 2 (Some 1) 5000 FIXED PENDING_MANAGER None (Some ASIA) 1;
   SetStatus 1 (Some 1) PENDING_ACCOUNTING None 2;
   AttachCard 1 3 (Some 9) 3;
   SetStatus 1 (Some 9) APPROVED None 4].

Definition approved_request : RechargeRequest.t :=
  RechargeRequest.mk 2 (Some 1) None None FIXED 5000 APPROVED (Some 3) (Some ASIA)
    None 1 4.

(** A card added, reserved, restored, reserved by id and sent. *)
Definition card_ops : list CardOp :=
  [AddCard ASIA 5000 (Some 1) (Some "file"%string) None None 1;
   TakeFirstAvailable ∅ ASIA 5000 (Some 1) 2;
   RestoreCard 1 (Some 1) 3;
   ReserveCard 1 (Some 1) 4;
   MarkSent 1 (Some 1) 5].

Definition sent_card : Card.t :=
  Card.mk ASIA 5000 SENT (Some "file"%string) None None (Some 1) 1.

(** The table of monthly reports with the report of one earlier period. *)
Definition archive : gmap Z MonthlyReport.t :=
  {[ 1 := MonthlyReport.mk 69 99 18000 "reports/monthly_summary.xlsx" 3 ]}.

(** The office with a second admin (user 10). *)
Definition second_admin : User.t :=
  User.mk "second admin" (Some 1000) ADMIN None None false true.

Definition bureau : Database :=
  mkDatabase (<[10 := second_admin]> (users office)) (cards office) (card_logs office)
    (requests office) (history office).

(** The store with the card 7 alone, which has a Telegram file id. *)
Definition gallery : Database :=
  mkDatabase (users store) (<[7 := card_a]> ∅) [] (requests store) (history store).

(** Telegram accepting every call, with every saved file on the disk. *)
Definition reachable : Bot :=
  mkBot (λ _ _, None) (λ _ _, None) (λ _, None) (λ _, true).

(** Telegram turning every call down because the user has blocked the bot. *)
Definition blocked : Bot :=
  mkBot (λ _ _, Some TelegramForbiddenError) (λ _ _, Some TelegramForbiddenError)
        (λ _, Some TelegramForbiddenError) (λ _, true).

(** Telegram turning down the chat 900, which has blocked the bot, and
    accepting every other call. *)
Definition blocked_by_900 : Bot :=
  mkBot (λ _ _, None) (λ _ _, None)
        (λ chat, if decide (chat = Some 900) then Some TelegramForbiddenError else None)
        (λ _, true).

(** Telegram answering TelegramBadRequest to every call. *)
Definition refusing : Bot :=
  mkBot (λ _ _, Some TelegramBadRequest) (λ _ _, Some TelegramBadRequest)
        (λ _, Some TelegramBadRequest) (λ _, true).

End Sample.

(** * Properties *)

(** ** Ordered selection *)

Section ordered.
Context {A : Type}.

Global Instance id_le_trans : Transitive (@id_le A).
Proof. intros x y z. unfold id_le. lia. Qed.

Global Instance id_le_total : Total (@id_le A).
Proof. intros x y. unfold id_le. lia. Qed.

Lemma elem_of_order_by_id (P : Z * A → Prop) `{!∀ x, Decision (P x)}
    (m : gmap Z A) k a :
  (k, a) ∈ order_by_id (filter P (map_to_list m)) ↔ m !! k = Some a ∧ P (k, a).
Proof.
  unfold order_by_id. rewrite merge_sort_Permutation, list_elem_of_filter.
  rewrite elem_of_map_to_list. tauto.
Qed.

Lemma head_order_by_id_None (P : Z * A → Prop) `{!∀ x, Decision (P x)}
    (m : gmap Z A) :
  head (order_by_id (filter P (map_to_list m))) = None ↔
  ∀ k a, m !! k = Some a → ¬ P (k, a).
Proof.
  rewrite head_None. split.
  - intros Hnil k a Hk HP.
    assert (Hin : (k, a) ∈ order_by_id (filter P (map_to_list m)))
      by (by apply elem_of_order_by_id).
    rewrite Hnil in Hin. by apply not_elem_of_nil in Hin.
  - intros Hall.
    destruct (order_by_id (filter P (map_to_list m))) as [|[k a] l] eqn:E; [done|].
    assert (Hin : (k, a) ∈ order_by_id (filter P (map_to_list m)))
      by (rewrite E; left).
    apply elem_of_order_by_id in Hin as [Hk HP]. by destruct (Hall k a).
Qed.

Lemma head_order_by_id_Some (P : Z * A → Prop) `{!∀ x, Decision (P x)}
    (m : gmap Z A) k a :
  head (order_by_id (filter P (map_to_list m))) = Some (k, a) →
  m !! k = Some a ∧ P (k, a) ∧ ∀ k' a', m !! k' = Some a' → P (k', a') → k ≤ k'.
Proof.
  intros Hhead.
  pose proof (StronglySorted_merge_sort id_le (filter P (map_to_list m))) as Hsorted.
  fold (order_by_id (filter P (map_to_list m))) in Hsorted.
  assert (Hmem : ∀ k' a', (k', a') ∈ order_by_id (filter P (map_to_list m)) ↔
                          m !! k' = Some a' ∧ P (k', a'))
    by (intros; apply elem_of_order_by_id).
  destruct (order_by_id (filter P (map_to_list m))) as [|x l]; [done|].
  simpl in Hhead. injection Hhead as ->.
  destruct (proj1 (Hmem k a)) as [Hk HP]; [left|].
  split; [done|]. split; [done|].
  intros k' a' Hk' HP'.
  apply StronglySorted_inv in Hsorted as [_ Hall].
  pose proof (proj2 (Hmem k' a') (conj Hk' HP')) as Hin.
  apply elem_of_cons in Hin as [Heq|Hin].
  - injection Heq as -> _. lia.
  - rewrite Forall_forall in Hall. apply (Hall _ Hin).
Qed.

(** The minimum is unique: two rows that are both first have the same key. *)
Lemma head_order_by_id_minimal (P : Z * A → Prop) `{!∀ x, Decision (P x)}
    (m : gmap Z A) k a :
  m !! k = Some a → P (k, a) →
  (∀ k' a', m !! k' = Some a' → P (k', a') → k ≤ k') →
  head (order_by_id (filter P (map_to_list m))) = Some (k, a).
Proof.
  intros Hk HP Hmin.
  destruct (head (order_by_id (filter P (map_to_list m)))) as [[k0 a0]|] eqn:E.
  - apply head_order_by_id_Some in E as (Hk0 & HP0 & Hmin0).
    assert (k0 = k) as -> by (specialize (Hmin _ _ Hk0 HP0);
                               specialize (Hmin0 _ _ Hk HP); lia).
    congruence.
  - rewrite head_order_by_id_None in E. by destruct (E k a).
Qed.

End ordered.

(** ** Fresh primary keys *)

Lemma next_id_above {A} (m : gmap Z A) k : is_Some (m !! k) → k < next_id m.
Proof.
  unfold next_id.
  apply (map_fold_weak_ind (λ b m, is_Some (m !! k) → k < 1 + b)); clear m.
  - rewrite lookup_empty. by intros [? ?].
  - intros i x m r _ IH. rewrite lookup_insert. case_decide as Hik.
    + subst. lia.
    + intros Hk. specialize (IH Hk). lia.
Qed.

Lemma next_id_fresh {A} (m : gmap Z A) : m !! next_id m = None.
Proof.
  destruct (m !! next_id m) eqn:E; [|done].
  assert (next_id m < next_id m) by (apply next_id_above; eauto). lia.
Qed.

(** ** What each card operation computes *)

Lemma mark_sent_unfold card_id actor_id now db :
  CardService.mark_sent card_id actor_id now db =
  match cards db !! card_id with
  | None => (Raise NoResultFound, db)
  | Some card =>
      (Ok (card_id, Card.set_status SENT card),
       moved card_id (Card.set_status SENT card) SEND actor_id now db)
  end.
Proof.
  unfold CardService.mark_sent, session, bind, CardService.get_card, query. simpl.
  destruct (cards db !! card_id); reflexivity.
Qed.

Lemma restore_card_unfold card_id actor_id now db :
  CardService.restore_card card_id actor_id now db =
  match cards db !! card_id with
  | None => (Raise NoResultFound, db)
  | Some card =>
      (Ok (card_id, Card.set_status AVAILABLE card),
       moved card_id (Card.set_status AVAILABLE card) RESTORE actor_id now db)
  end.
Proof.
  unfold CardService.restore_card, session, bind, CardService.get_card, query. simpl.
  destruct (cards db !! card_id); reflexivity.
Qed.

Lemma take_first_available_unfold locked card_type amount actor_id now db :
  CardService.take_first_available locked card_type amount actor_id now db =
  match head (order_by_id
                (filter (λ kc, CardService.available_match card_type amount kc
                               ∧ kc.1 ∉ locked)
                        (map_to_list (cards db)))) with
  | None => (Raise NoResultFound, db)
  | Some (id, card) =>
      (Ok (id, Card.set_status RESERVED card),
       moved id (Card.set_status RESERVED card) RESERVE actor_id now db)
  end.
Proof.
  unfold CardService.take_first_available, session, bind, query. simpl.
  destruct (head _) as [[id card]|]; reflexivity.
Qed.

Lemma add_card_unfold card_type amount actor_id image_file_id image_path serial_number
    now db :
  CardService.add_card card_type amount actor_id image_file_id image_path
    serial_number now db =
  if decide (image_file_id = None ∧ serial_number = None) then (Raise ValueError, db)
  else if decide (0 < amount ∧ CardService.serial_free serial_number (cards db)) then
    let card := Card.mk card_type amount AVAILABLE image_file_id image_path
                        serial_number actor_id now in
    (Ok (next_id (cards db), card), moved (next_id (cards db)) card ADD actor_id now db)
  else (Raise IntegrityError, db).
Proof.
  unfold CardService.add_card. case_decide; [reflexivity|].
  unfold session, bind, CardService.insert_card, bind, query. simpl.
  case_decide; reflexivity.
Qed.

Lemma set_status_involutive s card :
  Card.status card = s → Card.set_status s card = card.
Proof. intros <-. by destruct card. Qed.

Lemma set_status_twice s s' card :
  Card.set_status s (Card.set_status s' card) = Card.set_status s card.
Proof. by destruct card. Qed.

(** ** Allocation *)

(** C1. [take_first_available]: when some matching AVAILABLE card is not
    locked by a transaction in flight, the call returns the one with the
    smallest id among them, stores it as RESERVED and appends exactly one
    RESERVE row to the inventory log, everything else being as before; when
    there is none it raises NoResultFound and the store is unchanged. With no
    transaction in flight ([locked] empty) the unlocked matches are all the
    AVAILABLE cards of that type and amount. *)
Theorem take_first_available_reserves_oldest (locked : gset Z) (card_type : CardType)
    (amount : Z) (actor_id : option Z) (now : Z) (db : Database) :
  ((∃ k c, unlocked_match locked card_type amount db k c) →
   ∃ id card,
     unlocked_match locked card_type amount db id card
     ∧ (∀ k c, unlocked_match locked card_type amount db k c → id ≤ k)
     ∧ CardService.take_first_available locked card_type amount actor_id now db =
         (Ok (id, Card.set_status RESERVED card),
          mkDatabase (users db)
            (<[id := Card.set_status RESERVED card]> (cards db))
            (card_logs db ++ [CardInventoryLog.mk id actor_id RESERVE None now])
            (requests db) (history db))
     ∧ Card.status (Card.set_status RESERVED card) = RESERVED)
  ∧ ((¬ ∃ k c, unlocked_match locked card_type amount db k c) →
     CardService.take_first_available locked card_type amount actor_id now db =
       (Raise NoResultFound, db)).
Proof.
  rewrite take_first_available_unfold.
  destruct (head _) as [[id card]|] eqn:E.
  - apply head_order_by_id_Some in E as (Hid & [Hm Hl] & Hmin). simpl in Hl.
    split.
    + intros _. exists id, card. split; [done|]. split; [|done].
      intros k c (Hk & Hkm & Hkl). by apply (Hmin k c).
    + intros Hno. destruct Hno. by exists id, card.
  - rewrite head_order_by_id_None in E. split; [|done].
    intros (k & c & Hk & Hm & Hl). by destruct (E k c).
Qed.

Lemma take_first_available_reserves_oldest_witness :
  (∃ k c, unlocked_match ∅ ASIA 5000 Sample.store k c)
  ∧ ∃ id card,
      unlocked_match ∅ ASIA 5000 Sample.store id card
      ∧ (∀ k c, unlocked_match ∅ ASIA 5000 Sample.store k c → id ≤ k)
      ∧ CardService.take_first_available ∅ ASIA 5000 (Some 1) 10 Sample.store =
          (Ok (id, Card.set_status RESERVED card),
           mkDatabase (users Sample.store)
             (<[id := Card.set_status RESERVED card]> (cards Sample.store))
             (card_logs Sample.store ++ [CardInventoryLog.mk id (Some 1) RESERVE None 10])
             (requests Sample.store) (history Sample.store))
      ∧ Card.status (Card.set_status RESERVED card) = RESERVED.
Proof.
  assert (H : ∃ k c, unlocked_match ∅ ASIA 5000 Sample.store k c).
  { exists 3, Sample.card_b. split; [reflexivity|]. split; [by repeat split|].
    apply not_elem_of_empty. }
  split; [exact H|].
  exact (proj1 (take_first_available_reserves_oldest ∅ ASIA 5000 (Some 1) 10
                  Sample.store) H).
Defined.

(** ** Sending *)

(** [mark_sent] does not look at the status it replaces. *)
Lemma mark_sent_available_counterexample :
  cards Sample.store !! 7 = Some Sample.card_a
  ∧ Card.status Sample.card_a = AVAILABLE
  ∧ (∀ e, (CardService.mark_sent 7 (Some 1) 10 Sample.store).1 ≠ Raise e)
  ∧ ∃ db', CardService.mark_sent 7 (Some 1) 10 Sample.store
           = (Ok (7, Card.set_status SENT Sample.card_a), db')
         ∧ cards db' !! 7 = Some (Card.set_status SENT Sample.card_a).
Proof.
  split; [reflexivity|]. split; [reflexivity|].
  rewrite mark_sent_unfold. split; [discriminate|].
  eexists. split; [reflexivity|]. reflexivity.
Qed.

(** C4, amended. [mark_sent] raises NoResultFound exactly when no card has
    the given id, leaving the store unchanged; on an existing card, whatever
    its status (AVAILABLE, RESERVED, SENT or ARCHIVED), it returns the card
    with status SENT, stores it and appends exactly one SEND row to the
    inventory log. *)
Theorem mark_sent_sets_sent (card_id : Z) (actor_id : option Z) (now : Z)
    (db : Database) :
  (cards db !! card_id = None ↔
   (CardService.mark_sent card_id actor_id now db).1 = Raise NoResultFound)
  ∧ (cards db !! card_id = None →
     CardService.mark_sent card_id actor_id now db = (Raise NoResultFound, db))
  ∧ (∀ card, cards db !! card_id = Some card →
       CardService.mark_sent card_id actor_id now db =
         (Ok (card_id, Card.set_status SENT card),
          mkDatabase (users db) (<[card_id := Card.set_status SENT card]> (cards db))
            (card_logs db ++ [CardInventoryLog.mk card_id actor_id SEND None now])
            (requests db) (history db))
       ∧ Card.status (Card.set_status SENT card) = SENT).
Proof.
  rewrite mark_sent_unfold.
  destruct (cards db !! card_id) as [card|]; simpl.
  - split; [split; discriminate|]. split; [discriminate|].
    intros ? [= <-]. done.
  - split; [done|]. split; [done|]. discriminate.
Qed.

Lemma mark_sent_sets_sent_witness :
  cards Sample.store !! 7 = Some Sample.card_a
  ∧ CardService.mark_sent 7 (Some 1) 10 Sample.store =
      (Ok (7, Card.set_status SENT Sample.card_a),
       mkDatabase (users Sample.store)
         (<[7 := Card.set_status SENT Sample.card_a]> (cards Sample.store))
         (card_logs Sample.store ++ [CardInventoryLog.mk 7 (Some 1) SEND None 10])
         (requests Sample.store) (history Sample.store))
  ∧ Card.status (Card.set_status SENT Sample.card_a) = SENT.
Proof.
  split; [reflexivity|].
  apply (proj2 (proj2 (mark_sent_sets_sent 7 (Some 1) 10 Sample.store))).
  reflexivity.
Defined.

(** ** Adding *)

(** A non-positive amount is turned down by the CHECK constraint of the
    table, not by the validation of [add_card]. *)
Lemma add_card_zero_amount_counterexample :
  CardService.add_card ASIA 0 (Some 1) (Some "file"%string) None None 10 Sample.store
  = (Raise IntegrityError, Sample.store)
  ∧ (CardService.add_card ASIA 0 (Some 1) (Some "file"%string) None None 10
       Sample.store).1 ≠ Raise ValueError
  ∧ CardService.add_card ASIA 5000 (Some 1) None None (Some "serial-b"%string) 10
      Sample.store
    = (Raise IntegrityError, Sample.store).
Proof. split; [reflexivity|]. split; [discriminate|reflexivity]. Qed.

(** C5, amended. [add_card] given neither an image file id nor a serial
    number raises ValueError; given one of them and an amount that is not
    positive, or a serial number that a stored card holds, it raises
    IntegrityError (the constraints [ck_card_amount_positive] and
    [uq_card_serial]); in these cases no card row and no log row is stored. Given one of them, a positive amount and a serial number that no
    stored card holds, it stores one new card with status AVAILABLE under a
    fresh id and appends exactly one ADD row to the inventory log. *)
Theorem add_card_validates (card_type : CardType) (amount : Z) (actor_id : option Z)
    (image_file_id image_path serial_number : option string) (now : Z)
    (db : Database) :
  (image_file_id = None ∧ serial_number = None →
   CardService.add_card card_type amount actor_id image_file_id image_path
     serial_number now db = (Raise ValueError, db))
  ∧ (¬ (image_file_id = None ∧ serial_number = None) → amount ≤ 0 →
     CardService.add_card card_type amount actor_id image_file_id image_path
       serial_number now db = (Raise IntegrityError, db))
  ∧ (¬ (image_file_id = None ∧ serial_number = None) →
     ¬ CardService.serial_free serial_number (cards db) →
     CardService.add_card card_type amount actor_id image_file_id image_path
       serial_number now db = (Raise IntegrityError, db))
  ∧ (¬ (image_file_id = None ∧ serial_number = None) → 0 < amount →
     CardService.serial_free serial_number (cards db) →
     ∃ id card,
       CardService.add_card card_type amount actor_id image_file_id image_path
         serial_number now db =
         (Ok (id, card),
          mkDatabase (users db) (<[id := card]> (cards db))
            (card_logs db ++ [CardInventoryLog.mk id actor_id ADD None now])
            (requests db) (history db))
       ∧ cards db !! id = None
       ∧ card = Card.mk card_type amount AVAILABLE image_file_id image_path
                  serial_number actor_id now).
Proof.
  rewrite add_card_unfold. split; [|split; [|split]].
  - intros H. by rewrite decide_True.
  - intros H Hle. rewrite decide_False by done.
    rewrite decide_False; [done|]. intros [? _]. lia.
  - intros H Htaken. rewrite decide_False by done.
    rewrite decide_False; [done|]. by intros [_ ?].
  - intros H Hlt Hfree. rewrite decide_False by done.
    rewrite decide_True by done. simpl.
    eexists _, _. split; [reflexivity|]. split; [apply next_id_fresh|reflexivity].
Qed.

Lemma add_card_validates_witness :
  (¬ (Some "file"%string = None ∧ @None string = None)) ∧ 0 < 5000
  ∧ CardService.serial_free None (cards Sample.store)
  ∧ ∃ id card,
      CardService.add_card ASIA 5000 (Some 1) (Some "file"%string) None None 10
        Sample.store =
        (Ok (id, card),
         mkDatabase (users Sample.store) (<[id := card]> (cards Sample.store))
           (card_logs Sample.store ++ [CardInventoryLog.mk id (Some 1) ADD None 10])
           (requests Sample.store) (history Sample.store))
      ∧ cards Sample.store !! id = None
      ∧ card = Card.mk ASIA 5000 AVAILABLE (Some "file"%string) None None (Some 1) 10.
Proof.
  assert (H1 : ¬ (Some "file"%string = None ∧ @None string = None))
    by (intros [? _]; discriminate).
  assert (H2 : 0 < 5000) by reflexivity.
  assert (H3 : CardService.serial_free None (cards Sample.store)) by exact I.
  split; [exact H1|]. split; [exact H2|]. split; [exact H3|].
  exact (proj2 (proj2 (proj2 (add_card_validates ASIA 5000 (Some 1)
                                (Some "file"%string) None None 10 Sample.store)))
           H1 H2 H3).
Defined.

(** ** Restoring *)

(** Restoring a card that is AVAILABLE still writes to the inventory log. *)
Lemma restore_card_available_counterexample :
  cards Sample.store !! 7 = Some Sample.card_a
  ∧ Card.status Sample.card_a = AVAILABLE
  ∧ (CardService.restore_card 7 (Some 1) 10 Sample.store).2 ≠ Sample.store
  ∧ card_logs (CardService.restore_card 7 (Some 1) 10 Sample.store).2
    = card_logs Sample.store ++ [CardInventoryLog.mk 7 (Some 1) RESTORE None 10].
Proof.
  split; [reflexivity|]. split; [reflexivity|].
  rewrite restore_card_unfold. simpl. split; [|reflexivity].
  intros H. apply (f_equal card_logs) in H. discriminate H.
Qed.

(** C9, amended. [restore_card] on a card that is already AVAILABLE raises
    nothing and returns the card as it was; the card table, and every other
    table but the inventory log, is left as it was, and exactly one RESTORE
    row is appended to the inventory log. *)
Theorem restore_card_on_available (card_id : Z) (actor_id : option Z) (now : Z)
    (db : Database) (card : Card.t) :
  cards db !! card_id = Some card →
  Card.status card = AVAILABLE →
  CardService.restore_card card_id actor_id now db =
    (Ok (card_id, card),
     mkDatabase (users db) (cards db)
       (card_logs db ++ [CardInventoryLog.mk card_id actor_id RESTORE None now])
       (requests db) (history db)).
Proof.
  intros Hcard Hstatus. rewrite restore_card_unfold, Hcard.
  rewrite (set_status_involutive AVAILABLE card Hstatus).
  unfold moved. by rewrite insert_id.
Qed.

Lemma restore_card_on_available_witness :
  cards Sample.store !! 7 = Some Sample.card_a
  ∧ Card.status Sample.card_a = AVAILABLE
  ∧ CardService.restore_card 7 (Some 1) 10 Sample.store =
      (Ok (7, Sample.card_a),
       mkDatabase (users Sample.store) (cards Sample.store)
         (card_logs Sample.store ++ [CardInventoryLog.mk 7 (Some 1) RESTORE None 10])
         (requests Sample.store) (history Sample.store)).
Proof.
  split; [reflexivity|]. split; [reflexivity|].
  apply (restore_card_on_available 7 (Some 1) 10 Sample.store Sample.card_a);
    reflexivity.
Defined.

(** ** Reserve, then restore *)

Lemma moved_back card_id card action action' actor_id actor_id' now now' s db :
  cards db !! card_id = Some card →
  cards (moved card_id card action' actor_id' now'
           (moved card_id (Card.set_status s card) action actor_id now db))
  = cards db.
Proof.
  intros Hcard. unfold moved. simpl. rewrite insert_insert_eq. by apply insert_id.
Qed.

(** C8. A card reserved by [take_first_available] and then handed to
    [restore_card] is AVAILABLE again; the card table is what it was before
    the reservation, so [count_available] gives its earlier value for the
    type and amount (and for any other); and a further
    [take_first_available] for the same type and amount returns that very
    card. *)
Theorem reserve_restore_round_trip (locked : gset Z) (card_type : CardType)
    (amount : Z) (actor_id actor_id' actor_id'' : option Z) (now now' now'' : Z)
    (db db1 : Database) (id : Z) (card : Card.t) :
  CardService.take_first_available locked card_type amount actor_id now db
    = (Ok (id, card), db1) →
  ∃ card' db2,
    CardService.restore_card id actor_id' now' db1 = (Ok (id, card'), db2)
    ∧ Card.status card' = AVAILABLE
    ∧ cards db2 !! id = Some card'
    ∧ cards db2 = cards db
    ∧ (∀ ct amt, CardService.count_available ct amt db2
                 = CardService.count_available ct amt db)
    ∧ ∃ db3,
        CardService.take_first_available locked card_type amount actor_id'' now'' db2
          = (Ok (id, card), db3).
Proof.
  rewrite take_first_available_unfold.
  destruct (head _) as [[id0 card0]|] eqn:E; [|discriminate].
  intros [= -> <- <-].
  pose proof E as (Hid & [(Hty & Ham & Hst) Hl] & Hmin)%head_order_by_id_Some.
  simpl in *.
  rewrite restore_card_unfold.
  replace (cards (moved id (Card.set_status RESERVED card0) RESERVE actor_id now db)
             !! id)
    with (Some (Card.set_status RESERVED card0))
    by (unfold moved; simpl; by rewrite lookup_insert_eq).
  rewrite set_status_twice, (set_status_involutive AVAILABLE card0 Hst).
  assert (Hcards : cards (moved id card0 RESTORE actor_id' now'
                            (moved id (Card.set_status RESERVED card0) RESERVE
                               actor_id now db)) = cards db)
    by (by apply moved_back).
  eexists _, _. split; [reflexivity|]. split; [done|].
  split; [by rewrite Hcards|]. split; [done|].
  split; [intros; unfold CardService.count_available; by rewrite Hcards|].
  rewrite take_first_available_unfold, Hcards, E. eauto.
Qed.

Lemma reserve_restore_round_trip_witness :
  CardService.take_first_available ∅ ASIA 5000 (Some 1) 10 Sample.store
    = (Ok (3, Card.set_status RESERVED Sample.card_b),
       moved 3 (Card.set_status RESERVED Sample.card_b) RESERVE (Some 1) 10 Sample.store)
  ∧ ∃ card' db2,
      CardService.restore_card 3 (Some 1) 11
        (moved 3 (Card.set_status RESERVED Sample.card_b) RESERVE (Some 1) 10
           Sample.store)
        = (Ok (3, card'), db2)
      ∧ Card.status card' = AVAILABLE
      ∧ cards db2 !! 3 = Some card'
      ∧ cards db2 = cards Sample.store
      ∧ (∀ ct amt, CardService.count_available ct amt db2
                   = CardService.count_available ct amt Sample.store)
      ∧ ∃ db3,
          CardService.take_first_available ∅ ASIA 5000 (Some 1) 12 db2
            = (Ok (3, Card.set_status RESERVED Sample.card_b), db3).
Proof.
  assert (H : CardService.take_first_available ∅ ASIA 5000 (Some 1) 10 Sample.store
    = (Ok (3, Card.set_status RESERVED Sample.card_b),
       moved 3 (Card.set_status RESERVED Sample.card_b) RESERVE (Some 1) 10
         Sample.store)) by (vm_compute; reflexivity).
  split; [exact H|].
  exact (reserve_restore_round_trip ∅ ASIA 5000 (Some 1) (Some 1) (Some 1) 10 11 12
           Sample.store _ 3 _ H).
Defined.

(** ** What each request operation computes *)

Lemma with_requests_insert_id request_id (request : RechargeRequest.t) db :
  requests db !! request_id = Some request →
  with_requests (insert request_id request) db = db.
Proof.
  intros H. unfold with_requests. rewrite insert_id by done. by destruct db.
Qed.

(** A flush of a loaded row leaves [stored] in the table, whether or not an
    UPDATE was needed. *)
Lemma flush_request_run request_id loaded assigned now db0 db :
  requests db !! request_id = Some loaded →
  RequestService.flush_request request_id loaded assigned now (mkSession db0 db) =
  (Ok (stored loaded assigned now),
   mkSession db0
     (with_requests (insert request_id (stored loaded assigned now)) db)).
Proof.
  intros Hloaded. unfold RequestService.flush_request, stored.
  case_decide; [|reflexivity].
  unfold ret. by rewrite with_requests_insert_id.
Qed.

Lemma stored_set_status request new_status now :
  stored request
    (RechargeRequest.set_updated_at now (RechargeRequest.set_status new_status request))
    now
  = RechargeRequest.set_updated_at now (RechargeRequest.set_status new_status request).
Proof.
  unfold stored. case_decide as H; [by rewrite H|].
  case_decide; [|done]. by destruct request.
Qed.

Lemma stored_status loaded assigned now :
  RechargeRequest.status assigned = RechargeRequest.status loaded →
  RechargeRequest.status (stored loaded assigned now) = RechargeRequest.status loaded.
Proof. intros H. unfold stored. by repeat case_decide. Qed.

Lemma create_request_unfold requester_id responsible_id amount request_type status note
    card_type now db :
  RequestService.create_request requester_id responsible_id amount request_type status
    note card_type now db =
  if decide (RequestService.sqlite_integer amount ∧ 0 < amount) then
    let request := RechargeRequest.mk requester_id responsible_id None None request_type
                     amount status None card_type None now now in
    let id := next_id (requests db) in
    (Ok (id, request),
     recorded id request
       [RequestStatusHistory.mk id (Some requester_id) None status note now] db)
  else (Raise (if decide (RequestService.sqlite_integer amount) then IntegrityError
               else OverflowError), db).
Proof.
  unfold RequestService.create_request, session, bind, RequestService.insert_request,
    bind, query. simpl.
  repeat case_decide; try reflexivity; tauto.
Qed.

Lemma set_status_unfold request_id actor_id new_status note now db :
  RequestService.set_status request_id actor_id new_status note now db =
  match requests db !! request_id with
  | None => (Raise NoResultFound, db)
  | Some request =>
      let request' :=
        RechargeRequest.set_updated_at now
          (RechargeRequest.set_status new_status request) in
      (Ok (request_id, request'),
       recorded request_id request'
         [RequestStatusHistory.mk request_id actor_id
            (Some (RechargeRequest.status request)) new_status note now] db)
  end.
Proof.
  unfold RequestService.set_status, session, bind,
    RequestService.get_request_for_update, query. simpl.
  destruct (requests db !! request_id) as [request|] eqn:E; [|reflexivity].
  rewrite (flush_request_run _ _ _ _ _ _ E), stored_set_status. reflexivity.
Qed.

Lemma attach_card_unfold request_id card_id actor_id now db :
  RequestService.attach_card request_id card_id actor_id now db =
  match requests db !! request_id with
  | None => (Raise NoResultFound, db)
  | Some request =>
      let request' :=
        stored request (RechargeRequest.set_final_card_id card_id request) now in
      (Ok (request_id, request'),
       recorded request_id request'
         [RequestStatusHistory.mk request_id actor_id
            (Some (RechargeRequest.status request)) (RechargeRequest.status request)
            (Some "Card assigned"%string) now] db)
  end.
Proof.
  unfold RequestService.attach_card, session, bind,
    RequestService.get_request_for_update, query. simpl.
  destruct (requests db !! request_id) as [request|] eqn:E; [|reflexivity].
  rewrite (flush_request_run _ _ _ _ _ _ E). simpl.
  rewrite (stored_status request _ now) by done. reflexivity.
Qed.

Lemma set_approver_unfold request_id approver_id now db :
  RequestService.set_approver request_id approver_id now db =
  match requests db !! request_id with
  | None => (Raise NoResultFound, db)
  | Some request =>
      let request' :=
        stored request (RechargeRequest.set_approver_id approver_id request) now in
      (Ok (request_id, request'),
       mkDatabase (users db) (cards db) (card_logs db)
         (<[request_id := request']> (requests db)) (history db))
  end.
Proof.
  unfold RequestService.set_approver, session, bind,
    RequestService.get_request_for_update, query. simpl.
  destruct (requests db !! request_id) as [request|] eqn:E; [|reflexivity].
  rewrite (flush_request_run _ _ _ _ _ _ E). reflexivity.
Qed.

(** ** Status changes *)

(** C7. [set_status] on a stored request returns whatever the status held
    and whatever the new status is: no transition is turned down. It stores
    the request with the new status and with [updated_at] set to the clock,
    and appends exactly one history row going from the status held before the
    call to the new status; nothing else in the store changes. It raises
    NoResultFound exactly when no request has the given id, and then the
    store is unchanged. *)
Theorem set_status_records_any_transition (request_id : Z) (actor_id : option Z)
    (new_status : RequestStatus) (note : option string) (now : Z) (db : Database) :
  (∀ request, requests db !! request_id = Some request →
     ∃ request',
       RequestService.set_status request_id actor_id new_status note now db =
         (Ok (request_id, request'),
          mkDatabase (users db) (cards db) (card_logs db)
            (<[request_id := request']> (requests db))
            (history db ++
               [RequestStatusHistory.mk request_id actor_id
                  (Some (RechargeRequest.status request)) new_status note now]))
       ∧ request' = RechargeRequest.set_updated_at now
                      (RechargeRequest.set_status new_status request)
       ∧ RechargeRequest.status request' = new_status
       ∧ RechargeRequest.updated_at request' = now)
  ∧ ((RequestService.set_status request_id actor_id new_status note now db).1
       = Raise NoResultFound ↔ requests db !! request_id = None)
  ∧ (requests db !! request_id = None →
     RequestService.set_status request_id actor_id new_status note now db
       = (Raise NoResultFound, db)).
Proof.
  rewrite set_status_unfold.
  destruct (requests db !! request_id) as [request|]; simpl.
  - split; [|split; [split; discriminate|discriminate]].
    intros ? [= <-]. eexists. split; [reflexivity|]. done.
  - split; [discriminate|]. done.
Qed.

Lemma set_status_records_any_transition_witness :
  requests Sample.store !! 1 = Some Sample.pending_request
  ∧ ∃ request',
      RequestService.set_status 1 (Some 1) APPROVED None 10 Sample.store =
        (Ok (1, request'),
         mkDatabase (users Sample.store) (cards Sample.store) (card_logs Sample.store)
           (<[1 := request']> (requests Sample.store))
           (history Sample.store ++
              [RequestStatusHistory.mk 1 (Some 1)
                 (Some (RechargeRequest.status Sample.pending_request)) APPROVED
                 None 10]))
      ∧ request' = RechargeRequest.set_updated_at 10
                     (RechargeRequest.set_status APPROVED Sample.pending_request)
      ∧ RechargeRequest.status request' = APPROVED
      ∧ RechargeRequest.updated_at request' = 10.
Proof.
  split; [reflexivity|].
  apply (proj1 (set_status_records_any_transition 1 (Some 1) APPROVED None 10
                  Sample.store)).
  reflexivity.
Defined.

(** ** Approver *)

Lemma stored_approver request approver_id now :
  let request' :=
    stored request (RechargeRequest.set_approver_id approver_id request) now in
  RechargeRequest.approver_id request' = Some approver_id
  ∧ same_but_approver request request'
  ∧ (RechargeRequest.approver_id request = Some approver_id → request' = request)
  ∧ (RechargeRequest.approver_id request ≠ Some approver_id →
     RechargeRequest.updated_at request' = now).
Proof.
  unfold stored, same_but_approver. simpl.
  case_decide as H.
  - assert (Happ : RechargeRequest.approver_id request = Some approver_id)
      by (by rewrite <- H).
    repeat split; done.
  - rewrite decide_True by done. simpl. repeat split; try done.
    intros Happ. destruct H. destruct request; simpl in *. by subst.
Qed.

(** C10. [set_approver] on a stored request sets its [approver_id] and
    touches no other column but [updated_at], which the UPDATE stamps with the
    clock (no UPDATE is issued, and the row stays as it was, when the approver
    is already the one given). It adds no history row and leaves every other
    row and table as it was. The other operations that write a request,
    [create_request], [set_status] and [attach_card], each append one history
    row when they return. *)
Theorem set_approver_only_sets_approver (request_id approver_id : Z) (now : Z)
    (db : Database) (request : RechargeRequest.t) :
  requests db !! request_id = Some request →
  (∃ request',
     RequestService.set_approver request_id approver_id now db =
       (Ok (request_id, request'),
        mkDatabase (users db) (cards db) (card_logs db)
          (<[request_id := request']> (requests db)) (history db))
     ∧ RechargeRequest.approver_id request' = Some approver_id
     ∧ same_but_approver request request'
     ∧ (RechargeRequest.approver_id request = Some approver_id → request' = request)
     ∧ (RechargeRequest.approver_id request ≠ Some approver_id →
        RechargeRequest.updated_at request' = now))
  ∧ (∀ requester_id responsible_id amount request_type status note card_type r db',
       RequestService.create_request requester_id responsible_id amount request_type
         status note card_type now db = (Ok r, db') →
       ∃ row, history db' = history db ++ [row])
  ∧ (∀ actor_id new_status note r db',
       RequestService.set_status request_id actor_id new_status note now db
         = (Ok r, db') →
       ∃ row, history db' = history db ++ [row])
  ∧ (∀ card_id actor_id r db',
       RequestService.attach_card request_id card_id actor_id now db = (Ok r, db') →
       ∃ row, history db' = history db ++ [row]).
Proof.
  intros Hrequest. split; [|split; [|split]].
  - rewrite set_approver_unfold, Hrequest. simpl.
    eexists. split; [reflexivity|]. apply stored_approver.
  - intros *. rewrite create_request_unfold. case_decide; [|discriminate].
    intros [= <- <-]. simpl. eauto.
  - intros *. rewrite set_status_unfold, Hrequest. intros [= <- <-]. simpl. eauto.
  - intros *. rewrite attach_card_unfold, Hrequest. intros [= <- <-]. simpl. eauto.
Qed.

Lemma set_approver_only_sets_approver_witness :
  requests Sample.store !! 1 = Some Sample.pending_request
  ∧ ∃ request',
      RequestService.set_approver 1 1 10 Sample.store =
        (Ok (1, request'),
         mkDatabase (users Sample.store) (cards Sample.store) (card_logs Sample.store)
           (<[1 := request']> (requests Sample.store)) (history Sample.store))
      ∧ RechargeRequest.approver_id request' = Some 1
      ∧ same_but_approver Sample.pending_request request'
      ∧ (RechargeRequest.approver_id Sample.pending_request = Some 1 →
         request' = Sample.pending_request)
      ∧ (RechargeRequest.approver_id Sample.pending_request ≠ Some 1 →
         RechargeRequest.updated_at request' = 10).
Proof.
  split; [reflexivity|].
  apply (proj1 (set_approver_only_sets_approver 1 1 10 Sample.store
                  Sample.pending_request eq_refl)).
Defined.

(** ** Routing at creation *)

(** A USER for whom the responsible files the request: it starts at
    PENDING_ACCOUNTING, not at PENDING_MANAGER. And a USER whose own request
    has the amount 2^63: no request is stored at all. *)
Lemma process_request_routes_by_role_counterexample :
  User.role Sample.member = USER
  ∧ User.manager_id Sample.member = Some 1
  ∧ (∃ id request db',
       HandlersResponsible.responsible_send_card_amount (1, Sample.manager)
         (2, Sample.member) ASIA 5000 false Sample.reachable 10 Sample.store
       = (Ok (HandlersResponsible.Requested (id, request)), db')
       ∧ requests db' !! id = Some request
       ∧ RechargeRequest.requester_id request = 2
       ∧ RechargeRequest.status request = PENDING_ACCOUNTING
       ∧ RechargeRequest.status request ≠ PENDING_MANAGER)
  ∧ HandlersRequests._process_request (Some (2, Sample.member))
      (HandlersRequests.mkFlowData (Some (2 ^ 63)) None (Some CUSTOM) None) 10
      Sample.store
    = (Raise OverflowError, Sample.store).
Proof.
  split; [reflexivity|]. split; [reflexivity|]. split.
  - eexists _, _, _. split; [vm_compute; reflexivity|].
    split; [vm_compute; reflexivity|]. split; [reflexivity|].
    split; [reflexivity|discriminate].
  - vm_compute. reflexivity.
Qed.

(** C6, amended. [_process_request], where a user files a request for
    themself, routes by the role of that user. For a USER without a manager
    it stores nothing and registers no request. For a positive amount below
    2^63, a USER with a manager gets a request whose responsible is that
    manager and whose status is PENDING_MANAGER, with its first history row,
    and a RESPONSIBLE or an ADMIN gets a request whose status is
    PENDING_ACCOUNTING. From 2^63 on the amount does not fit the column: the
    creation raises OverflowError and stores nothing. On the other path,
    [responsible_send_card_amount] of a responsible without the right to send
    directly, the request of the target user starts at PENDING_ACCOUNTING
    with the responsible as its responsible, whatever the role of the target
    user. *)
Theorem process_request_routes_by_role (user_id : Z) (user : User.t)
    (data : HandlersRequests.FlowData) (now : Z) (db : Database) :
  (User.role user = USER → User.manager_id user = None →
   (HandlersRequests._process_request (Some (user_id, user)) data now db).2 = db
   ∧ ∀ r, (HandlersRequests._process_request (Some (user_id, user)) data now db).1
          ≠ Ok (HandlersRequests.Registered r))
  ∧ (∀ amount manager,
       HandlersRequests.data_amount data = Some amount → 0 < amount < 2 ^ 63 →
       User.role user = USER → User.manager_id user = Some manager →
       ∃ id request,
         HandlersRequests._process_request (Some (user_id, user)) data now db =
           (Ok (HandlersRequests.Registered (id, request)),
            mkDatabase (users db) (cards db) (card_logs db)
              (<[id := request]> (requests db))
              (history db ++
                 [RequestStatusHistory.mk id (Some user_id) None PENDING_MANAGER
                    None now]))
         ∧ requests db !! id = None
         ∧ RechargeRequest.requester_id request = user_id
         ∧ RechargeRequest.responsible_id request = Some manager
         ∧ RechargeRequest.status request = PENDING_MANAGER)
  ∧ (∀ amount,
       HandlersRequests.data_amount data = Some amount → 0 < amount < 2 ^ 63 →
       User.role user = RESPONSIBLE ∨ User.role user = ADMIN →
       ∃ id request,
         HandlersRequests._process_request (Some (user_id, user)) data now db =
           (Ok (HandlersRequests.Registered (id, request)),
            mkDatabase (users db) (cards db) (card_logs db)
              (<[id := request]> (requests db))
              (history db ++
                 [RequestStatusHistory.mk id (Some user_id) None PENDING_ACCOUNTING
                    None now]))
         ∧ requests db !! id = None
         ∧ RechargeRequest.requester_id request = user_id
         ∧ RechargeRequest.status request = PENDING_ACCOUNTING)
  ∧ (∀ amount,
       HandlersRequests.data_amount data = Some amount → 2 ^ 63 ≤ amount →
       (User.role user = USER → User.manager_id user ≠ None) →
       HandlersRequests._process_request (Some (user_id, user)) data now db
       = (Raise OverflowError, db))
  ∧ (∀ target_id target card_type amount bot,
       0 < amount < 2 ^ 63 →
       ∃ id request,
         HandlersResponsible.responsible_send_card_amount (user_id, user)
           (target_id, target) card_type amount false bot now db =
           (Ok (HandlersResponsible.Requested (id, request)),
            mkDatabase (users db) (cards db) (card_logs db)
              (<[id := request]> (requests db))
              (history db ++
                 [RequestStatusHistory.mk id (Some target_id) None PENDING_ACCOUNTING
                    None now]))
         ∧ requests db !! id = None
         ∧ RechargeRequest.requester_id request = target_id
         ∧ RechargeRequest.responsible_id request = Some user_id
         ∧ RechargeRequest.status request = PENDING_ACCOUNTING).
Proof.
  assert (Hfits : ∀ amount, 0 < amount < 2 ^ 63 →
            RequestService.sqlite_integer amount ∧ 0 < amount)
    by (unfold RequestService.sqlite_integer; intros; lia).
  unfold HandlersRequests._process_request. split; [|split; [|split; [|split]]].
  - intros -> ->. case_decide; simpl; (split; [done|discriminate]).
  - intros amount manager -> Hpos -> ->. simpl.
    rewrite decide_False by lia.
    unfold bind. rewrite create_request_unfold, decide_True by auto. simpl.
    eexists _, _. split; [reflexivity|]. split; [apply next_id_fresh|done].
  - intros amount -> Hpos Hrole. simpl.
    rewrite decide_False by lia.
    destruct Hrole as [-> | ->]; unfold bind;
      rewrite create_request_unfold, decide_True by auto; simpl;
      (eexists _, _; split; [reflexivity|]; split; [apply next_id_fresh|done]).
  - intros amount -> Hbig Hmanager. simpl.
    assert (Hout : ¬ RequestService.sqlite_integer amount)
      by (unfold RequestService.sqlite_integer; lia).
    rewrite decide_False by lia.
    destruct (User.role user) eqn:Hrole;
      [| |destruct (User.manager_id user) as [manager|]; [|by destruct Hmanager]];
      unfold bind; rewrite create_request_unfold;
      rewrite decide_False by tauto; by rewrite decide_False.
  - intros target_id target card_type amount bot Hpos.
    unfold HandlersResponsible.responsible_send_card_amount, bind. simpl.
    rewrite create_request_unfold, decide_True by auto. simpl.
    eexists _, _. split; [reflexivity|]. split; [apply next_id_fresh|done].
Qed.

Lemma process_request_routes_by_role_witness :
  HandlersRequests.data_amount
    (HandlersRequests.mkFlowData (Some 5000) None None None) = Some 5000
  ∧ 0 < 5000 < 2 ^ 63 ∧ User.role Sample.member = USER
  ∧ User.manager_id Sample.member = Some 1
  ∧ ∃ id request,
      HandlersRequests._process_request (Some (2, Sample.member))
        (HandlersRequests.mkFlowData (Some 5000) None None None) 10 Sample.store =
        (Ok (HandlersRequests.Registered (id, request)),
         mkDatabase (users Sample.store) (cards Sample.store) (card_logs Sample.store)
           (<[id := request]> (requests Sample.store))
           (history Sample.store ++
              [RequestStatusHistory.mk id (Some 2) None PENDING_MANAGER None 10]))
      ∧ requests Sample.store !! id = None
      ∧ RechargeRequest.requester_id request = 2
      ∧ RechargeRequest.responsible_id request = Some 1
      ∧ RechargeRequest.status request = PENDING_MANAGER.
Proof.
  split; [reflexivity|]. split; [lia|]. split; [reflexivity|].
  split; [reflexivity|].
  apply (proj1 (proj2 (process_request_routes_by_role 2 Sample.member
                         (HandlersRequests.mkFlowData (Some 5000) None None None)
                         10 Sample.store)) 5000 1); [reflexivity|lia|reflexivity..].
Defined.

(** ** The history reconstructs the status *)

Lemma reconstructs_singleton row status :
  RequestStatusHistory.from_status row = None →
  RequestStatusHistory.to_status row = status →
  reconstructs [row] status.
Proof. intros Hfrom Hto. split; exists row; by simpl. Qed.

Lemma reconstructs_snoc rows row status status' :
  reconstructs rows status →
  RequestStatusHistory.to_status row = status' →
  reconstructs (rows ++ [row]) status'.
Proof.
  intros [(first & Hhead & Hfrom) _] Hto. split.
  - exists first. split; [|done]. destruct rows; [discriminate|done].
  - exists row. split; [apply last_snoc|done].
Qed.

Lemma history_of_recorded_same id request row db :
  RequestStatusHistory.request_id row = id →
  history_of id (recorded id request [row] db) = history_of id db ++ [row].
Proof.
  intros Hid. unfold history_of, recorded. simpl.
  rewrite filter_app, filter_cons_True by done. done.
Qed.

Lemma history_of_recorded_other id k request row db :
  RequestStatusHistory.request_id row = id → k ≠ id →
  history_of k (recorded id request [row] db) = history_of k db.
Proof.
  intros Hid Hk. unfold history_of, recorded. simpl.
  rewrite filter_app, filter_cons_False by congruence.
  by rewrite filter_nil, app_nil_r.
Qed.

(** A request without a row in the table has no history. *)
Lemma history_of_absent id db :
  history_consistent db → requests db !! id = None → history_of id db = [].
Proof.
  intros [Hrows _] Hnone. unfold history_of.
  induction (history db) as [|h l IH]; [done|].
  rewrite filter_cons. case_decide as Hh.
  - destruct (Hrows h) as [r Hr]; [left|]. rewrite Hh in Hr. congruence.
  - apply IH. intros h' Hh'. apply Hrows. by right.
Qed.

Lemma recorded_consistent id request row db :
  history_consistent db →
  RequestStatusHistory.request_id row = id →
  RequestStatusHistory.to_status row = RechargeRequest.status request →
  (requests db !! id = None → RequestStatusHistory.from_status row = None) →
  history_consistent (recorded id request [row] db).
Proof.
  intros Hdb Hid Hto Hfrom. pose proof Hdb as [Hrows Hreq]. split.
  - intros h Hh. unfold recorded in *. simpl in *.
    apply elem_of_app in Hh as [Hh|Hh].
    + apply lookup_insert_is_Some'. right. by apply Hrows.
    + apply list_elem_of_singleton in Hh as ->. rewrite Hid.
      rewrite lookup_insert_eq. eauto.
  - intros k r Hk. destruct (decide (k = id)) as [->|Hne].
    + replace (requests (recorded id request [row] db) !! id) with (Some request)
        in Hk by (unfold recorded; simpl; by rewrite lookup_insert_eq).
      injection Hk as <-.
      rewrite history_of_recorded_same by done.
      destruct (requests db !! id) as [old|] eqn:Hold.
      * eapply reconstructs_snoc; [by apply (Hreq id old)|done].
      * rewrite (history_of_absent id db Hdb Hold). simpl.
        apply reconstructs_singleton; [by apply Hfrom|done].
    + rewrite history_of_recorded_other by done.
      apply Hreq. unfold recorded in Hk. simpl in Hk.
      by rewrite lookup_insert_ne in Hk.
Qed.

Lemma run_op_consistent op db :
  history_consistent db → history_consistent (run_op op db).
Proof.
  intros Hdb. destruct op; simpl.
  - rewrite create_request_unfold. case_decide; [|done]. simpl.
    apply recorded_consistent; done.
  - rewrite set_status_unfold.
    destruct (requests db !! request_id) as [request|] eqn:E; [|done]. simpl.
    apply recorded_consistent; try done. by rewrite E.
  - rewrite attach_card_unfold.
    destruct (requests db !! request_id) as [request|] eqn:E; [|done]. simpl.
    apply recorded_consistent; try done.
    + simpl. by rewrite stored_status.
    + by rewrite E.
Qed.

Lemma run_ops_consistent ops db :
  history_consistent db → history_consistent (run_ops ops db).
Proof.
  revert db. induction ops as [|op ops IH]; intros db Hdb; [done|].
  simpl. apply IH. by apply run_op_consistent.
Qed.

Lemma empty_database_consistent : history_consistent empty_database.
Proof.
  split.
  - intros h Hh. by apply not_elem_of_nil in Hh.
  - intros k r Hk. simpl in Hk. by rewrite lookup_empty in Hk.
Qed.

(** C3. After any sequence of [create_request], [set_status] and
    [attach_card] calls on a store whose histories reconstruct its requests
    (the empty store is one), the history rows of every stored request, oldest
    first, are not empty, the first one has no [from_status], and the
    [to_status] of the last one is the status of the request. *)
Theorem history_reconstructs_status (db0 : Database) (ops : list RequestOp)
    (request_id : Z) (request : RechargeRequest.t) :
  history_consistent db0 →
  requests (run_ops ops db0) !! request_id = Some request →
  history_of request_id (run_ops ops db0) ≠ []
  ∧ (∃ first, head (history_of request_id (run_ops ops db0)) = Some first
              ∧ RequestStatusHistory.from_status first = None)
  ∧ (∃ final, last (history_of request_id (run_ops ops db0)) = Some final
              ∧ RequestStatusHistory.to_status final
                = RechargeRequest.status request).
Proof.
  intros Hdb0 Hrequest.
  destruct (run_ops_consistent ops db0 Hdb0) as [_ Hreq].
  destruct (Hreq _ _ Hrequest) as [(first & Hhead & Hfrom) Hlast].
  split; [|split; [eauto|done]].
  intros Hnil. by rewrite Hnil in Hhead.
Qed.

(** ** Compensation after a failed delivery *)

Lemma bind_Ok {S A B} (m : M S A) (k : A → M S B) s a s' :
  m s = (Ok a, s') → bind m k s = k a s'.
Proof. intros H. unfold bind. by rewrite H. Qed.

Lemma bind_Raise {S A B} (m : M S A) (k : A → M S B) s e s' :
  m s = (Raise e, s') → bind m k s = (Raise e, s').
Proof. intros H. unfold bind. by rewrite H. Qed.

(** The request operations succeed on a stored request and leave the card
    tables alone. *)
Lemma attach_card_keeps_cards request_id card_id actor_id now db request :
  requests db !! request_id = Some request →
  ∃ request' db',
    RequestService.attach_card request_id card_id actor_id now db
      = (Ok (request_id, request'), db')
    ∧ requests db' !! request_id = Some request'
    ∧ cards db' = cards db ∧ card_logs db' = card_logs db.
Proof.
  intros H. rewrite attach_card_unfold, H. simpl.
  eexists _, _. split; [reflexivity|]. simpl. by rewrite lookup_insert_eq.
Qed.

Lemma set_approver_keeps_cards request_id approver_id now db request :
  requests db !! request_id = Some request →
  ∃ request' db',
    RequestService.set_approver request_id approver_id now db
      = (Ok (request_id, request'), db')
    ∧ requests db' !! request_id = Some request'
    ∧ cards db' = cards db ∧ card_logs db' = card_logs db.
Proof.
  intros H. rewrite set_approver_unfold, H. simpl.
  eexists _, _. split; [reflexivity|]. simpl. by rewrite lookup_insert_eq.
Qed.

Lemma set_status_keeps_cards request_id actor_id new_status note now db request :
  requests db !! request_id = Some request →
  ∃ request' db',
    RequestService.set_status request_id actor_id new_status note now db
      = (Ok (request_id, request'), db')
    ∧ requests db' !! request_id = Some request'
    ∧ cards db' = cards db ∧ card_logs db' = card_logs db.
Proof.
  intros H. rewrite set_status_unfold, H. simpl.
  eexists _, _. split; [reflexivity|]. simpl. by rewrite lookup_insert_eq.
Qed.

(** C2, on the manager fast path. Whenever [handle_manager_decision] with the
    action [send] reports that the delivery failed, or that the requester is
    not on Telegram, the card it reserved is still stored as RESERVED and the
    inventory log ends with the RESERVE row: no [restore_card] was issued. *)
Theorem manager_fast_path_leaves_card_reserved (request_id : Z)
    (current_user : option (Z * User.t)) (delivered : bool) (now : Z)
    (db db' : Database) (outcome : HandlersRequests.ManagerOutcome) :
  HandlersRequests.handle_manager_decision HandlersRequests.Send request_id
    current_user delivered now db = (Ok outcome, db') →
  outcome = HandlersRequests.DeliveryFailed
  ∨ outcome = HandlersRequests.RequesterNotOnTelegram →
  ∃ id card actor_id,
    cards db !! id = Some card
    ∧ Card.status card = AVAILABLE
    ∧ cards db' = <[id := Card.set_status RESERVED card]> (cards db)
    ∧ cards db' !! id = Some (Card.set_status RESERVED card)
    ∧ card_logs db' = card_logs db ++ [CardInventoryLog.mk id actor_id RESERVE None now].
Proof.
  unfold HandlersRequests.handle_manager_decision.
  destruct current_user as [[manager_id manager]|]; [|intros [= <- _] [|]; discriminate].
  unfold bind at 1. unfold read at 1.
  destruct (RequestService.get_request request_id db) as [request|] eqn:Hrequest;
    [|intros [= <- _] [|]; discriminate].
  case_decide; [intros [= <- _] [|]; discriminate|].
  case_decide; [intros [= <- _] [|]; discriminate|].
  unfold bind at 1. unfold read at 1.
  destruct (User.can_approve_directly manager); simpl;
    [|intros [= <- _] [|]; discriminate].
  unfold bind at 1. unfold read at 1.
  destruct (HandlersRequests._accounting_options _ db) as [|[card_type count] options];
    [intros [= <- _] [|]; discriminate|].
  unfold bind at 1. unfold try_except, bind at 1.
  rewrite take_first_available_unfold.
  destruct (head _) as [[id card]|] eqn:Hhead;
    [|unfold ret; intros [= <- _] [|]; discriminate].
  apply head_order_by_id_Some in Hhead as (Hid & [(_ & _ & Hst) _] & _).
  simpl in Hst. unfold ret at 1.
  set (db1 := moved id (Card.set_status RESERVED card) RESERVE (Some manager_id) now db).
  assert (Hr1 : requests db1 !! request_id = Some request) by exact Hrequest.
  simpl fst.
  destruct (attach_card_keeps_cards request_id id (Some manager_id) now db1 request Hr1)
    as (r2 & db2 & Hattach & Hr2 & Hc2 & Hl2).
  rewrite (bind_Ok _ _ _ _ _ Hattach).
  destruct (set_approver_keeps_cards request_id manager_id now db2 r2 Hr2)
    as (r3 & db3 & Happrover & Hr3 & Hc3 & Hl3).
  rewrite (bind_Ok _ _ _ _ _ Happrover).
  destruct (set_status_keeps_cards request_id (Some manager_id) APPROVED None now db3
              r3 Hr3) as (r4 & db4 & Hstatus & Hr4 & Hc4 & Hl4).
  rewrite (bind_Ok _ _ _ _ _ Hstatus).
  assert (Hcards : cards db4 = <[id := Card.set_status RESERVED card]> (cards db))
    by (rewrite Hc4, Hc3, Hc2; reflexivity).
  assert (Hlogs : card_logs db4
                  = card_logs db ++ [CardInventoryLog.mk id (Some manager_id) RESERVE
                                       None now])
    by (rewrite Hl4, Hl3, Hl2; reflexivity).
  assert (Hgoal : ∃ id card actor_id,
    cards db !! id = Some card
    ∧ Card.status card = AVAILABLE
    ∧ cards db4 = <[id := Card.set_status RESERVED card]> (cards db)
    ∧ cards db4 !! id = Some (Card.set_status RESERVED card)
    ∧ card_logs db4
      = card_logs db ++ [CardInventoryLog.mk id actor_id RESERVE None now]).
  { exists id, card, (Some manager_id). rewrite Hcards, lookup_insert_eq. done. }
  destruct (negb _); [unfold ret; by intros [= <- <-] _|].
  destruct (negb delivered); [unfold ret; by intros [= <- <-] _|].
  unfold bind. rewrite mark_sent_unfold.
  destruct (cards db4 !! id); unfold ret; [intros [= <- _] [|]; discriminate|discriminate].
Qed.

Lemma manager_fast_path_leaves_card_reserved_witness :
  HandlersRequests.handle_manager_decision HandlersRequests.Send 1
    (Some (1, Sample.manager)) false 10 Sample.store
  = (Ok HandlersRequests.DeliveryFailed,
     (HandlersRequests.handle_manager_decision HandlersRequests.Send 1
        (Some (1, Sample.manager)) false 10 Sample.store).2)
  ∧ ∃ id card actor_id,
      cards Sample.store !! id = Some card
      ∧ Card.status card = AVAILABLE
      ∧ cards (HandlersRequests.handle_manager_decision HandlersRequests.Send 1
                 (Some (1, Sample.manager)) false 10 Sample.store).2
        = <[id := Card.set_status RESERVED card]> (cards Sample.store)
      ∧ cards (HandlersRequests.handle_manager_decision HandlersRequests.Send 1
                 (Some (1, Sample.manager)) false 10 Sample.store).2 !! id
        = Some (Card.set_status RESERVED card)
      ∧ card_logs (HandlersRequests.handle_manager_decision HandlersRequests.Send 1
                     (Some (1, Sample.manager)) false 10 Sample.store).2
        = card_logs Sample.store ++ [CardInventoryLog.mk id actor_id RESERVE None 10].
Proof.
  assert (H : HandlersRequests.handle_manager_decision HandlersRequests.Send 1
    (Some (1, Sample.manager)) false 10 Sample.store
  = (Ok HandlersRequests.DeliveryFailed,
     (HandlersRequests.handle_manager_decision HandlersRequests.Send 1
        (Some (1, Sample.manager)) false 10 Sample.store).2))
    by (vm_compute; reflexivity).
  split; [exact H|].
  exact (manager_fast_path_leaves_card_reserved 1 (Some (1, Sample.manager)) false 10
           Sample.store _ HandlersRequests.DeliveryFailed H (or_introl eq_refl)).
Defined.

(** The direct sends of the admin and of the responsible do compensate when
    [send_card_to_chat] returns: a reservation followed by a failed delivery
    or a failed registration leaves the card table as it was. *)
Lemma take_then_restore locked card_type amount actor_id actor_id' now now' db id card db1 :
  CardService.take_first_available locked card_type amount actor_id now db
    = (Ok (id, card), db1) →
  ∃ card' db2,
    CardService.restore_card id actor_id' now' db1 = (Ok (id, card'), db2)
    ∧ cards db2 = cards db.
Proof.
  rewrite take_first_available_unfold.
  destruct (head _) as [[id0 card0]|] eqn:E; [|discriminate].
  intros [= -> <- <-].
  apply head_order_by_id_Some in E as (Hid & [(_ & _ & Hst) _] & _). simpl in Hst.
  rewrite restore_card_unfold.
  replace (cards (moved id (Card.set_status RESERVED card0) RESERVE actor_id now db)
             !! id)
    with (Some (Card.set_status RESERVED card0))
    by (unfold moved; simpl; by rewrite lookup_insert_eq).
  eexists _, _. split; [reflexivity|].
  unfold moved. simpl. rewrite insert_insert_eq, set_status_twice.
  rewrite (set_status_involutive AVAILABLE card0 Hst). by apply insert_id.
Qed.

(** The reservation step shared by the three handlers. *)
Lemma reserve_step card_type amount actor_id now db :
  try_except
    (let! card := CardService.take_first_available ∅ card_type amount actor_id now in
     ret (Some card))
    (λ e, match e with
          | NoResultFound => ret None
          | _ => raise e
          end) db
  = match CardService.take_first_available ∅ card_type amount actor_id now db with
    | (Ok card, db1) => (Ok (Some card), db1)
    | (Raise _, _) => (Ok None, db)
    end.
Proof.
  unfold try_except, bind. rewrite take_first_available_unfold.
  by destruct (head _) as [[id card]|].
Qed.

Lemma create_request_lookup requester_id responsible_id amount request_type status note
    card_type now db r db' :
  RequestService.create_request requester_id responsible_id amount request_type status
    note card_type now db = (Ok r, db') →
  requests db' !! r.1 = Some r.2 ∧ cards db' = cards db ∧ card_logs db' = card_logs db.
Proof.
  rewrite create_request_unfold. case_decide; [|discriminate].
  intros [= <- <-]. simpl. by rewrite lookup_insert_eq.
Qed.

Lemma create_request_raises requester_id responsible_id amount request_type status note
    card_type now db e db' :
  RequestService.create_request requester_id responsible_id amount request_type status
    note card_type now db = (Raise e, db') → db' = db.
Proof.
  rewrite create_request_unfold. case_decide; [discriminate|]. by intros [= _ <-].
Qed.

Lemma try_except_bind_Ok {S A B} (m : M S A) (k : A → M S B) h s a s' :
  m s = (Ok a, s') → try_except (bind m k) h s = try_except (k a) h s'.
Proof. intros H. unfold try_except, bind. by rewrite H. Qed.

Lemma try_except_bind_Raise {S A B} (m : M S A) (k : A → M S B) h s e s' :
  m s = (Raise e, s') → try_except (bind m k) h s = h e s'.
Proof. intros H. unfold try_except, bind. by rewrite H. Qed.

Lemma bind_outside {S A B} (r : result A) (k : A → M S B) s :
  bind (outside r) k s = match r with
                         | Ok a => k a s
                         | Raise e => (Raise e, s)
                         end.
Proof. unfold bind, outside. by destruct r. Qed.

Lemma admin_send_compensates operator target_user card_type amount bot now db
    outcome db' :
  HandlersAdmin.admin_send_card_amount operator target_user card_type amount bot
    now db = (Ok outcome, db') →
  outcome = HandlersAdmin.DeliveryFailed ∨ outcome = HandlersAdmin.RegistrationFailed →
  cards db' = cards db.
Proof.
  unfold HandlersAdmin.admin_send_card_amount.
  unfold bind at 1. rewrite reserve_step.
  destruct (CardService.take_first_available _ _ _ _ _ db) as [[[id card]|e] db1] eqn:Htake;
    [|unfold ret; intros [= <- _] [|]; discriminate].
  destruct (take_then_restore _ _ _ _ (fst <$> operator) _ now _ _ _ _ Htake)
    as (card' & db2 & Hrestore & Hcards).
  cbn [fst snd]. rewrite bind_outside.
  destruct (HandlersRequests.send_card_to_chat _ _ _) as [delivered|?]; [|discriminate].
  destruct delivered; cbn [negb].
  - unfold bind at 1.
    destruct (RequestService.create_request target_user.1 None (Card.amount card) FIXED
                PENDING_MANAGER None (Some (Card.card_type card)) now db1)
      as [[[rid request]|e] db3] eqn:Hcreate.
    + rewrite (try_except_bind_Ok _ _ _ _ _ _ Hcreate).
      apply create_request_lookup in Hcreate as (Hr3 & Hc3 & _). simpl in Hr3.
      cbn [fst snd].
      destruct (attach_card_keeps_cards rid id (fst <$> operator) now db3 request Hr3)
        as (r4 & db4 & Hattach & Hr4 & Hc4 & _).
      rewrite (try_except_bind_Ok _ _ _ _ _ _ Hattach).
      destruct (set_status_keeps_cards rid (fst <$> operator) APPROVED
                  (Some "Direct admin send"%string) now db4 r4 Hr4)
        as (r5 & db5 & Hstatus & Hr5 & Hc5 & _).
      rewrite (try_except_bind_Ok _ _ _ _ _ _ Hstatus).
      match goal with
      | |- context [try_except (bind ?m _) _ db5] =>
          assert (Happrover : ∃ db6, m db5 = (Ok tt, db6))
      end.
      { destruct (fst <$> operator) as [actor|]; [case_decide|];
          try (unfold ret; by eauto).
        destruct (set_approver_keeps_cards rid actor now db5 r5 Hr5)
          as (r6 & db6 & Hset & _).
        rewrite (bind_Ok _ _ _ _ _ Hset). unfold ret. eauto. }
      destruct Happrover as (db6 & Happrover).
      rewrite (try_except_bind_Ok _ _ _ _ _ _ Happrover).
      unfold try_except, ret at 1. cbn [negb]. unfold bind.
      destruct (CardService.mark_sent id (fst <$> operator) now db6) as [[?|?] ?];
        unfold ret; intros [= <- _] [|]; discriminate.
    + rewrite (try_except_bind_Raise _ _ _ _ _ _ Hcreate).
      apply create_request_raises in Hcreate as ->.
      rewrite (bind_Ok _ _ _ _ _ Hrestore). unfold ret. simpl.
      intros [= <- <-] _. done.
  - rewrite (bind_Ok _ _ _ _ _ Hrestore). unfold ret. intros [= <- <-] _. done.
Qed.

Lemma responsible_send_compensates responsible_user target_user card_type amount
    bot now db outcome db' :
  HandlersResponsible.responsible_send_card_amount responsible_user target_user
    card_type amount true bot now db = (Ok outcome, db') →
  outcome = HandlersResponsible.DeliveryFailed
  ∨ outcome = HandlersResponsible.RegistrationFailed →
  cards db' = cards db.
Proof.
  unfold HandlersResponsible.responsible_send_card_amount.
  unfold bind at 1. rewrite reserve_step.
  destruct (CardService.take_first_available _ _ _ _ _ db) as [[[id card]|e] db1] eqn:Htake;
    [|unfold ret; intros [= <- _] [|]; discriminate].
  destruct (take_then_restore _ _ _ _ (Some responsible_user.1) _ now _ _ _ _ Htake)
    as (card' & db2 & Hrestore & Hcards).
  cbn [fst snd]. rewrite bind_outside.
  destruct (HandlersRequests.send_card_to_chat _ _ _) as [delivered|?]; [|discriminate].
  destruct delivered; cbn [negb].
  - unfold bind at 1.
    destruct (RequestService.create_request target_user.1 (Some responsible_user.1)
                (Card.amount card) FIXED PENDING_MANAGER None
                (Some (Card.card_type card)) now db1)
      as [[[rid request]|e] db3] eqn:Hcreate.
    + rewrite (try_except_bind_Ok _ _ _ _ _ _ Hcreate).
      apply create_request_lookup in Hcreate as (Hr3 & Hc3 & _). simpl in Hr3.
      cbn [fst snd].
      destruct (attach_card_keeps_cards rid id (Some responsible_user.1) now db3
                  request Hr3) as (r4 & db4 & Hattach & Hr4 & Hc4 & _).
      rewrite (try_except_bind_Ok _ _ _ _ _ _ Hattach).
      destruct (set_status_keeps_cards rid (Some responsible_user.1) APPROVED
                  (Some "Direct responsible send"%string) now db4 r4 Hr4)
        as (r5 & db5 & Hstatus & Hr5 & Hc5 & _).
      rewrite (try_except_bind_Ok _ _ _ _ _ _ Hstatus).
      destruct (set_approver_keeps_cards rid responsible_user.1 now db5 r5 Hr5)
        as (r6 & db6 & Hset & _).
      rewrite (try_except_bind_Ok _ _ _ _ _ _ Hset).
      unfold try_except, ret at 1. cbn [negb]. unfold bind.
      destruct (CardService.mark_sent id (Some responsible_user.1) now db6)
        as [[?|?] ?]; unfold ret; intros [= <- _] [|]; discriminate.
    + rewrite (try_except_bind_Raise _ _ _ _ _ _ Hcreate).
      apply create_request_raises in Hcreate as ->.
      rewrite (bind_Ok _ _ _ _ _ Hrestore). unfold ret. simpl.
      intros [= <- <-] _. done.
  - rewrite (bind_Ok _ _ _ _ _ Hrestore). unfold ret. intros [= <- <-] _. done.
Qed.

(** On the sample store the admin's direct send, with Telegram turning the
    text message down, reports the failure and leaves the card AVAILABLE. *)
Example admin_send_failed_delivery_sample :
  (HandlersAdmin.admin_send_card_amount (Some (1, Sample.manager)) (2, Sample.member)
     ASIA 5000 Sample.blocked 10 Sample.store).1 = Ok HandlersAdmin.DeliveryFailed
  ∧ cards (HandlersAdmin.admin_send_card_amount (Some (1, Sample.manager))
             (2, Sample.member) ASIA 5000 Sample.blocked 10 Sample.store).2 !! 3
    = Some Sample.card_b.
Proof. split; vm_compute; reflexivity. Qed.

Lemma history_reconstructs_status_witness :
  history_consistent empty_database
  ∧ requests (run_ops Sample.ops empty_database) !! 1 = Some Sample.approved_request
  ∧ history_of 1 (run_ops Sample.ops empty_database) ≠ []
  ∧ (∃ first, head (history_of 1 (run_ops Sample.ops empty_database)) = Some first
              ∧ RequestStatusHistory.from_status first = None)
  ∧ (∃ final, last (history_of 1 (run_ops Sample.ops empty_database)) = Some final
              ∧ RequestStatusHistory.to_status final
                = RechargeRequest.status Sample.approved_request).
Proof.
  assert (H0 : history_consistent empty_database).
  { split.
    - intros h Hh. by apply not_elem_of_nil in Hh.
    - intros k r Hk. simpl in Hk. by rewrite lookup_empty in Hk. }
  assert (H1 : requests (run_ops Sample.ops empty_database) !! 1
               = Some Sample.approved_request) by (vm_compute; reflexivity).
  split; [exact H0|]. split; [exact H1|].
  exact (history_reconstructs_status empty_database Sample.ops 1
           Sample.approved_request H0 H1).
Defined.

Example history_of_sample :
  history_of 1 (run_ops Sample.ops empty_database) =
  [RequestStatusHistory.mk 1 (Some 2) None PENDING_MANAGER None 1;
   RequestStatusHistory.mk 1 (Some 1) (Some PENDING_MANAGER) PENDING_ACCOUNTING None 2;
   RequestStatusHistory.mk 1 (Some 9) (Some PENDING_ACCOUNTING) PENDING_ACCOUNTING
     (Some "Card assigned"%string) 3;
   RequestStatusHistory.mk 1 (Some 9) (Some PENDING_ACCOUNTING) APPROVED None 4].
Proof. vm_compute. reflexivity. Qed.

(** * Further properties of the inventory *)

(** ** Counting rows *)

Lemma map_to_list_filter_perm {A} (P : Z * A → Prop) `{!∀ x, Decision (P x)}
    (m : gmap Z A) :
  map_to_list (filter P m) ≡ₚ filter P (map_to_list m).
Proof.
  induction m as [|k x m Hk IH] using map_ind.
  { by rewrite map_filter_empty, !map_to_list_empty. }
  rewrite (map_to_list_insert m) by done. rewrite filter_cons.
  destruct (decide (P (k, x))) as [HP|HP].
  - rewrite map_filter_insert_True by done.
    rewrite map_to_list_insert by (rewrite map_lookup_filter_None; auto).
    by rewrite IH.
  - rewrite map_filter_insert_not' by naive_solver. done.
Qed.

Lemma length_filter_map_to_list {A} (P : Z * A → Prop) `{!∀ x, Decision (P x)}
    (m : gmap Z A) :
  length (filter P (map_to_list m)) = size (filter P m).
Proof. by rewrite <- map_to_list_filter_perm, length_map_to_list. Qed.

Lemma reserve_card_unfold card_id actor_id now db :
  CardService.reserve_card card_id actor_id now db =
  match cards db !! card_id with
  | None => (Raise NoResultFound, db)
  | Some card =>
      if decide (Card.status card ≠ AVAILABLE) then (Raise NoResultFound, db)
      else (Ok (card_id, Card.set_status RESERVED card),
            moved card_id (Card.set_status RESERVED card) RESERVE actor_id now db)
  end.
Proof.
  unfold CardService.reserve_card, session, bind, CardService.get_card, query. simpl.
  destruct (cards db !! card_id) as [card|]; [|reflexivity].
  case_decide; reflexivity.
Qed.

(** X1. [reserve_card] reserves a card chosen by id only if it is AVAILABLE:
    then it stores it as RESERVED and appends one RESERVE row. When the card
    is missing, or is RESERVED, SENT or ARCHIVED, it raises NoResultFound and
    the store is unchanged. *)
Theorem reserve_card_requires_available (card_id : Z) (actor_id : option Z) (now : Z)
    (db : Database) :
  (∀ card, cards db !! card_id = Some card → Card.status card = AVAILABLE →
     CardService.reserve_card card_id actor_id now db =
       (Ok (card_id, Card.set_status RESERVED card),
        mkDatabase (users db) (<[card_id := Card.set_status RESERVED card]> (cards db))
          (card_logs db ++ [CardInventoryLog.mk card_id actor_id RESERVE None now])
          (requests db) (history db)))
  ∧ (cards db !! card_id = None
     ∨ (∃ card, cards db !! card_id = Some card ∧ Card.status card ≠ AVAILABLE) →
     CardService.reserve_card card_id actor_id now db = (Raise NoResultFound, db)).
Proof.
  rewrite reserve_card_unfold. split.
  - intros card -> Hst. by rewrite decide_False by (by intros []).
  - intros [-> | (card & -> & Hst)]; [done|]. by rewrite decide_True.
Qed.

Lemma reserve_card_requires_available_witness :
  cards Sample.store !! 7 = Some Sample.card_a
  ∧ Card.status Sample.card_a = AVAILABLE
  ∧ CardService.reserve_card 7 (Some 1) 10 Sample.store =
      (Ok (7, Card.set_status RESERVED Sample.card_a),
       mkDatabase (users Sample.store)
         (<[7 := Card.set_status RESERVED Sample.card_a]> (cards Sample.store))
         (card_logs Sample.store ++ [CardInventoryLog.mk 7 (Some 1) RESERVE None 10])
         (requests Sample.store) (history Sample.store)).
Proof.
  split; [reflexivity|]. split; [reflexivity|].
  apply (proj1 (reserve_card_requires_available 7 (Some 1) 10 Sample.store));
    reflexivity.
Defined.

(** ** The listing and the allocation *)

Lemma order_by_id_keys_NoDup {A} (P : Z * A → Prop) `{!∀ x, Decision (P x)}
    (m : gmap Z A) :
  NoDup (order_by_id (filter P (map_to_list m))).*1.
Proof.
  unfold order_by_id. rewrite merge_sort_Permutation.
  eapply sublist_NoDup; [apply (NoDup_fst_map_to_list m)|].
  apply fmap_sublist, sublist_filter; apply _.
Qed.

Lemma strictly_sorted {A} (l : list (Z * A)) :
  StronglySorted id_le l → NoDup l.*1 → StronglySorted (λ x y, x.1 < y.1) l.
Proof.
  induction 1 as [|x l Hl IH Hall]; intros Hnd; [constructor|].
  simpl in Hnd. apply NoDup_cons in Hnd as [Hx Hnd].
  constructor; [by apply IH|].
  rewrite Forall_forall in *. intros y Hy.
  specialize (Hall y Hy). unfold id_le in Hall.
  assert (x.1 ≠ y.1).
  { intros Heq. apply Hx. rewrite Heq. by apply list_elem_of_fmap_2. }
  lia.
Qed.

(** X2. [list_available] returns exactly the AVAILABLE cards of the type and
    amount, each once, in strictly increasing order of id. *)
Theorem list_available_sorted_matches (card_type : CardType) (amount : Z)
    (db : Database) :
  (∀ k c, (k, c) ∈ CardService.list_available card_type amount db ↔
          cards db !! k = Some c
          ∧ Card.card_type c = card_type ∧ Card.amount c = amount
          ∧ Card.status c = AVAILABLE)
  ∧ StronglySorted (λ x y, x.1 < y.1) (CardService.list_available card_type amount db).
Proof.
  unfold CardService.list_available. split.
  - intros k c. rewrite elem_of_order_by_id. done.
  - apply strictly_sorted; [|apply order_by_id_keys_NoDup].
    apply StronglySorted_merge_sort; apply _.
Qed.

Lemma filter_nothing_locked (locked : gset Z) card_type amount
    (l : list (Z * Card.t)) :
  locked = ∅ →
  filter (λ kc, CardService.available_match card_type amount kc ∧ kc.1 ∉ locked) l
  = filter (CardService.available_match card_type amount) l.
Proof.
  intros ->. induction l as [|x l IH]; [done|].
  rewrite !filter_cons, IH.
  destruct (decide (CardService.available_match card_type amount x)) as [H|H].
  - rewrite decide_True; [done|]. split; [done|]. apply not_elem_of_empty.
  - rewrite decide_False; [done|]. by intros [? _].
Qed.

(** X3. With no row locked, [take_first_available] reserves the first card
    that [list_available] lists, and raises NoResultFound exactly when
    [list_available] lists nothing. *)
Theorem take_first_available_takes_head_of_list (card_type : CardType) (amount : Z)
    (actor_id : option Z) (now : Z) (db : Database) :
  CardService.take_first_available ∅ card_type amount actor_id now db =
  match CardService.list_available card_type amount db with
  | [] => (Raise NoResultFound, db)
  | (id, card) :: _ =>
      (Ok (id, Card.set_status RESERVED card),
       mkDatabase (users db) (<[id := Card.set_status RESERVED card]> (cards db))
         (card_logs db ++ [CardInventoryLog.mk id actor_id RESERVE None now])
         (requests db) (history db))
  end.
Proof.
  rewrite take_first_available_unfold, filter_nothing_locked by done.
  unfold CardService.list_available.
  by destruct (order_by_id _) as [|[id card] l].
Qed.

(** X4. [count_available] is the number of cards that [list_available]
    lists. *)
Theorem count_available_is_length_of_list (card_type : CardType) (amount : Z)
    (db : Database) :
  CardService.count_available card_type amount db
  = Z.of_nat (length (CardService.list_available card_type amount db)).
Proof.
  unfold CardService.count_available, CardService.list_available, order_by_id.
  by rewrite merge_sort_Permutation, length_filter_map_to_list.
Qed.

(** ** Stock levels *)

(** Replacing a counted row by one that is not counted takes one off. *)
Lemma size_filter_insert_out {A} (P : Z * A → Prop) `{!∀ x, Decision (P x)}
    (m : gmap Z A) k a a' :
  m !! k = Some a → P (k, a) → ¬ P (k, a') →
  Z.of_nat (size (filter P (<[k := a']> m))) = Z.of_nat (size (filter P m)) - 1.
Proof.
  intros Hk HP HP'.
  rewrite map_filter_insert_False, map_filter_delete by done.
  assert (Hin : filter P m !! k = Some a) by (by apply map_lookup_filter_Some).
  rewrite map_size_delete, Hin.
  assert (size (filter P m) ≠ 0%nat).
  { intros Hz. apply map_size_empty_inv in Hz. rewrite Hz in Hin.
    by rewrite lookup_empty in Hin. }
  lia.
Qed.

(** Adding a counted row under a fresh key adds one. *)
Lemma size_filter_insert_in {A} (P : Z * A → Prop) `{!∀ x, Decision (P x)}
    (m : gmap Z A) k a :
  m !! k = None → P (k, a) →
  Z.of_nat (size (filter P (<[k := a]> m))) = Z.of_nat (size (filter P m)) + 1.
Proof.
  intros Hk HP. rewrite map_filter_insert_True by done.
  rewrite map_size_insert_None by (rewrite map_lookup_filter_None; auto). lia.
Qed.

(** X5. A successful [take_first_available] lowers [count_available] for its
    type and amount by exactly one and leaves the count of every other type
    or amount as it was. *)
Theorem take_first_available_takes_one (locked : gset Z) (card_type : CardType)
    (amount : Z) (actor_id : option Z) (now : Z) (db db' : Database)
    (r : Z * Card.t) :
  CardService.take_first_available locked card_type amount actor_id now db
    = (Ok r, db') →
  CardService.count_available card_type amount db'
    = CardService.count_available card_type amount db - 1
  ∧ (∀ card_type' amount', (card_type', amount') ≠ (card_type, amount) →
       CardService.count_available card_type' amount' db'
       = CardService.count_available card_type' amount' db).
Proof.
  rewrite take_first_available_unfold.
  destruct (head _) as [[id card]|] eqn:E; [|discriminate].
  intros [= <- <-].
  apply head_order_by_id_Some in E as (Hid & [(Hty & Ham & Hst) _] & _).
  simpl in Hty, Ham, Hst.
  unfold CardService.count_available, moved. simpl. split.
  - apply (size_filter_insert_out _ _ _ card); [done|done|].
    intros (_ & _ & Hst'). simpl in Hst'. by destruct card.
  - intros card_type' amount' Hne. f_equal.
    rewrite map_filter_insert_not'; [done| |].
    + intros (_ & _ & Hst'). simpl in Hst'. by destruct card.
    + intros c Hc (Hty' & Ham' & _). simpl in *.
      destruct Hne. congruence.
Qed.

Lemma take_first_available_takes_one_witness :
  CardService.take_first_available ∅ ASIA 5000 (Some 1) 10 Sample.store
    = (Ok (3, Card.set_status RESERVED Sample.card_b),
       moved 3 (Card.set_status RESERVED Sample.card_b) RESERVE (Some 1) 10 Sample.store)
  ∧ CardService.count_available ASIA 5000
      (moved 3 (Card.set_status RESERVED Sample.card_b) RESERVE (Some 1) 10 Sample.store)
    = CardService.count_available ASIA 5000 Sample.store - 1
  ∧ (∀ card_type' amount', (card_type', amount') ≠ (ASIA, 5000) →
       CardService.count_available card_type' amount'
         (moved 3 (Card.set_status RESERVED Sample.card_b) RESERVE (Some 1) 10
            Sample.store)
       = CardService.count_available card_type' amount' Sample.store).
Proof.
  assert (H : CardService.take_first_available ∅ ASIA 5000 (Some 1) 10 Sample.store
    = (Ok (3, Card.set_status RESERVED Sample.card_b),
       moved 3 (Card.set_status RESERVED Sample.card_b) RESERVE (Some 1) 10
         Sample.store)) by (vm_compute; reflexivity).
  split; [exact H|].
  exact (take_first_available_takes_one ∅ ASIA 5000 (Some 1) 10 Sample.store _ _ H).
Defined.

(** X6. A successful [add_card] raises [count_available] for its type and
    amount by exactly one and leaves the count of every other type or amount
    as it was. *)
Theorem add_card_adds_one (card_type : CardType) (amount : Z) (actor_id : option Z)
    (image_file_id image_path serial_number : option string) (now : Z)
    (db db' : Database) (r : Z * Card.t) :
  CardService.add_card card_type amount actor_id image_file_id image_path
    serial_number now db = (Ok r, db') →
  CardService.count_available card_type amount db'
    = CardService.count_available card_type amount db + 1
  ∧ (∀ card_type' amount', (card_type', amount') ≠ (card_type, amount) →
       CardService.count_available card_type' amount' db'
       = CardService.count_available card_type' amount' db).
Proof.
  rewrite add_card_unfold. case_decide; [discriminate|].
  case_decide; [|discriminate]. simpl. intros [= <- <-].
  unfold CardService.count_available, moved. simpl.
  pose proof (next_id_fresh (cards db)) as Hfresh. split.
  - by apply size_filter_insert_in.
  - intros card_type' amount' Hne. f_equal.
    rewrite map_filter_insert_not'; [done| |].
    + intros (Hty' & Ham' & _). simpl in *. destruct Hne. congruence.
    + intros c Hc. congruence.
Qed.

Lemma add_card_adds_one_witness :
  CardService.add_card ASIA 5000 (Some 1) (Some "file"%string) None None 10 Sample.store
    = (Ok (8, Card.mk ASIA 5000 AVAILABLE (Some "file"%string) None None (Some 1) 10),
       (CardService.add_card ASIA 5000 (Some 1) (Some "file"%string) None None 10
          Sample.store).2)
  ∧ CardService.count_available ASIA 5000
      (CardService.add_card ASIA 5000 (Some 1) (Some "file"%string) None None 10
         Sample.store).2
    = CardService.count_available ASIA 5000 Sample.store + 1
  ∧ (∀ card_type' amount', (card_type', amount') ≠ (ASIA, 5000) →
       CardService.count_available card_type' amount'
         (CardService.add_card ASIA 5000 (Some 1) (Some "file"%string) None None 10
            Sample.store).2
       = CardService.count_available card_type' amount' Sample.store).
Proof.
  assert (H : CardService.add_card ASIA 5000 (Some 1) (Some "file"%string) None None
                10 Sample.store
    = (Ok (8, Card.mk ASIA 5000 AVAILABLE (Some "file"%string) None None (Some 1) 10),
       (CardService.add_card ASIA 5000 (Some 1) (Some "file"%string) None None 10
          Sample.store).2)) by (vm_compute; reflexivity).
  split; [exact H|].
  exact (add_card_adds_one ASIA 5000 (Some 1) (Some "file"%string) None None 10
           Sample.store _ _ H).
Defined.

(** X7. Two allocations in a row never hand out the same card: the second
    card differs from the first, and for the same type, amount and locked rows
    it has the larger id. *)
Theorem successive_allocations_differ (locked locked' : gset Z)
    (card_type card_type' : CardType) (amount amount' : Z)
    (actor_id actor_id' : option Z) (now now' : Z) (db db1 db2 : Database)
    (id1 id2 : Z) (card1 card2 : Card.t) :
  CardService.take_first_available locked card_type amount actor_id now db
    = (Ok (id1, card1), db1) →
  CardService.take_first_available locked' card_type' amount' actor_id' now' db1
    = (Ok (id2, card2), db2) →
  id1 ≠ id2
  ∧ (locked' = locked → card_type' = card_type → amount' = amount → id1 < id2).
Proof.
  rewrite !take_first_available_unfold.
  destruct (head _) as [[k1 c1]|] eqn:E1; [|discriminate].
  intros [= -> <- <-].
  match goal with
  | |- context [head ?l] => destruct (head l) as [[k2 c2]|] eqn:E2; [|discriminate]
  end.
  intros [= -> <- <-].
  apply head_order_by_id_Some in E1 as (Hk1 & [(Hty1 & Ham1 & Hst1) Hl1] & Hmin1).
  apply head_order_by_id_Some in E2 as (Hk2 & [(Hty2 & Ham2 & Hst2) Hl2] & _).
  simpl in *.
  assert (Hne : id1 ≠ id2).
  { intros <-. rewrite lookup_insert_eq in Hk2. injection Hk2 as <-.
    by destruct c1. }
  split; [done|]. intros -> -> ->.
  rewrite lookup_insert_ne in Hk2 by done.
  assert (id1 ≤ id2) by (apply (Hmin1 id2 c2); done). lia.
Qed.

(** ** The summary of the stock *)

Lemma CardType_value_inj : Inj (=) (=) CardType_value.
Proof. intros [] []; simpl; congruence. Qed.

(** The number [summary[card_type.value][amount]], if the keys are there. *)
Lemma summary_add_lookup summary row card_type amount :
  (CardService.summary_add summary row !! CardType_value card_type)
    ≫= (λ inner, inner !! amount)
  = if decide (row.1.1 = card_type ∧ row.1.2 = amount)
    then Some (default 0 ((summary !! CardType_value card_type)
                            ≫= (λ inner, inner !! amount)) + 1)
    else (summary !! CardType_value card_type) ≫= (λ inner, inner !! amount).
Proof.
  unfold CardService.summary_add.
  destruct (decide (row.1.1 = card_type)) as [Hty|Hty].
  - rewrite Hty, lookup_insert_eq. simpl.
    destruct (decide (row.1.2 = amount)) as [Ham|Ham].
    + rewrite Ham, lookup_insert_eq, decide_True by done.
      by destruct (summary !! CardType_value card_type).
    + rewrite lookup_insert_ne by done. rewrite decide_False by (by intros [_ ?]).
      destruct (summary !! CardType_value card_type); simpl; [done|].
      by rewrite lookup_empty.
  - rewrite lookup_insert_ne by (intros ?%CardType_value_inj; done).
    by rewrite decide_False by (by intros [? _]).
Qed.

Lemma foldl_summary_add_lookup rows summary card_type amount :
  (foldl CardService.summary_add summary rows !! CardType_value card_type)
    ≫= (λ inner, inner !! amount)
  = let n := length (filter (λ row : CardType * Z * Z,
                               row.1.1 = card_type ∧ row.1.2 = amount) rows) in
    if decide (n = 0%nat)
    then (summary !! CardType_value card_type) ≫= (λ inner, inner !! amount)
    else Some (default 0 ((summary !! CardType_value card_type)
                            ≫= (λ inner, inner !! amount)) + Z.of_nat n).
Proof.
  revert summary. induction rows as [|row rows IH]; intros summary; [done|].
  simpl foldl. rewrite IH, summary_add_lookup, filter_cons. clear IH.
  destruct (decide (row.1.1 = card_type ∧ row.1.2 = amount)); simpl.
  - case_decide as Hn; [rewrite Hn|]; f_equal; lia.
  - done.
Qed.

(** X8. [available_summary] agrees with [count_available]: under the key of a
    type and then of an amount it holds the number of AVAILABLE cards of that
    type and amount, and it has no entry where that number is zero. *)
Theorem available_summary_agrees_with_count (card_type : CardType) (amount : Z)
    (db : Database) :
  (CardService.available_summary db !! CardType_value card_type)
    ≫= (λ inner, inner !! amount)
  = if decide (CardService.count_available card_type amount db = 0) then None
    else Some (CardService.count_available card_type amount db).
Proof.
  unfold CardService.available_summary. rewrite foldl_summary_add_lookup.
  rewrite lookup_empty. cbv zeta. simpl.
  match goal with
  | |- context [length (filter ?P (merge_sort ?R ?l))] =>
      replace (length (filter P (merge_sort R l))) with (length (filter P l))
        by (by rewrite merge_sort_Permutation)
  end.
  assert (Hn : length (filter (λ row : CardType * Z * Z,
                                 row.1.1 = card_type ∧ row.1.2 = amount)
                         ((λ kc : Z * Card.t,
                             (Card.card_type kc.2, Card.amount kc.2, kc.1)) <$>
                          filter (λ kc : Z * Card.t, Card.status kc.2 = AVAILABLE)
                                 (map_to_list (cards db))))
               = size (filter (CardService.available_match card_type amount)
                              (cards db))).
  { rewrite <- length_filter_map_to_list.
    induction (map_to_list (cards db)) as [|kc l IH]; [done|].
    rewrite !filter_cons. unfold CardService.available_match at 1.
    destruct (decide (Card.status kc.2 = AVAILABLE)) as [Hst|Hst].
    - rewrite fmap_cons, filter_cons. simpl.
      destruct (decide (Card.card_type kc.2 = card_type ∧ Card.amount kc.2 = amount))
        as [[? ?]|Hno].
      + rewrite decide_True by done. simpl. by rewrite IH.
      + rewrite decide_False by (intros (? & ? & _); by apply Hno). done.
    - rewrite decide_False by (by intros (_ & _ & ?)). done. }
  rewrite Hn. unfold CardService.count_available.
  repeat case_decide; try lia; f_equal; lia.
Qed.

(** ** The inventory log explains the status *)

Lemma explains_singleton row status :
  CardInventoryLog.action row = ADD → status = AVAILABLE → explains [row] status.
Proof.
  intros Hadd ->. split; exists row; simpl; [done|]. by rewrite Hadd.
Qed.

Lemma explains_snoc rows row status status' :
  explains rows status →
  status_after (CardInventoryLog.action row) = Some status' →
  explains (rows ++ [row]) status'.
Proof.
  intros [(first & Hhead & Hadd) _] Hafter. split.
  - exists first. split; [|done]. destruct rows; [discriminate|done].
  - exists row. split; [apply last_snoc|done].
Qed.

Lemma log_of_absent id db :
  inventory_consistent db → cards db !! id = None → log_of id db = [].
Proof.
  intros [Hrows _] Hnone. unfold log_of.
  induction (card_logs db) as [|row l IH]; [done|].
  rewrite filter_cons. case_decide as Hrow.
  - destruct (Hrows row) as [c Hc]; [left|]. rewrite Hrow in Hc. congruence.
  - apply IH. intros row' Hrow'. apply Hrows. by right.
Qed.

Lemma moved_consistent id card action actor_id now db :
  inventory_consistent db →
  status_after action = Some (Card.status card) →
  (cards db !! id = None → action = ADD) →
  inventory_consistent (moved id card action actor_id now db).
Proof.
  intros Hdb Hafter Hnew. pose proof Hdb as [Hrows Hcards]. split.
  - intros row Hrow. unfold moved in *. simpl in *.
    apply elem_of_app in Hrow as [Hrow|Hrow].
    + apply lookup_insert_is_Some'. right. by apply Hrows.
    + apply list_elem_of_singleton in Hrow as ->. simpl.
      rewrite lookup_insert_eq. eauto.
  - intros k c Hk. unfold moved in Hk. simpl in Hk.
    unfold log_of, moved. simpl. rewrite filter_app, filter_cons. simpl.
    destruct (decide (id = k)) as [->|Hne].
    + rewrite lookup_insert_eq in Hk. injection Hk as <-.
      destruct (cards db !! k) as [old|] eqn:Hold.
      * eapply explains_snoc; [by apply (Hcards k old)|done].
      * fold (log_of k db). rewrite (log_of_absent k db Hdb Hold). simpl.
        rewrite (Hnew eq_refl) in *. apply explains_singleton; [done|].
        simpl in Hafter. congruence.
    + rewrite lookup_insert_ne in Hk by done. rewrite app_nil_r.
      by apply Hcards.
Qed.

Lemma run_card_op_consistent op db :
  inventory_consistent db → inventory_consistent (run_card_op op db).
Proof.
  intros Hdb. destruct op; simpl.
  - rewrite add_card_unfold. repeat case_decide; try done. simpl.
    apply moved_consistent; done.
  - rewrite take_first_available_unfold.
    destruct (head _) as [[id card]|] eqn:E; [|done]. simpl.
    apply head_order_by_id_Some in E as (Hid & _).
    apply moved_consistent; [done|done|congruence].
  - rewrite reserve_card_unfold.
    destruct (cards db !! card_id) as [card|] eqn:E; [|done].
    case_decide; [done|]. simpl. apply moved_consistent; [done|done|congruence].
  - rewrite mark_sent_unfold.
    destruct (cards db !! card_id) as [card|] eqn:E; [|done]. simpl.
    apply moved_consistent; [done|done|congruence].
  - rewrite restore_card_unfold.
    destruct (cards db !! card_id) as [card|] eqn:E; [|done]. simpl.
    apply moved_consistent; [done|done|congruence].
Qed.

Lemma run_card_ops_consistent ops db :
  inventory_consistent db → inventory_consistent (run_card_ops ops db).
Proof.
  revert db. induction ops as [|op ops IH]; intros db Hdb; [done|].
  simpl. apply IH. by apply run_card_op_consistent.
Qed.

(** X9. After any sequence of [add_card], [take_first_available],
    [reserve_card], [mark_sent] and [restore_card] calls on a store whose log
    explains its cards (the empty store is one), the inventory-log rows of
    every stored card, oldest first, start with its ADD row and end with the
    action that leaves the card in its current status: ADD or RESTORE for
    AVAILABLE, RESERVE for RESERVED, SEND for SENT. *)
Theorem inventory_log_explains_status (db0 : Database) (ops : list CardOp)
    (card_id : Z) (card : Card.t) :
  inventory_consistent db0 →
  cards (run_card_ops ops db0) !! card_id = Some card →
  (∃ first, head (log_of card_id (run_card_ops ops db0)) = Some first
            ∧ CardInventoryLog.action first = ADD)
  ∧ (∃ final, last (log_of card_id (run_card_ops ops db0)) = Some final
              ∧ status_after (CardInventoryLog.action final)
                = Some (Card.status card)).
Proof.
  intros Hdb0 Hcard.
  destruct (run_card_ops_consistent ops db0 Hdb0) as [_ Hcards].
  exact (Hcards _ _ Hcard).
Qed.

Lemma inventory_log_explains_status_witness :
  inventory_consistent empty_database
  ∧ cards (run_card_ops Sample.card_ops empty_database) !! 1 = Some Sample.sent_card
  ∧ (∃ first, head (log_of 1 (run_card_ops Sample.card_ops empty_database))
              = Some first
              ∧ CardInventoryLog.action first = ADD)
  ∧ (∃ final, last (log_of 1 (run_card_ops Sample.card_ops empty_database))
              = Some final
              ∧ status_after (CardInventoryLog.action final)
                = Some (Card.status Sample.sent_card)).
Proof.
  assert (H0 : inventory_consistent empty_database).
  { split.
    - intros row Hrow. by apply not_elem_of_nil in Hrow.
    - intros k c Hk. simpl in Hk. by rewrite lookup_empty in Hk. }
  assert (H1 : cards (run_card_ops Sample.card_ops empty_database) !! 1
               = Some Sample.sent_card) by (vm_compute; reflexivity).
  split; [exact H0|]. split; [exact H1|].
  exact (inventory_log_explains_status empty_database Sample.card_ops 1
           Sample.sent_card H0 H1).
Defined.

(** ** The constraints of the card table *)

Lemma set_status_constraints id card s actor_id action now db :
  cards db !! id = Some card →
  card_constraints db →
  card_constraints (moved id (Card.set_status s card) action actor_id now db).
Proof.
  intros Hid [Hpos Huniq].
  assert (Ham : Card.amount (Card.set_status s card) = Card.amount card)
    by (by destruct card).
  assert (Hsn : Card.serial_number (Card.set_status s card) = Card.serial_number card)
    by (by destruct card).
  unfold moved. split; simpl.
  - intros k c. rewrite lookup_insert. case_decide as Hk.
    + intros [= <-]. rewrite Ham. by apply (Hpos _ _ Hid).
    + apply Hpos.
  - intros k k' c c' sn. rewrite !lookup_insert.
    repeat case_decide; intros Hc Hc' Hs Hs'; simplify_eq; try done.
    + rewrite Hsn in Hs. by apply (Huniq _ _ _ _ sn Hid Hc').
    + rewrite Hsn in Hs'. by apply (Huniq _ _ _ _ sn Hc Hid).
    + by apply (Huniq k k' c c' sn).
Qed.

Lemma run_card_op_constraints op db :
  card_constraints db → card_constraints (run_card_op op db).
Proof.
  intros Hdb. destruct op; simpl.
  - rewrite add_card_unfold. case_decide; [done|].
    case_decide as Hok; [|done]. simpl. destruct Hok as [Hpos Hfree].
    destruct Hdb as [Hamounts Huniq].
    pose proof (next_id_fresh (cards db)) as Hfresh.
    unfold moved. split; simpl.
    + intros k c. rewrite lookup_insert. case_decide; [by intros [= <-]|].
      apply Hamounts.
    + intros k k' c c' sn. rewrite !lookup_insert.
      repeat case_decide; subst; intros Hc Hc' Hs Hs'; simplify_eq; try done.
      * simpl in Hs. subst. by destruct (Hfree k' c' Hc').
      * simpl in Hs'. subst. by destruct (Hfree k c Hc).
      * by apply (Huniq k k' c c' sn).
  - rewrite take_first_available_unfold.
    destruct (head _) as [[id card]|] eqn:E; [|done]. simpl.
    apply head_order_by_id_Some in E as (Hid & _).
    by apply set_status_constraints.
  - rewrite reserve_card_unfold.
    destruct (cards db !! card_id) as [card|] eqn:E; [|done].
    case_decide; [done|]. simpl. by apply set_status_constraints.
  - rewrite mark_sent_unfold.
    destruct (cards db !! card_id) as [card|] eqn:E; [|done]. simpl.
    by apply set_status_constraints.
  - rewrite restore_card_unfold.
    destruct (cards db !! card_id) as [card|] eqn:E; [|done]. simpl.
    by apply set_status_constraints.
Qed.

(** X10. No sequence of inventory operations breaks the constraints of the
    card table: if every stored card has a positive amount and no two stored
    cards share a serial number, the same holds after any sequence of
    [add_card], [take_first_available], [reserve_card], [mark_sent] and
    [restore_card] calls. *)
Theorem card_constraints_kept (db0 : Database) (ops : list CardOp) :
  card_constraints db0 → card_constraints (run_card_ops ops db0).
Proof.
  revert db0. induction ops as [|op ops IH]; intros db Hdb; [done|].
  simpl. apply IH. by apply run_card_op_constraints.
Qed.

Lemma card_constraints_kept_witness :
  card_constraints empty_database
  ∧ card_constraints (run_card_ops Sample.card_ops empty_database).
Proof.
  assert (H0 : card_constraints empty_database).
  { split.
    - intros k c Hk. simpl in Hk. by rewrite lookup_empty in Hk.
    - intros k k' c c' sn Hk. simpl in Hk. by rewrite lookup_empty in Hk. }
  split; [exact H0|].
  exact (card_constraints_kept empty_database Sample.card_ops H0).
Defined.

(** * Further properties of the workflow *)

Lemma stored_final_card request card_id now :
  let request' :=
    stored request (RechargeRequest.set_final_card_id card_id request) now in
  RechargeRequest.final_card_id request' = Some card_id
  ∧ same_but_final_card request request'
  ∧ (RechargeRequest.final_card_id request = Some card_id → request' = request)
  ∧ (RechargeRequest.final_card_id request ≠ Some card_id →
     RechargeRequest.updated_at request' = now).
Proof.
  unfold stored, same_but_final_card. simpl.
  case_decide as H.
  - assert (Hfinal : RechargeRequest.final_card_id request = Some card_id)
      by (by rewrite <- H).
    repeat split; done.
  - rewrite decide_True by done. simpl. repeat split; try done.
    intros Hfinal. destruct H. destruct request; simpl in *. by subst.
Qed.

(** X11. [attach_card] on a stored request sets [final_card_id] to the given
    card, whether or not the request already held a card, keeps the status
    and every other column but [updated_at], and appends one history row
    whose [from_status] and [to_status] are both the current status, with
    the note "Card assigned". On a missing request it raises NoResultFound
    and the store is unchanged. *)
Theorem attach_card_sets_final_card (request_id card_id : Z) (actor_id : option Z)
    (now : Z) (db : Database) :
  (∀ request, requests db !! request_id = Some request →
     ∃ request',
       RequestService.attach_card request_id card_id actor_id now db =
         (Ok (request_id, request'),
          mkDatabase (users db) (cards db) (card_logs db)
            (<[request_id := request']> (requests db))
            (history db ++
               [RequestStatusHistory.mk request_id actor_id
                  (Some (RechargeRequest.status request))
                  (RechargeRequest.status request)
                  (Some "Card assigned"%string) now]))
       ∧ RechargeRequest.final_card_id request' = Some card_id
       ∧ same_but_final_card request request'
       ∧ (RechargeRequest.final_card_id request = Some card_id → request' = request)
       ∧ (RechargeRequest.final_card_id request ≠ Some card_id →
          RechargeRequest.updated_at request' = now))
  ∧ (requests db !! request_id = None →
     RequestService.attach_card request_id card_id actor_id now db
       = (Raise NoResultFound, db)).
Proof.
  rewrite attach_card_unfold. split.
  - intros request ->. simpl. eexists. split; [reflexivity|].
    apply stored_final_card.
  - by intros ->.
Qed.

Lemma attach_card_sets_final_card_witness :
  requests Sample.store !! 1 = Some Sample.pending_request
  ∧ ∃ request',
      RequestService.attach_card 1 3 (Some 1) 10 Sample.store =
        (Ok (1, request'),
         mkDatabase (users Sample.store) (cards Sample.store) (card_logs Sample.store)
           (<[1 := request']> (requests Sample.store))
           (history Sample.store ++
              [RequestStatusHistory.mk 1 (Some 1)
                 (Some (RechargeRequest.status Sample.pending_request))
                 (RechargeRequest.status Sample.pending_request)
                 (Some "Card assigned"%string) 10]))
      ∧ RechargeRequest.final_card_id request' = Some 3
      ∧ same_but_final_card Sample.pending_request request'
      ∧ (RechargeRequest.final_card_id Sample.pending_request = Some 3 →
         request' = Sample.pending_request)
      ∧ (RechargeRequest.final_card_id Sample.pending_request ≠ Some 3 →
         RechargeRequest.updated_at request' = 10).
Proof.
  split; [reflexivity|].
  apply (proj1 (attach_card_sets_final_card 1 3 (Some 1) 10 Sample.store)).
  reflexivity.
Defined.

(** X12. [create_request] with an amount outside the 64 bits of an SQLite
    INTEGER raises OverflowError; with an amount inside them that is not
    positive it raises IntegrityError (the CHECK constraint
    [ck_recharge_amount_positive]); both store nothing. With a positive
    amount below 2^63 it stores the request under a fresh id, without
    approver, accounting actor, card or reason and with both time stamps set
    to the clock, and appends one history row without [from_status], leading
    to the initial status and attributed to the requester. *)
Theorem create_request_checks_amount (requester_id : Z) (responsible_id : option Z)
    (amount : Z) (request_type : RequestType) (status : RequestStatus)
    (note : option string) (card_type : option CardType) (now : Z) (db : Database) :
  (amount < - 2 ^ 63 ∨ 2 ^ 63 ≤ amount →
   RequestService.create_request requester_id responsible_id amount request_type
     status note card_type now db = (Raise OverflowError, db))
  ∧ (- 2 ^ 63 ≤ amount ≤ 0 →
     RequestService.create_request requester_id responsible_id amount request_type
       status note card_type now db = (Raise IntegrityError, db))
  ∧ (0 < amount < 2 ^ 63 →
     ∃ id,
       RequestService.create_request requester_id responsible_id amount request_type
         status note card_type now db =
         (Ok (id, RechargeRequest.mk requester_id responsible_id None None
                    request_type amount status None card_type None now now),
          mkDatabase (users db) (cards db) (card_logs db)
            (<[id := RechargeRequest.mk requester_id responsible_id None None
                       request_type amount status None card_type None now now]>
               (requests db))
            (history db ++
               [RequestStatusHistory.mk id (Some requester_id) None status note now]))
       ∧ requests db !! id = None).
Proof.
  rewrite create_request_unfold. unfold RequestService.sqlite_integer.
  split; [|split].
  - intros H. rewrite decide_False by lia. by rewrite decide_False by lia.
  - intros H. rewrite decide_False by lia. by rewrite decide_True by lia.
  - intros H. rewrite decide_True by lia. simpl.
    eexists. split; [reflexivity|apply next_id_fresh].
Qed.

Lemma create_request_checks_amount_witness :
  0 < 5000 < 2 ^ 63
  ∧ ∃ id,
      RequestService.create_request 2 (Some 1) 5000 FIXED PENDING_MANAGER None
        (Some ASIA) 10 Sample.store =
        (Ok (id, RechargeRequest.mk 2 (Some 1) None None FIXED 5000 PENDING_MANAGER
                   None (Some ASIA) None 10 10),
         mkDatabase (users Sample.store) (cards Sample.store) (card_logs Sample.store)
           (<[id := RechargeRequest.mk 2 (Some 1) None None FIXED 5000
                      PENDING_MANAGER None (Some ASIA) None 10 10]>
              (requests Sample.store))
           (history Sample.store ++
              [RequestStatusHistory.mk id (Some 2) None PENDING_MANAGER None 10]))
      ∧ requests Sample.store !! id = None.
Proof.
  assert (H : 0 < 5000 < 2 ^ 63) by lia.
  split; [exact H|].
  exact (proj2 (proj2 (create_request_checks_amount 2 (Some 1) 5000 FIXED
                         PENDING_MANAGER None (Some ASIA) 10 Sample.store)) H).
Defined.

(** ** The export of consumed requests *)

Lemma elem_of_consumed_joins db jr :
  jr ∈ omap (RequestService.consumed_join db) (map_to_list (requests db)) ↔
  ∃ k, requests db !! k = Some jr.1
       ∧ RequestService.consumed_join db (k, jr.1) = Some jr.
Proof.
  rewrite list_elem_of_omap. split.
  - intros ([k request] & Hin & Hjoin). apply elem_of_map_to_list in Hin.
    assert (jr.1 = request) as ->.
    { unfold RequestService.consumed_join in Hjoin. simpl in Hjoin.
      destruct (users db !! _); [|done]. by injection Hjoin as <-. }
    eauto.
  - intros (k & Hk & Hjoin). exists (k, jr.1). split; [|done].
    by apply elem_of_map_to_list.
Qed.

(** X13. [export_consumed_requests] returns a row for a request exactly when
    the request is stored with status APPROVED, its requester is a stored
    user, and it passes the filters that are given: the responsible, the
    earliest and the latest [updated_at]. A request whose requester row is
    missing is never exported. *)
Theorem export_consumed_requests_exact (responsible_id : option Z)
    (start end_ : option Z) (db : Database) (row : RequestService.ConsumedRow) :
  row ∈ RequestService.export_consumed_requests responsible_id start end_ db ↔
  ∃ k request,
    requests db !! k = Some request
    ∧ RechargeRequest.status request = APPROVED
    ∧ is_Some (users db !! RechargeRequest.requester_id request)
    ∧ (∀ r, responsible_id = Some r → RechargeRequest.responsible_id request = Some r)
    ∧ (∀ t, start = Some t → t ≤ RechargeRequest.updated_at request)
    ∧ (∀ t, end_ = Some t → RechargeRequest.updated_at request ≤ t)
    ∧ RequestService.consumed_join db (k, request) = Some (request, row).
Proof.
  unfold RequestService.export_consumed_requests.
  rewrite list_elem_of_fmap. split.
  - intros ([request row'] & -> & Hin). simpl.
    rewrite merge_sort_Permutation in Hin.
    apply list_elem_of_filter in Hin as [(Hst & Hresp & Hstart & Hend) Hin].
    apply elem_of_consumed_joins in Hin as (k & Hk & Hjoin). simpl in *.
    exists k, request. split; [done|]. split; [done|].
    split.
    { unfold RequestService.consumed_join in Hjoin. simpl in Hjoin.
      destruct (users db !! _); [eauto|done]. }
    split; [by intros r ->|]. split; [by intros t ->|]. split; [by intros t ->|].
    done.
  - intros (k & request & Hk & Hst & _ & Hresp & Hstart & Hend & Hjoin).
    exists (request, row). split; [done|].
    rewrite merge_sort_Permutation. apply list_elem_of_filter. split.
    + unfold RequestService.consumed_where. simpl. split; [done|].
      split; [destruct responsible_id; eauto|].
      split; [destruct start; eauto|destruct end_; eauto].
    + apply elem_of_consumed_joins. eauto.
Qed.

Lemma consumed_join_row db kr jr :
  RequestService.consumed_join db kr = Some jr →
  jr.1 = kr.2 ∧ RequestService.row_id jr.2 = kr.1
  ∧ RequestService.row_updated_at jr.2 = RechargeRequest.updated_at jr.1.
Proof.
  unfold RequestService.consumed_join.
  destruct (users db !! _); [|done]. by intros [= <-].
Qed.

Lemma consumed_joins_ids db (l : list (Z * RechargeRequest.t)) :
  (RequestService.row_id ∘ snd) <$> omap (RequestService.consumed_join db) l
    `sublist_of` l.*1.
Proof.
  induction l as [|kr l IH]; [done|]. simpl.
  destruct (RequestService.consumed_join db kr) as [jr|] eqn:E; simpl.
  - apply consumed_join_row in E as (_ & -> & _). by apply sublist_skip.
  - by apply sublist_cons.
Qed.

(** X14. The rows of [export_consumed_requests] come in non-decreasing order
    of [updated_at], and no request gives more than one row. *)
Theorem export_consumed_requests_ordered (responsible_id : option Z)
    (start end_ : option Z) (db : Database) :
  StronglySorted
    (λ x y, RequestService.row_updated_at x ≤ RequestService.row_updated_at y)
    (RequestService.export_consumed_requests responsible_id start end_ db)
  ∧ NoDup (RequestService.row_id <$>
             RequestService.export_consumed_requests responsible_id start end_ db).
Proof.
  unfold RequestService.export_consumed_requests.
  set (joined := omap (RequestService.consumed_join db) (map_to_list (requests db))).
  set (selected := filter (RequestService.consumed_where responsible_id start end_)
                          joined).
  assert (Hstamp : Forall (λ jr : RechargeRequest.t * RequestService.ConsumedRow,
                      RequestService.row_updated_at jr.2
                      = RechargeRequest.updated_at jr.1)
                     (merge_sort RequestService.updated_le selected)).
  { rewrite merge_sort_Permutation. apply Forall_forall. intros jr Hin.
    apply list_elem_of_filter in Hin as [_ Hin].
    apply list_elem_of_omap in Hin as (kr & _ & Hjoin).
    by apply consumed_join_row in Hjoin as (_ & _ & ?). }
  split.
  - assert (Hsorted : StronglySorted RequestService.updated_le
                        (merge_sort RequestService.updated_le selected)).
    { apply StronglySorted_merge_sort.
      - intros x y z. unfold RequestService.updated_le. lia.
      - intros x y. unfold RequestService.updated_le. lia. }
    induction Hsorted as [|jr l Hl IH Hall]; [constructor|].
    apply Forall_cons in Hstamp as [Hjr Hstamp].
    rewrite fmap_cons. constructor; [by apply IH|].
    rewrite Forall_fmap. rewrite Forall_forall in *. intros jr' Hin. simpl.
    rewrite Hjr, (Hstamp jr' Hin). by apply Hall.
  - rewrite <- list_fmap_compose.
    rewrite merge_sort_Permutation.
    eapply sublist_NoDup; [apply (NoDup_fst_map_to_list (requests db))|].
    etrans; [|apply consumed_joins_ids].
    apply fmap_sublist, sublist_filter; apply _.
Qed.

(** * Further properties of the handlers *)

(** ** The approval sequence *)

Lemma approved_with_columns card_id approver_id now request :
  let request' := approved_with card_id approver_id now request in
  RechargeRequest.status request' = APPROVED
  ∧ RechargeRequest.final_card_id request' = Some card_id
  ∧ RechargeRequest.approver_id request' = Some approver_id
  ∧ RechargeRequest.updated_at request' = now
  ∧ RechargeRequest.requester_id request' = RechargeRequest.requester_id request
  ∧ RechargeRequest.responsible_id request' = RechargeRequest.responsible_id request
  ∧ RechargeRequest.amount request' = RechargeRequest.amount request.
Proof.
  unfold approved_with.
  set (attached := stored request (RechargeRequest.set_final_card_id card_id request)
                     now).
  destruct (stored_final_card request card_id now)
    as (Hfinal & (Hrq & Hrs & _ & _ & _ & Ham & _) & _).
  fold attached in Hfinal, Hrq, Hrs, Ham.
  destruct (stored_approver attached approver_id now)
    as (Happ & (Hrq' & Hrs' & _ & _ & Ham' & _ & Hfinal' & _) & _).
  simpl. repeat split; congruence.
Qed.

(** [attach_card], [set_approver] and [set_status] to APPROVED, run in that
    order on a stored request, always go through. *)
Lemma approval_sequence {A} (k : Svc A) request_id card_id approver_id actor_id now db
    request :
  requests db !! request_id = Some request →
  (let! _ := RequestService.attach_card request_id card_id actor_id now in
   let! _ := RequestService.set_approver request_id approver_id now in
   let! _ := RequestService.set_status request_id actor_id APPROVED None now in
   k) db
  = k (mkDatabase (users db) (cards db) (card_logs db)
         (<[request_id := approved_with card_id approver_id now request]> (requests db))
         (history db ++ approval_rows request_id actor_id now request)).
Proof.
  intros Hrequest.
  erewrite bind_Ok; [|by rewrite attach_card_unfold, Hrequest].
  erewrite bind_Ok;
    [|by rewrite set_approver_unfold; simpl; rewrite lookup_insert_eq].
  erewrite bind_Ok;
    [|by rewrite set_status_unfold; simpl; rewrite lookup_insert_eq].
  f_equal. unfold recorded, approved_with, approval_rows. simpl.
  rewrite !insert_insert_eq, <- app_assoc. simpl.
  by rewrite stored_status, stored_status.
Qed.

(** The card that an allocation without locked rows picks is the first of the
    listing. *)
Lemma take_first_of_list card_type amount actor_id now db id card rest :
  CardService.list_available card_type amount db = (id, card) :: rest →
  CardService.take_first_available ∅ card_type amount actor_id now db =
    (Ok (id, Card.set_status RESERVED card),
     moved id (Card.set_status RESERVED card) RESERVE actor_id now db)
  ∧ cards db !! id = Some card ∧ Card.status card = AVAILABLE.
Proof.
  unfold CardService.list_available. intros Hlist.
  assert (Hhead : head (order_by_id
                          (filter (CardService.available_match card_type amount)
                                  (map_to_list (cards db)))) = Some (id, card))
    by (by rewrite Hlist).
  rewrite take_first_available_unfold, filter_nothing_locked, Hhead by done.
  split; [done|].
  apply head_order_by_id_Some in Hhead as (Hid & (_ & _ & Hst) & _). done.
Qed.


(** ** The decision of the accounting *)

(** X15. On an approval by an ADMIN of a request waiting for the accounting,
    whose requester has a line type with stock for the amount,
    [handle_accounting_decision] takes the oldest AVAILABLE card of that type
    and amount, leaves it SENT with a RESERVE and a SEND row in the log, and
    leaves the request APPROVED with that card and the admin as approver and
    two more history rows. It does so whatever [send_card_to_chat] returned,
    and also when the requester has no Telegram id and nothing was sent. *)
Theorem accounting_approval_sends_card (request_id admin_id : Z) (admin : User.t)
    (delivered : bool) (now : Z) (db : Database) (request : RechargeRequest.t)
    (requester : User.t) (card_type : CardType) (id : Z) (card : Card.t)
    (rest : list (Z * Card.t)) :
  User.role admin = ADMIN →
  requests db !! request_id = Some request →
  RechargeRequest.status request = PENDING_ACCOUNTING →
  users db !! RechargeRequest.requester_id request = Some requester →
  User.line_type requester = Some card_type →
  CardService.list_available card_type (RechargeRequest.amount request) db
    = (id, card) :: rest →
  HandlersRequests.handle_accounting_decision HandlersRequests.AccountingApprove
    request_id (Some (admin_id, admin)) delivered now db =
    (Ok (HandlersRequests.CardSent (id, Card.set_status RESERVED card)),
     mkDatabase (users db) (<[id := Card.set_status SENT card]> (cards db))
       (card_logs db ++ [CardInventoryLog.mk id (Some admin_id) RESERVE None now;
                         CardInventoryLog.mk id (Some admin_id) SEND None now])
       (<[request_id := approved_with id admin_id now request]> (requests db))
       (history db ++
          [RequestStatusHistory.mk request_id (Some admin_id) (Some PENDING_ACCOUNTING)
             PENDING_ACCOUNTING (Some "Card assigned"%string) now;
           RequestStatusHistory.mk request_id (Some admin_id) (Some PENDING_ACCOUNTING)
             APPROVED None now]))
  ∧ RechargeRequest.status (approved_with id admin_id now request) = APPROVED
  ∧ RechargeRequest.final_card_id (approved_with id admin_id now request) = Some id
  ∧ RechargeRequest.approver_id (approved_with id admin_id now request)
    = Some admin_id.
Proof.
  intros Hrole Hrequest Hstatus Hrequester Hline Hlist.
  destruct (approved_with_columns id admin_id now request)
    as (Hst & Hfinal & Happrover & _).
  split; [|done].
  destruct (take_first_of_list card_type (RechargeRequest.amount request)
              (Some admin_id) now db id card rest Hlist) as (Htake & Hcard & _).
  unfold HandlersRequests.handle_accounting_decision.
  rewrite decide_False by (by intros []).
  unfold bind at 1, read at 1. unfold RequestService.get_request. rewrite Hrequest.
  rewrite decide_False by (by intros []).
  unfold bind at 1, read at 1. unfold UserService.get_by_id at 1.
  rewrite Hrequester. simpl. rewrite Hline.
  unfold bind at 1. rewrite reserve_step, Htake. cbn [fst].
  rewrite (approval_sequence _ _ _ _ _ _ _ request) by done.
  unfold bind at 1, read at 1.
  erewrite bind_Ok; [|by rewrite mark_sent_unfold; simpl; rewrite lookup_insert_eq].
  unfold ret, moved, approval_rows. simpl.
  by rewrite insert_insert_eq, set_status_twice, <- app_assoc, Hstatus.
Qed.

Lemma accounting_approval_sends_card_witness :
  User.role Sample.admin = ADMIN
  ∧ requests Sample.office !! 2 = Some Sample.waiting_request
  ∧ RechargeRequest.status Sample.waiting_request = PENDING_ACCOUNTING
  ∧ users Sample.office !! RechargeRequest.requester_id Sample.waiting_request
    = Some Sample.member
  ∧ User.line_type Sample.member = Some ASIA
  ∧ CardService.list_available ASIA (RechargeRequest.amount Sample.waiting_request)
      Sample.office = [(3, Sample.card_b); (7, Sample.card_a)]
  ∧ (HandlersRequests.handle_accounting_decision HandlersRequests.AccountingApprove
       2 (Some (9, Sample.admin)) false 10 Sample.office =
       (Ok (HandlersRequests.CardSent (3, Card.set_status RESERVED Sample.card_b)),
        mkDatabase (users Sample.office)
          (<[3 := Card.set_status SENT Sample.card_b]> (cards Sample.office))
          (card_logs Sample.office ++
             [CardInventoryLog.mk 3 (Some 9) RESERVE None 10;
              CardInventoryLog.mk 3 (Some 9) SEND None 10])
          (<[2 := approved_with 3 9 10 Sample.waiting_request]>
             (requests Sample.office))
          (history Sample.office ++
             [RequestStatusHistory.mk 2 (Some 9) (Some PENDING_ACCOUNTING)
                PENDING_ACCOUNTING (Some "Card assigned"%string) 10;
              RequestStatusHistory.mk 2 (Some 9) (Some PENDING_ACCOUNTING)
                APPROVED None 10]))
     ∧ RechargeRequest.status (approved_with 3 9 10 Sample.waiting_request) = APPROVED
     ∧ RechargeRequest.final_card_id (approved_with 3 9 10 Sample.waiting_request)
       = Some 3
     ∧ RechargeRequest.approver_id (approved_with 3 9 10 Sample.waiting_request)
       = Some 9).
Proof.
  assert (H : CardService.list_available ASIA
                (RechargeRequest.amount Sample.waiting_request) Sample.office
              = [(3, Sample.card_b); (7, Sample.card_a)]) by (vm_compute; reflexivity).
  do 5 (split; [reflexivity|]). split; [exact H|].
  exact (accounting_approval_sends_card 2 9 Sample.admin false 10 Sample.office
           Sample.waiting_request Sample.member ASIA 3 Sample.card_b
           [(7, Sample.card_a)] eq_refl eq_refl eq_refl eq_refl eq_refl H).
Defined.


(** X17. A rejection by an ADMIN of a request waiting for the accounting sets
    its status to REJECTED with [updated_at] at the clock and appends one
    history row from PENDING_ACCOUNTING to REJECTED; no card, no inventory-log
    row and no other request is touched. *)
Theorem accounting_rejection_keeps_inventory (request_id admin_id : Z)
    (admin : User.t) (delivered : bool) (now : Z) (db : Database)
    (request : RechargeRequest.t) :
  User.role admin = ADMIN →
  requests db !! request_id = Some request →
  RechargeRequest.status request = PENDING_ACCOUNTING →
  HandlersRequests.handle_accounting_decision HandlersRequests.AccountingReject
    request_id (Some (admin_id, admin)) delivered now db =
    (Ok HandlersRequests.RejectedByAccounting,
     mkDatabase (users db) (cards db) (card_logs db)
       (<[request_id := RechargeRequest.set_updated_at now
                          (RechargeRequest.set_status REJECTED request)]>
          (requests db))
       (history db ++
          [RequestStatusHistory.mk request_id (Some admin_id)
             (Some PENDING_ACCOUNTING) REJECTED None now])).
Proof.
  intros Hrole Hrequest Hstatus.
  unfold HandlersRequests.handle_accounting_decision.
  rewrite decide_False by (by intros []).
  unfold bind at 1, read at 1. unfold RequestService.get_request. rewrite Hrequest.
  rewrite decide_False by (by intros []).
  erewrite bind_Ok; [|by rewrite set_status_unfold, Hrequest].
  unfold ret, recorded. simpl. by rewrite Hstatus.
Qed.

Lemma accounting_rejection_keeps_inventory_witness :
  User.role Sample.admin = ADMIN
  ∧ requests Sample.office !! 2 = Some Sample.waiting_request
  ∧ RechargeRequest.status Sample.waiting_request = PENDING_ACCOUNTING
  ∧ HandlersRequests.handle_accounting_decision HandlersRequests.AccountingReject
      2 (Some (9, Sample.admin)) true 10 Sample.office =
      (Ok HandlersRequests.RejectedByAccounting,
       mkDatabase (users Sample.office) (cards Sample.office)
         (card_logs Sample.office)
         (<[2 := RechargeRequest.set_updated_at 10
                   (RechargeRequest.set_status REJECTED Sample.waiting_request)]>
            (requests Sample.office))
         (history Sample.office ++
            [RequestStatusHistory.mk 2 (Some 9) (Some PENDING_ACCOUNTING) REJECTED
               None 10])).
Proof.
  do 3 (split; [reflexivity|]).
  exact (accounting_rejection_keeps_inventory 2 9 Sample.admin true 10 Sample.office
           Sample.waiting_request eq_refl eq_refl eq_refl).
Defined.

(** ** The decision of the manager *)

Lemma count_of_list card_type amount db :
  CardService.count_available card_type amount db
  = Z.of_nat (length (CardService.list_available card_type amount db)).
Proof.
  unfold CardService.count_available, CardService.list_available, order_by_id.
  by rewrite merge_sort_Permutation, length_filter_map_to_list.
Qed.

Lemma accounting_options_unfold amount db :
  HandlersRequests._accounting_options amount db =
  (if decide (CardService.count_available ASIA amount db ≠ 0)
   then [(ASIA, CardService.count_available ASIA amount db)] else [])
  ++ (if decide (CardService.count_available ATHIR amount db ≠ 0)
      then [(ATHIR, CardService.count_available ATHIR amount db)] else []).
Proof.
  unfold HandlersRequests._accounting_options, CardType_members. simpl.
  repeat case_decide; reflexivity.
Qed.

(** The type the fast path takes a card of: ASIA when ASIA has stock for the
    amount, else ATHIR when ATHIR has. *)
Lemma accounting_options_head amount db card_type id card rest :
  CardService.list_available card_type amount db = (id, card) :: rest →
  (card_type = ATHIR → CardService.list_available ASIA amount db = []) →
  ∃ count options,
    HandlersRequests._accounting_options amount db = (card_type, count) :: options.
Proof.
  intros Hlist Hasia. rewrite accounting_options_unfold.
  destruct card_type.
  - rewrite decide_True by (rewrite count_of_list, Hlist; cbn [length]; lia).
    simpl. eauto.
  - rewrite decide_False by (rewrite count_of_list, (Hasia eq_refl); cbn [length]; lia).
    rewrite decide_True by (rewrite count_of_list, Hlist; cbn [length]; lia).
    simpl. eauto.
Qed.

(** X18. The fast path of [handle_manager_decision], run by the responsible of
    a request waiting for the manager who may approve directly, with a
    requester on Telegram and a delivery that succeeds: it takes the oldest
    AVAILABLE card of the amount, of type ASIA when ASIA has stock and of type
    ATHIR otherwise (whatever type the request asks for), leaves it SENT with
    a RESERVE and a SEND row in the log, and leaves the request APPROVED with
    that card and the manager as approver, with two more history rows, the
    last going from PENDING_MANAGER to APPROVED. *)
Theorem manager_fast_path_delivers (request_id manager_id : Z) (manager : User.t)
    (now : Z) (db : Database) (request : RechargeRequest.t) (requester : User.t)
    (card_type : CardType) (id : Z) (card : Card.t) (rest : list (Z * Card.t)) :
  User.can_approve_directly manager = true →
  requests db !! request_id = Some request →
  RechargeRequest.responsible_id request = Some manager_id →
  RechargeRequest.status request = PENDING_MANAGER →
  users db !! RechargeRequest.requester_id request = Some requester →
  truthy (User.telegram_id requester) = true →
  CardService.list_available card_type (RechargeRequest.amount request) db
    = (id, card) :: rest →
  (card_type = ATHIR →
   CardService.list_available ASIA (RechargeRequest.amount request) db = []) →
  HandlersRequests.handle_manager_decision HandlersRequests.Send request_id
    (Some (manager_id, manager)) true now db =
    (Ok (HandlersRequests.CardDelivered (id, Card.set_status RESERVED card)),
     mkDatabase (users db) (<[id := Card.set_status SENT card]> (cards db))
       (card_logs db ++ [CardInventoryLog.mk id (Some manager_id) RESERVE None now;
                         CardInventoryLog.mk id (Some manager_id) SEND None now])
       (<[request_id := approved_with id manager_id now request]> (requests db))
       (history db ++
          [RequestStatusHistory.mk request_id (Some manager_id) (Some PENDING_MANAGER)
             PENDING_MANAGER (Some "Card assigned"%string) now;
           RequestStatusHistory.mk request_id (Some manager_id) (Some PENDING_MANAGER)
             APPROVED None now]))
  ∧ RechargeRequest.status (approved_with id manager_id now request) = APPROVED
  ∧ RechargeRequest.final_card_id (approved_with id manager_id now request) = Some id
  ∧ RechargeRequest.approver_id (approved_with id manager_id now request)
    = Some manager_id.
Proof.
  intros Hdirect Hrequest Hresp Hstatus Hrequester Htelegram Hlist Hasia.
  destruct (approved_with_columns id manager_id now request)
    as (Hst & Hfinal & Happrover & _).
  split; [|done].
  destruct (take_first_of_list card_type (RechargeRequest.amount request)
              (Some manager_id) now db id card rest Hlist) as (Htake & Hcard & _).
  destruct (accounting_options_head _ _ _ _ _ _ Hlist Hasia)
    as (count & options & Hoptions).
  unfold HandlersRequests.handle_manager_decision.
  unfold bind at 1, read at 1. unfold RequestService.get_request. rewrite Hrequest.
  rewrite decide_False by (by intros []).
  rewrite decide_False by (by intros []).
  unfold bind at 1, read at 1. unfold UserService.get_by_id. rewrite Hrequester.
  rewrite Hdirect. cbn [negb].
  unfold bind at 1, read at 1. rewrite Hoptions.
  unfold bind at 1. rewrite reserve_step, Htake. cbn [fst].
  rewrite (approval_sequence _ _ _ _ _ _ _ request) by done.
  rewrite Htelegram. cbn [negb].
  erewrite bind_Ok; [|by rewrite mark_sent_unfold; simpl; rewrite lookup_insert_eq].
  unfold ret, moved, approval_rows. simpl.
  by rewrite insert_insert_eq, set_status_twice, <- app_assoc, Hstatus.
Qed.

Lemma manager_fast_path_delivers_witness :
  User.can_approve_directly Sample.manager = true
  ∧ requests Sample.store !! 1 = Some Sample.pending_request
  ∧ RechargeRequest.responsible_id Sample.pending_request = Some 1
  ∧ RechargeRequest.status Sample.pending_request = PENDING_MANAGER
  ∧ users Sample.store !! RechargeRequest.requester_id Sample.pending_request
    = Some Sample.member
  ∧ truthy (User.telegram_id Sample.member) = true
  ∧ CardService.list_available ASIA (RechargeRequest.amount Sample.pending_request)
      Sample.store = [(3, Sample.card_b); (7, Sample.card_a)]
  ∧ (HandlersRequests.handle_manager_decision HandlersRequests.Send 1
       (Some (1, Sample.manager)) true 10 Sample.store =
       (Ok (HandlersRequests.CardDelivered (3, Card.set_status RESERVED Sample.card_b)),
        mkDatabase (users Sample.store)
          (<[3 := Card.set_status SENT Sample.card_b]> (cards Sample.store))
          (card_logs Sample.store ++
             [CardInventoryLog.mk 3 (Some 1) RESERVE None 10;
              CardInventoryLog.mk 3 (Some 1) SEND None 10])
          (<[1 := approved_with 3 1 10 Sample.pending_request]>
             (requests Sample.store))
          (history Sample.store ++
             [RequestStatusHistory.mk 1 (Some 1) (Some PENDING_MANAGER)
                PENDING_MANAGER (Some "Card assigned"%string) 10;
              RequestStatusHistory.mk 1 (Some 1) (Some PENDING_MANAGER)
                APPROVED None 10]))
     ∧ RechargeRequest.status (approved_with 3 1 10 Sample.pending_request) = APPROVED
     ∧ RechargeRequest.final_card_id (approved_with 3 1 10 Sample.pending_request)
       = Some 3
     ∧ RechargeRequest.approver_id (approved_with 3 1 10 Sample.pending_request)
       = Some 1).
Proof.
  assert (H : CardService.list_available ASIA
                (RechargeRequest.amount Sample.pending_request) Sample.store
              = [(3, Sample.card_b); (7, Sample.card_a)]) by (vm_compute; reflexivity).
  do 6 (split; [reflexivity|]). split; [exact H|].
  refine (manager_fast_path_delivers 1 1 Sample.manager 10 Sample.store
            Sample.pending_request Sample.member ASIA 3 Sample.card_b
            [(7, Sample.card_a)] eq_refl eq_refl eq_refl eq_refl eq_refl eq_refl H _).
  discriminate.
Defined.


(** X20. The plain decisions of the manager. An approval by the responsible of
    a request waiting for the manager moves it to PENDING_ACCOUNTING, a
    rejection to REJECTED; each sets [updated_at] to the clock and appends one
    history row from PENDING_MANAGER to the new status, attributed to the
    manager. Neither touches a card or the inventory log. *)
Theorem manager_approval_forwards (request_id manager_id : Z) (manager : User.t)
    (delivered : bool) (now : Z) (db : Database) (request : RechargeRequest.t) :
  requests db !! request_id = Some request →
  RechargeRequest.responsible_id request = Some manager_id →
  RechargeRequest.status request = PENDING_MANAGER →
  HandlersRequests.handle_manager_decision HandlersRequests.Approve request_id
    (Some (manager_id, manager)) delivered now db =
    (Ok HandlersRequests.ForwardedToAccounting,
     mkDatabase (users db) (cards db) (card_logs db)
       (<[request_id := RechargeRequest.set_updated_at now
                          (RechargeRequest.set_status PENDING_ACCOUNTING request)]>
          (requests db))
       (history db ++
          [RequestStatusHistory.mk request_id (Some manager_id) (Some PENDING_MANAGER)
             PENDING_ACCOUNTING None now]))
  ∧ HandlersRequests.handle_manager_decision HandlersRequests.Reject request_id
      (Some (manager_id, manager)) delivered now db =
      (Ok HandlersRequests.RequestRejected,
       mkDatabase (users db) (cards db) (card_logs db)
         (<[request_id := RechargeRequest.set_updated_at now
                            (RechargeRequest.set_status REJECTED request)]>
            (requests db))
         (history db ++
            [RequestStatusHistory.mk request_id (Some manager_id)
               (Some PENDING_MANAGER) REJECTED None now])).
Proof.
  intros Hrequest Hresp Hstatus.
  split.
  - unfold HandlersRequests.handle_manager_decision.
    unfold bind at 1, read at 1. unfold RequestService.get_request.
    rewrite Hrequest.
    rewrite !decide_False by (by intros []).
    unfold bind at 1, read at 1.
    erewrite bind_Ok; [|by rewrite set_status_unfold, Hrequest].
    unfold ret, recorded. simpl. by rewrite Hstatus.
  - unfold HandlersRequests.handle_manager_decision.
    unfold bind at 1, read at 1. unfold RequestService.get_request.
    rewrite Hrequest.
    rewrite !decide_False by (by intros []).
    unfold bind at 1, read at 1.
    erewrite bind_Ok; [|by rewrite set_status_unfold, Hrequest].
    unfold ret, recorded. simpl. by rewrite Hstatus.
Qed.

Lemma manager_approval_forwards_witness :
  requests Sample.store !! 1 = Some Sample.pending_request
  ∧ RechargeRequest.responsible_id Sample.pending_request = Some 1
  ∧ RechargeRequest.status Sample.pending_request = PENDING_MANAGER
  ∧ (HandlersRequests.handle_manager_decision HandlersRequests.Approve 1
       (Some (1, Sample.manager)) false 10 Sample.store =
       (Ok HandlersRequests.ForwardedToAccounting,
        mkDatabase (users Sample.store) (cards Sample.store) (card_logs Sample.store)
          (<[1 := RechargeRequest.set_updated_at 10
                    (RechargeRequest.set_status PENDING_ACCOUNTING
                       Sample.pending_request)]>
             (requests Sample.store))
          (history Sample.store ++
             [RequestStatusHistory.mk 1 (Some 1) (Some PENDING_MANAGER)
                PENDING_ACCOUNTING None 10]))
     ∧ HandlersRequests.handle_manager_decision HandlersRequests.Reject 1
         (Some (1, Sample.manager)) false 10 Sample.store =
         (Ok HandlersRequests.RequestRejected,
          mkDatabase (users Sample.store) (cards Sample.store)
            (card_logs Sample.store)
            (<[1 := RechargeRequest.set_updated_at 10
                      (RechargeRequest.set_status REJECTED Sample.pending_request)]>
               (requests Sample.store))
            (history Sample.store ++
               [RequestStatusHistory.mk 1 (Some 1) (Some PENDING_MANAGER) REJECTED
                  None 10]))).
Proof.
  do 3 (split; [reflexivity|]).
  exact (manager_approval_forwards 1 1 Sample.manager false 10 Sample.store
           Sample.pending_request eq_refl eq_refl eq_refl).
Defined.

Lemma successive_allocations_differ_witness :
  CardService.take_first_available ∅ ASIA 5000 (Some 1) 10 Sample.store
    = (Ok (3, Card.set_status RESERVED Sample.card_b),
       moved 3 (Card.set_status RESERVED Sample.card_b) RESERVE (Some 1) 10 Sample.store)
  ∧ CardService.take_first_available ∅ ASIA 5000 (Some 1) 11
      (moved 3 (Card.set_status RESERVED Sample.card_b) RESERVE (Some 1) 10 Sample.store)
    = (Ok (7, Card.set_status RESERVED Sample.card_a),
       moved 7 (Card.set_status RESERVED Sample.card_a) RESERVE (Some 1) 11
         (moved 3 (Card.set_status RESERVED Sample.card_b) RESERVE (Some 1) 10
            Sample.store))
  ∧ 3 ≠ 7
  ∧ ((∅ : gset Z) = ∅ → ASIA = ASIA → 5000 = 5000 → 3 < 7).
Proof.
  assert (H1 : CardService.take_first_available ∅ ASIA 5000 (Some 1) 10 Sample.store
    = (Ok (3, Card.set_status RESERVED Sample.card_b),
       moved 3 (Card.set_status RESERVED Sample.card_b) RESERVE (Some 1) 10
         Sample.store)) by (vm_compute; reflexivity).
  assert (H2 : CardService.take_first_available ∅ ASIA 5000 (Some 1) 11
      (moved 3 (Card.set_status RESERVED Sample.card_b) RESERVE (Some 1) 10 Sample.store)
    = (Ok (7, Card.set_status RESERVED Sample.card_a),
       moved 7 (Card.set_status RESERVED Sample.card_a) RESERVE (Some 1) 11
         (moved 3 (Card.set_status RESERVED Sample.card_b) RESERVE (Some 1) 10
            Sample.store))) by (vm_compute; reflexivity).
  split; [exact H1|]. split; [exact H2|].
  exact (successive_allocations_differ ∅ ∅ ASIA ASIA 5000 5000 (Some 1) (Some 1) 10 11
           Sample.store _ _ 3 7 _ _ H1 H2).
Defined.

(** * Further properties of the helpers *)

(** X21. [calculate_tariff] adds 500 to an amount up to 15000 and 1000 to a
    larger one, and it is strictly increasing: a card of a larger amount never
    has a smaller or equal tariff. *)
Theorem calculate_tariff_increasing (a b : Z) :
  a < b →
  KeyboardsCards.calculate_tariff a < KeyboardsCards.calculate_tariff b
  ∧ a + 500 ≤ KeyboardsCards.calculate_tariff a ≤ a + 1000
  ∧ (KeyboardsCards.calculate_tariff a = a + 500 ↔ a ≤ 15000)
  ∧ (KeyboardsCards.calculate_tariff a = a + 1000 ↔ 15000 < a).
Proof.
  unfold KeyboardsCards.calculate_tariff. intros Hab.
  repeat case_decide; repeat split; intros; lia.
Qed.

Lemma calculate_tariff_increasing_witness :
  15000 < 18000
  ∧ KeyboardsCards.calculate_tariff 15000 < KeyboardsCards.calculate_tariff 18000
  ∧ 15000 + 500 ≤ KeyboardsCards.calculate_tariff 15000 ≤ 15000 + 1000
  ∧ (KeyboardsCards.calculate_tariff 15000 = 15000 + 500 ↔ 15000 ≤ 15000)
  ∧ (KeyboardsCards.calculate_tariff 15000 = 15000 + 1000 ↔ 15000 < 15000).
Proof.
  assert (H : 15000 < 18000) by reflexivity.
  split; [exact H|]. exact (calculate_tariff_increasing 15000 18000 H).
Defined.

(** ** Phone numbers *)

Section normalize_facts.
Variable isdigit : Z → bool.

Lemma filter_kept_id (l : list Z) :
  Forall (λ ch, isdigit ch = true ∨ ch = Formatters.plus_sign) l →
  filter (λ ch, isdigit ch = true ∨ ch = Formatters.plus_sign) l = l.
Proof.
  induction 1 as [|ch l Hch Hl IH]; [done|].
  by rewrite filter_cons_True, IH.
Qed.

Lemma normalize_phone_shape (phone : list Z) :
  ∃ rest, Formatters.normalize_phone isdigit phone = Formatters.plus_sign :: rest
          ∧ Forall (λ ch, isdigit ch = true ∨ ch = Formatters.plus_sign) rest.
Proof.
  unfold Formatters.normalize_phone.
  assert (Hkept : Forall (λ ch, isdigit ch = true ∨ ch = Formatters.plus_sign)
                         (filter (λ ch, isdigit ch = true ∨ ch = Formatters.plus_sign)
                                 phone)).
  { apply Forall_forall. intros ch Hin. by apply list_elem_of_filter in Hin as [? _]. }
  destruct (filter _ phone) as [|a [|b rest]].
  - eauto.
  - case_decide as Ha; [subst; eauto|eauto].
  - apply Forall_cons in Hkept as [Ha Hkept].
    pose proof Hkept as [Hb Hrest]%Forall_cons.
    case_decide as Hzero.
    + rewrite decide_True by done. eauto.
    + case_decide as Hplus; [subst; eauto|]. eexists. split; [done|].
      by constructor.
Qed.

End normalize_facts.

(** X22. Whatever the table of digits is, [normalize_phone] returns a string
    that starts with "+" and holds only digits and "+" signs, and normalising
    a normalised number changes nothing. *)
Theorem normalize_phone_idempotent (isdigit : Z → bool) (phone : list Z) :
  head (Formatters.normalize_phone isdigit phone) = Some Formatters.plus_sign
  ∧ Forall (λ ch, isdigit ch = true ∨ ch = Formatters.plus_sign)
           (Formatters.normalize_phone isdigit phone)
  ∧ Formatters.normalize_phone isdigit (Formatters.normalize_phone isdigit phone)
    = Formatters.normalize_phone isdigit phone.
Proof.
  destruct (normalize_phone_shape isdigit phone) as (rest & -> & Hrest).
  split; [done|].
  assert (Hall : Forall (λ ch, isdigit ch = true ∨ ch = Formatters.plus_sign)
                        (Formatters.plus_sign :: rest))
    by (constructor; [by right|done]).
  split; [done|].
  unfold Formatters.normalize_phone.
  rewrite (filter_kept_id isdigit _ Hall).
  destruct rest as [|b rest].
  - by rewrite decide_True.
  - rewrite decide_False by (intros [? _]; done).
    by rewrite decide_True.
Qed.

(** ** Monthly reports *)

Lemma head_filter_map_to_list_Some {A} (P : Z * A → Prop) `{!∀ x, Decision (P x)}
    (m : gmap Z A) k a :
  head (filter P (map_to_list m)) = Some (k, a) → m !! k = Some a ∧ P (k, a).
Proof.
  intros Hhead. apply head_Some_elem_of in Hhead.
  apply list_elem_of_filter in Hhead as [HP Hin].
  by apply elem_of_map_to_list in Hin.
Qed.

Lemma head_filter_map_to_list_None {A} (P : Z * A → Prop) `{!∀ x, Decision (P x)}
    (m : gmap Z A) :
  head (filter P (map_to_list m)) = None → ∀ k a, m !! k = Some a → ¬ P (k, a).
Proof.
  intros Hhead k a Hk HP. apply head_None in Hhead.
  assert (Hin : (k, a) ∈ filter P (map_to_list m)).
  { apply list_elem_of_filter. split; [done|]. by apply elem_of_map_to_list. }
  rewrite Hhead in Hin. by apply not_elem_of_nil in Hin.
Qed.

(** A row that is the only one to satisfy a filter is the one it selects. *)
Lemma head_filter_map_to_list_unique {A} (P : Z * A → Prop) `{!∀ x, Decision (P x)}
    (m : gmap Z A) k a :
  m !! k = Some a → P (k, a) →
  (∀ k' a', m !! k' = Some a' → P (k', a') → k' = k) →
  head (filter P (map_to_list m)) = Some (k, a).
Proof.
  intros Hk HP Huniq.
  destruct (head (filter P (map_to_list m))) as [[k' a']|] eqn:E.
  - apply head_filter_map_to_list_Some in E as [Hk' HP'].
    pose proof (Huniq k' a' Hk' HP') as ->. rewrite Hk in Hk'. by injection Hk' as <-.
  - by destruct (head_filter_map_to_list_None P m E k a).
Qed.

(** The upsert keeps [uq_monthly_report_period] and stores the row it
    returns. *)
Lemma record_monthly_report_stores period_start period_end total_amount report_path now
    reports id report reports' :
  period_unique reports →
  Reports.record_monthly_report period_start period_end total_amount report_path now
    reports = ((id, report), reports') →
  period_unique reports'
  ∧ reports' !! id = Some report
  ∧ MonthlyReport.period_start report = Reports.date period_start
  ∧ MonthlyReport.period_end report = Reports.date period_end.
Proof.
  intros Huniq. unfold Reports.record_monthly_report.
  destruct (head _) as [[id0 report0]|] eqn:E; intros [= <- <- <-].
  - apply head_filter_map_to_list_Some in E as [Hid [Hps Hpe]]. simpl in Hps, Hpe.
    split; [|by rewrite lookup_insert_eq].
    intros k k' r r'. rewrite !lookup_insert.
    repeat case_decide; intros Hr Hr' Hs He; simplify_eq; try done.
    + apply (Huniq _ _ _ _ Hid Hr'); done.
    + apply (Huniq _ _ _ _ Hr Hid); done.
    + by apply (Huniq _ _ _ _ Hr Hr').
  - pose proof (head_filter_map_to_list_None _ _ E) as Hnone.
    split; [|by rewrite lookup_insert_eq].
    intros k k' r r'. rewrite !lookup_insert.
    repeat case_decide; intros Hr Hr' Hs He; simplify_eq; try done.
    + by destruct (Hnone k' r' Hr').
    + by destruct (Hnone k r Hr).
    + by apply (Huniq _ _ _ _ Hr Hr').
Qed.

(** X23. [record_monthly_report] is an upsert keyed by the two days of the
    period. On a table with at most one row for a period, the row it returns
    is stored under the id it returns, has that period and holds the given
    total and path; every stored row of another period is untouched, and no
    row but the returned one is new; the table still has at most one row for
    a period. When the period has a row, that row is the one returned, it
    keeps its creation stamp and the table keeps its size; when the period
    has none, the id is fresh, the creation stamp is the clock and the table
    grows by one row. *)
Theorem record_monthly_report_upserts (period_start period_end : Reports.datetime)
    (total_amount : Z) (report_path : string) (now : Z)
    (reports : gmap Z MonthlyReport.t) :
  period_unique reports →
  ∃ id report reports',
    Reports.record_monthly_report period_start period_end total_amount report_path
      now reports = ((id, report), reports')
    ∧ reports' !! id = Some report
    ∧ MonthlyReport.period_start report = Reports.date period_start
    ∧ MonthlyReport.period_end report = Reports.date period_end
    ∧ MonthlyReport.total_amount report = total_amount
    ∧ MonthlyReport.report_path report = report_path
    ∧ (∀ k, k ≠ id → reports' !! k = reports !! k)
    ∧ (∀ k r, reports !! k = Some r →
         ¬ (MonthlyReport.period_start r = Reports.date period_start
            ∧ MonthlyReport.period_end r = Reports.date period_end) →
         reports' !! k = Some r)
    ∧ (∀ k r, reports !! k = Some r →
         MonthlyReport.period_start r = Reports.date period_start →
         MonthlyReport.period_end r = Reports.date period_end → k = id)
    ∧ period_unique reports'
    ∧ ((∃ old, reports !! id = Some old
               ∧ MonthlyReport.period_start old = Reports.date period_start
               ∧ MonthlyReport.period_end old = Reports.date period_end
               ∧ MonthlyReport.created_at report = MonthlyReport.created_at old
               ∧ size reports' = size reports)
       ∨ (reports !! id = None
          ∧ (∀ k r, reports !! k = Some r →
               ¬ (MonthlyReport.period_start r = Reports.date period_start
                  ∧ MonthlyReport.period_end r = Reports.date period_end))
          ∧ MonthlyReport.created_at report = now
          ∧ size reports' = S (size reports))).
Proof.
  intros Huniq. unfold Reports.record_monthly_report.
  destruct (head _) as [[id report]|] eqn:E.
  - apply head_filter_map_to_list_Some in E as [Hid [Hps Hpe]]. simpl in Hps, Hpe.
    assert (Hsame : ∀ k r, reports !! k = Some r →
              MonthlyReport.period_start r = Reports.date period_start →
              MonthlyReport.period_end r = Reports.date period_end → k = id).
    { intros k r Hk Hrs Hre. apply (Huniq k id r report); congruence. }
    eexists _, _, _. split; [reflexivity|].
    split; [by rewrite lookup_insert_eq|].
    split; [done|]. split; [done|]. split; [done|]. split; [done|].
    split; [intros k Hk; by rewrite lookup_insert_ne|].
    split.
    { intros k r Hk Hother. rewrite lookup_insert_ne; [done|].
      intros <-. rewrite Hid in Hk. injection Hk as <-. by destruct Hother. }
    split; [exact Hsame|].
    split.
    + intros k k' r r'. rewrite !lookup_insert.
      repeat case_decide; intros Hr Hr' Hs He; simplify_eq; try done.
      * apply (Huniq _ _ _ _ Hid Hr'); done.
      * apply (Huniq _ _ _ _ Hr Hid); done.
      * by apply (Huniq _ _ _ _ Hr Hr').
    + left. exists report. split; [done|]. split; [done|]. split; [done|].
      split; [done|]. apply map_size_insert_Some. eauto.
  - pose proof (head_filter_map_to_list_None _ _ E) as Hnone.
    pose proof (next_id_fresh reports) as Hfresh.
    eexists _, _, _. split; [reflexivity|].
    split; [by rewrite lookup_insert_eq|].
    split; [done|]. split; [done|]. split; [done|]. split; [done|].
    split; [intros k Hk; by rewrite lookup_insert_ne|].
    split.
    { intros k r Hk _. rewrite lookup_insert_ne; [done|].
      intros <-. by rewrite Hfresh in Hk. }
    split.
    { intros k r Hk Hrs Hre. by destruct (Hnone k r Hk). }
    split.
    + intros k k' r r'. rewrite !lookup_insert.
      repeat case_decide; intros Hr Hr' Hs He; simplify_eq; try done.
      * by destruct (Hnone k' r' Hr').
      * by destruct (Hnone k r Hr).
      * by apply (Huniq _ _ _ _ Hr Hr').
    + right. split; [done|]. split; [exact Hnone|]. split; [done|].
      by apply map_size_insert_None.
Qed.

Lemma record_monthly_report_upserts_witness :
  period_unique Sample.archive
  ∧ ∃ id report reports',
      Reports.record_monthly_report (Reports.mkDatetime 100 0)
        (Reports.mkDatetime 130 86399) 25000 "reports/monthly_summary.xlsx" 7
        Sample.archive
        = ((id, report), reports')
      ∧ reports' !! id = Some report
      ∧ MonthlyReport.period_start report = Reports.date (Reports.mkDatetime 100 0)
      ∧ MonthlyReport.period_end report = Reports.date (Reports.mkDatetime 130 86399)
      ∧ MonthlyReport.total_amount report = 25000
      ∧ MonthlyReport.report_path report = "reports/monthly_summary.xlsx"%string
      ∧ (∀ k, k ≠ id → reports' !! k = Sample.archive !! k)
      ∧ (∀ k r, Sample.archive !! k = Some r →
           ¬ (MonthlyReport.period_start r = Reports.date (Reports.mkDatetime 100 0)
              ∧ MonthlyReport.period_end r
                = Reports.date (Reports.mkDatetime 130 86399)) →
           reports' !! k = Some r)
      ∧ (∀ k r, Sample.archive !! k = Some r →
           MonthlyReport.period_start r = Reports.date (Reports.mkDatetime 100 0) →
           MonthlyReport.period_end r = Reports.date (Reports.mkDatetime 130 86399) →
           k = id)
      ∧ period_unique reports'
      ∧ ((∃ old, Sample.archive !! id = Some old
                 ∧ MonthlyReport.period_start old
                   = Reports.date (Reports.mkDatetime 100 0)
                 ∧ MonthlyReport.period_end old
                   = Reports.date (Reports.mkDatetime 130 86399)
                 ∧ MonthlyReport.created_at report = MonthlyReport.created_at old
                 ∧ size reports' = size Sample.archive)
         ∨ (Sample.archive !! id = None
            ∧ (∀ k r, Sample.archive !! k = Some r →
                 ¬ (MonthlyReport.period_start r
                    = Reports.date (Reports.mkDatetime 100 0)
                    ∧ MonthlyReport.period_end r
                      = Reports.date (Reports.mkDatetime 130 86399)))
            ∧ MonthlyReport.created_at report = 7
            ∧ size reports' = S (size Sample.archive))).
Proof.
  assert (H : period_unique Sample.archive).
  { intros k k' r r' Hk Hk' _ _. unfold Sample.archive in Hk, Hk'.
    apply lookup_singleton_Some in Hk as [<- _].
    by apply lookup_singleton_Some in Hk' as [<- _]. }
  split; [exact H|].
  exact (record_monthly_report_upserts (Reports.mkDatetime 100 0)
           (Reports.mkDatetime 130 86399) 25000 "reports/monthly_summary.xlsx" 7
           Sample.archive H).
Defined.

(** X24. Recording the same period again adds no row: the second call returns
    the id of the first, keeps its creation stamp and stores the new total and
    path under it. *)
Theorem record_monthly_report_again (period_start period_end : Reports.datetime)
    (period_start' period_end' : Reports.datetime)
    (total_amount total_amount' : Z) (report_path report_path' : string)
    (now now' : Z) (reports reports1 : gmap Z MonthlyReport.t) (id : Z)
    (report : MonthlyReport.t) :
  period_unique reports →
  Reports.date period_start' = Reports.date period_start →
  Reports.date period_end' = Reports.date period_end →
  Reports.record_monthly_report period_start period_end total_amount report_path now
    reports = ((id, report), reports1) →
  Reports.record_monthly_report period_start' period_end' total_amount' report_path'
    now' reports1
  = ((id, MonthlyReport.set_totals total_amount' report_path' report),
     <[id := MonthlyReport.set_totals total_amount' report_path' report]> reports1)
  ∧ size (<[id := MonthlyReport.set_totals total_amount' report_path' report]> reports1)
    = size reports1
  ∧ MonthlyReport.created_at (MonthlyReport.set_totals total_amount' report_path' report)
    = MonthlyReport.created_at report.
Proof.
  intros Huniq Hps Hpe Hfirst.
  destruct (record_monthly_report_stores _ _ _ _ _ _ _ _ _ Huniq Hfirst)
    as (Huniq1 & Hid & Hrs & Hre).
  split; [|split; [apply map_size_insert_Some; eauto|done]].
  unfold Reports.record_monthly_report at 1.
  rewrite (head_filter_map_to_list_unique _ reports1 id report); [done|done| |].
  - simpl. split; congruence.
  - intros k' r' Hk' [Hs' He']. simpl in Hs', He'.
    apply (Huniq1 k' id r' report); congruence.
Qed.

Lemma record_monthly_report_again_witness :
  period_unique ∅
  ∧ Reports.date (Reports.mkDatetime 100 3600) = Reports.date (Reports.mkDatetime 100 0)
  ∧ Reports.date (Reports.mkDatetime 130 0) = Reports.date (Reports.mkDatetime 130 86399)
  ∧ Reports.record_monthly_report (Reports.mkDatetime 100 0)
      (Reports.mkDatetime 130 86399) 25000 "old.xlsx" 7 ∅
    = ((1, MonthlyReport.mk 100 130 25000 "old.xlsx" 7),
       <[1 := MonthlyReport.mk 100 130 25000 "old.xlsx" 7]> ∅)
  ∧ (Reports.record_monthly_report (Reports.mkDatetime 100 3600)
       (Reports.mkDatetime 130 0) 30000 "new.xlsx" 9
       (<[1 := MonthlyReport.mk 100 130 25000 "old.xlsx" 7]> ∅)
     = ((1, MonthlyReport.set_totals 30000 "new.xlsx"
              (MonthlyReport.mk 100 130 25000 "old.xlsx" 7)),
        <[1 := MonthlyReport.set_totals 30000 "new.xlsx"
                 (MonthlyReport.mk 100 130 25000 "old.xlsx" 7)]>
          (<[1 := MonthlyReport.mk 100 130 25000 "old.xlsx" 7]> ∅))
     ∧ size (<[1 := MonthlyReport.set_totals 30000 "new.xlsx"
                      (MonthlyReport.mk 100 130 25000 "old.xlsx" 7)]>
               (<[1 := MonthlyReport.mk 100 130 25000 "old.xlsx" 7]>
                  (∅ : gmap Z MonthlyReport.t)))
       = size (<[1 := MonthlyReport.mk 100 130 25000 "old.xlsx" 7]>
                 (∅ : gmap Z MonthlyReport.t))
     ∧ MonthlyReport.created_at
         (MonthlyReport.set_totals 30000 "new.xlsx"
            (MonthlyReport.mk 100 130 25000 "old.xlsx" 7))
       = MonthlyReport.created_at (MonthlyReport.mk 100 130 25000 "old.xlsx" 7)).
Proof.
  assert (H : period_unique ∅).
  { intros k k' r r' Hk. by rewrite lookup_empty in Hk. }
  assert (H1 : Reports.record_monthly_report (Reports.mkDatetime 100 0)
      (Reports.mkDatetime 130 86399) 25000 "old.xlsx" 7 ∅
    = ((1, MonthlyReport.mk 100 130 25000 "old.xlsx" 7),
       <[1 := MonthlyReport.mk 100 130 25000 "old.xlsx" 7]> ∅))
    by (vm_compute; reflexivity).
  split; [exact H|]. split; [reflexivity|]. split; [reflexivity|]. split; [exact H1|].
  exact (record_monthly_report_again (Reports.mkDatetime 100 0)
           (Reports.mkDatetime 130 86399) (Reports.mkDatetime 100 3600)
           (Reports.mkDatetime 130 0) 25000 30000 "old.xlsx" "new.xlsx" 7 9 ∅ _ 1 _
           H eq_refl eq_refl H1).
Defined.

(** ** Adding a batch of cards *)

Lemma add_card_counts card_type amount actor_id image_file_id image_path serial_number
    now db r db' :
  CardService.add_card card_type amount actor_id image_file_id image_path
    serial_number now db = (Ok r, db') →
  CardService.count_available card_type amount db'
  = CardService.count_available card_type amount db + 1.
Proof.
  rewrite add_card_unfold. case_decide; [discriminate|].
  case_decide; [|discriminate]. simpl. intros [= <- <-].
  unfold CardService.count_available, moved. simpl.
  apply size_filter_insert_in; [apply next_id_fresh|done].
Qed.

Lemma add_card_raises card_type amount actor_id image_file_id image_path serial_number
    now db e db' :
  CardService.add_card card_type amount actor_id image_file_id image_path
    serial_number now db = (Raise e, db') → db' = db.
Proof.
  rewrite add_card_unfold. repeat case_decide; simpl; by intros [= <-].
Qed.

Lemma add_entries_app card_type amount actor_id now l1 l2 db :
  HandlersAdmin.add_entries card_type amount actor_id now (l1 ++ l2) db =
  match HandlersAdmin.add_entries card_type amount actor_id now l1 db with
  | (Ok _, db1) => HandlersAdmin.add_entries card_type amount actor_id now l2 db1
  | (Raise e, db1) => (Raise e, db1)
  end.
Proof.
  revert db. induction l1 as [|entry l1 IH]; intros db; [done|].
  simpl. unfold bind.
  destruct entry; destruct (CardService.add_card _ _ _ _ _ _ _ db) as [[r|e] db1];
    by rewrite ?IH.
Qed.

Lemma add_entries_counts card_type amount actor_id now entries db db' :
  HandlersAdmin.add_entries card_type amount actor_id now entries db = (Ok tt, db') →
  CardService.count_available card_type amount db'
  = CardService.count_available card_type amount db + Z.of_nat (length entries).
Proof.
  revert db. induction entries as [|entry entries IH]; intros db.
  - intros [= <-]. simpl. lia.
  - simpl. unfold bind.
    destruct entry;
      destruct (CardService.add_card _ _ _ _ _ _ _ db) as [[r|e] db1] eqn:Hadd;
      try discriminate; intros Hrest;
      rewrite (IH _ Hrest), (add_card_counts _ _ _ _ _ _ _ _ _ _ Hadd); lia.
Qed.

(** X25. A batch of [admin_add_cards_confirm] is not one transaction. When
    the entries before some entry are added and that entry is turned down by a
    constraint, the handler reports the suspected duplicate and stops, and the
    cards of the earlier entries stay in the stock: the count for the type and
    amount has grown by their number. *)
Theorem add_cards_batch_is_not_atomic (current_user : option (Z * User.t))
    (card_type : CardType) (amount : Z) (added : list HandlersAdmin.CardEntry)
    (bad : HandlersAdmin.CardEntry) (rest : list HandlersAdmin.CardEntry) (now : Z)
    (db db1 : Database) :
  HandlersAdmin.add_entries card_type amount (fst <$> current_user) now added db
    = (Ok tt, db1) →
  HandlersAdmin.add_entries card_type amount (fst <$> current_user) now [bad] db1
    = (Raise IntegrityError, db1) →
  HandlersAdmin.admin_add_cards_confirm current_user card_type amount
    (added ++ bad :: rest) now db = (Ok HandlersAdmin.DuplicateSuspected, db1)
  ∧ CardService.count_available card_type amount db1
    = CardService.count_available card_type amount db + Z.of_nat (length added).
Proof.
  intros Hadded Hbad. split; [|by apply add_entries_counts in Hadded].
  unfold HandlersAdmin.admin_add_cards_confirm, try_except, bind.
  rewrite add_entries_app, Hadded.
  change (bad :: rest) with ([bad] ++ rest).
  by rewrite add_entries_app, Hbad.
Qed.

Lemma add_cards_batch_is_not_atomic_witness :
  HandlersAdmin.add_entries ASIA 5000 (fst <$> Some (9, Sample.admin)) 10
    [HandlersAdmin.PhotoEntry "file-1" "cards/asia/5000/1.jpg";
     HandlersAdmin.SerialEntry "serial-new"] Sample.store
  = (Ok tt,
     (HandlersAdmin.add_entries ASIA 5000 (Some 9) 10
        [HandlersAdmin.PhotoEntry "file-1" "cards/asia/5000/1.jpg";
         HandlersAdmin.SerialEntry "serial-new"] Sample.store).2)
  ∧ HandlersAdmin.add_entries ASIA 5000 (fst <$> Some (9, Sample.admin)) 10
      [HandlersAdmin.SerialEntry "serial-b"]
      (HandlersAdmin.add_entries ASIA 5000 (Some 9) 10
         [HandlersAdmin.PhotoEntry "file-1" "cards/asia/5000/1.jpg";
          HandlersAdmin.SerialEntry "serial-new"] Sample.store).2
    = (Raise IntegrityError,
       (HandlersAdmin.add_entries ASIA 5000 (Some 9) 10
          [HandlersAdmin.PhotoEntry "file-1" "cards/asia/5000/1.jpg";
           HandlersAdmin.SerialEntry "serial-new"] Sample.store).2)
  ∧ (HandlersAdmin.admin_add_cards_confirm (Some (9, Sample.admin)) ASIA 5000
       ([HandlersAdmin.PhotoEntry "file-1" "cards/asia/5000/1.jpg";
         HandlersAdmin.SerialEntry "serial-new"]
        ++ HandlersAdmin.SerialEntry "serial-b"
           :: [HandlersAdmin.SerialEntry "serial-later"]) 10 Sample.store
     = (Ok HandlersAdmin.DuplicateSuspected,
        (HandlersAdmin.add_entries ASIA 5000 (Some 9) 10
           [HandlersAdmin.PhotoEntry "file-1" "cards/asia/5000/1.jpg";
            HandlersAdmin.SerialEntry "serial-new"] Sample.store).2)
     ∧ CardService.count_available ASIA 5000
         (HandlersAdmin.add_entries ASIA 5000 (Some 9) 10
            [HandlersAdmin.PhotoEntry "file-1" "cards/asia/5000/1.jpg";
             HandlersAdmin.SerialEntry "serial-new"] Sample.store).2
       = CardService.count_available ASIA 5000 Sample.store
         + Z.of_nat (length [HandlersAdmin.PhotoEntry "file-1" "cards/asia/5000/1.jpg";
                             HandlersAdmin.SerialEntry "serial-new"])).
Proof.
  assert (H1 : HandlersAdmin.add_entries ASIA 5000 (fst <$> Some (9, Sample.admin)) 10
    [HandlersAdmin.PhotoEntry "file-1" "cards/asia/5000/1.jpg";
     HandlersAdmin.SerialEntry "serial-new"] Sample.store
  = (Ok tt,
     (HandlersAdmin.add_entries ASIA 5000 (Some 9) 10
        [HandlersAdmin.PhotoEntry "file-1" "cards/asia/5000/1.jpg";
         HandlersAdmin.SerialEntry "serial-new"] Sample.store).2))
    by (vm_compute; reflexivity).
  assert (H2 : HandlersAdmin.add_entries ASIA 5000 (fst <$> Some (9, Sample.admin)) 10
      [HandlersAdmin.SerialEntry "serial-b"]
      (HandlersAdmin.add_entries ASIA 5000 (Some 9) 10
         [HandlersAdmin.PhotoEntry "file-1" "cards/asia/5000/1.jpg";
          HandlersAdmin.SerialEntry "serial-new"] Sample.store).2
    = (Raise IntegrityError,
       (HandlersAdmin.add_entries ASIA 5000 (Some 9) 10
          [HandlersAdmin.PhotoEntry "file-1" "cards/asia/5000/1.jpg";
           HandlersAdmin.SerialEntry "serial-new"] Sample.store).2))
    by (vm_compute; reflexivity).
  split; [exact H1|]. split; [exact H2|].
  exact (add_cards_batch_is_not_atomic (Some (9, Sample.admin)) ASIA 5000 _ _
           [HandlersAdmin.SerialEntry "serial-later"] 10 Sample.store _ H1 H2).
Defined.

Lemma serial_free_insert sn id (card : Card.t) (m : gmap Z Card.t) :
  CardService.serial_free (Some sn) m →
  Card.serial_number card ≠ Some sn →
  CardService.serial_free (Some sn) (<[id := card]> m).
Proof. intros Hfree Hcard. unfold CardService.serial_free. by apply map_Forall_insert_2. Qed.

Lemma add_entries_succeed card_type amount actor_id now entries db :
  0 < amount →
  NoDup (entry_serials entries) →
  (∀ sn, sn ∈ entry_serials entries → CardService.serial_free (Some sn) (cards db)) →
  ∃ db', HandlersAdmin.add_entries card_type amount actor_id now entries db
         = (Ok tt, db').
Proof.
  intros Hpos. revert db. induction entries as [|entry entries IH]; intros db Hnd Hfree.
  { by eexists. }
  simpl. destruct entry as [file_id relative_path|serial].
  - erewrite bind_Ok; cycle 1.
    { rewrite add_card_unfold, decide_False by (by intros [? _]).
      rewrite decide_True by done. reflexivity. }
    apply IH; [done|]. intros sn Hsn. unfold moved. simpl.
    apply serial_free_insert; [by apply Hfree|done].
  - simpl in Hnd. apply NoDup_cons in Hnd as [Hnotin Hnd].
    erewrite bind_Ok; cycle 1.
    { rewrite add_card_unfold, decide_False by (by intros [_ ?]).
      rewrite decide_True; [reflexivity|]. split; [done|].
      apply Hfree. simpl. left. }
    apply IH; [done|]. intros sn Hsn. unfold moved. simpl.
    apply serial_free_insert; [apply Hfree; simpl; by right|].
    simpl. intros [= ->]. done.
Qed.

(** X26. A batch with a positive amount whose serial numbers are pairwise
    distinct and held by no stored card is added whole:
    [admin_add_cards_confirm] reports as many cards as there are entries, and
    the count of AVAILABLE cards of the type and amount has grown by that
    number. *)
Theorem add_cards_batch_adds_all (current_user : option (Z * User.t))
    (card_type : CardType) (amount : Z) (entries : list HandlersAdmin.CardEntry)
    (now : Z) (db : Database) :
  0 < amount →
  NoDup (entry_serials entries) →
  (∀ sn, sn ∈ entry_serials entries → CardService.serial_free (Some sn) (cards db)) →
  ∃ db',
    HandlersAdmin.admin_add_cards_confirm current_user card_type amount entries now db
      = (Ok (HandlersAdmin.CardsAdded (length entries)), db')
    ∧ CardService.count_available card_type amount db'
      = CardService.count_available card_type amount db + Z.of_nat (length entries).
Proof.
  intros Hpos Hnd Hfree.
  destruct (add_entries_succeed card_type amount (fst <$> current_user) now entries db
              Hpos Hnd Hfree) as (db' & Hadd).
  exists db'. split; [|by apply add_entries_counts in Hadd].
  unfold HandlersAdmin.admin_add_cards_confirm, try_except, bind.
  by rewrite Hadd.
Qed.

Lemma add_cards_batch_adds_all_witness :
  0 < 5000
  ∧ NoDup (entry_serials [HandlersAdmin.PhotoEntry "file-1" "cards/asia/5000/1.jpg";
                          HandlersAdmin.SerialEntry "serial-new"])
  ∧ (∀ sn, sn ∈ entry_serials
                  [HandlersAdmin.PhotoEntry "file-1" "cards/asia/5000/1.jpg";
                   HandlersAdmin.SerialEntry "serial-new"] →
           CardService.serial_free (Some sn) (cards Sample.store))
  ∧ ∃ db',
      HandlersAdmin.admin_add_cards_confirm (Some (9, Sample.admin)) ASIA 5000
        [HandlersAdmin.PhotoEntry "file-1" "cards/asia/5000/1.jpg";
         HandlersAdmin.SerialEntry "serial-new"] 10 Sample.store
        = (Ok (HandlersAdmin.CardsAdded
                 (length [HandlersAdmin.PhotoEntry "file-1" "cards/asia/5000/1.jpg";
                          HandlersAdmin.SerialEntry "serial-new"])), db')
      ∧ CardService.count_available ASIA 5000 db'
        = CardService.count_available ASIA 5000 Sample.store
          + Z.of_nat (length [HandlersAdmin.PhotoEntry "file-1" "cards/asia/5000/1.jpg";
                              HandlersAdmin.SerialEntry "serial-new"]).
Proof.
  assert (H1 : 0 < 5000) by reflexivity.
  assert (H2 : NoDup (entry_serials
                        [HandlersAdmin.PhotoEntry "file-1" "cards/asia/5000/1.jpg";
                         HandlersAdmin.SerialEntry "serial-new"])).
  { simpl. apply NoDup_singleton. }
  assert (H3 : ∀ sn, sn ∈ entry_serials
                  [HandlersAdmin.PhotoEntry "file-1" "cards/asia/5000/1.jpg";
                   HandlersAdmin.SerialEntry "serial-new"] →
           CardService.serial_free (Some sn) (cards Sample.store)).
  { intros sn Hsn. simpl in Hsn. apply list_elem_of_singleton in Hsn as ->.
    apply (@bool_decide_unpack _ (CardService.serial_free_dec _ _)).
    vm_compute. exact I. }
  split; [exact H1|]. split; [exact H2|]. split; [exact H3|].
  exact (add_cards_batch_adds_all (Some (9, Sample.admin)) ASIA 5000 _ 10 Sample.store
           H1 H2 H3).
Defined.

(** ** Deactivating a user *)

(** X27. [deactivate_user] never deactivates anybody. Of an id that is not
    stored it raises NoResultFound; of a stored user it raises
    MissingGreenlet, from the lazy read of [user.members], before any write.
    Either way the store is what it was: the user is still active, keeps its
    Telegram id and its members, and [get_by_telegram_id] finds what it found
    before. *)
Theorem deactivate_user_never_commits (user_id : Z) (db : Database) :
  UserService.deactivate_user user_id db
  = (Raise (match users db !! user_id with
            | Some _ => MissingGreenlet
            | None => NoResultFound
            end), db)
  ∧ (∀ r db', UserService.deactivate_user user_id db ≠ (Ok r, db'))
  ∧ users (UserService.deactivate_user user_id db).2 !! user_id = users db !! user_id
  ∧ UserService.list_members user_id (UserService.deactivate_user user_id db).2
    = UserService.list_members user_id db
  ∧ ∀ telegram_id,
      UserService.get_by_telegram_id telegram_id
        (UserService.deactivate_user user_id db).2
      = UserService.get_by_telegram_id telegram_id db.
Proof.
  assert (Hrun : UserService.deactivate_user user_id db
                 = (Raise (match users db !! user_id with
                           | Some _ => MissingGreenlet
                           | None => NoResultFound
                           end), db)).
  { unfold UserService.deactivate_user, session, bind, query,
      UserService.lazy_load, raise. simpl.
    by destruct (users db !! user_id). }
  rewrite Hrun. split; [done|]. split; [intros r db'; discriminate|]. done.
Qed.

(** ** Stock alerts *)

Lemma elem_of_list_admins id user db :
  (id, user) ∈ UserService.list_admins db ↔
  users db !! id = Some user ∧ User.role user = ADMIN ∧ User.is_active user = true.
Proof.
  unfold UserService.list_admins.
  rewrite list_elem_of_filter, elem_of_map_to_list. simpl. tauto.
Qed.

Lemma alert_chats_cons exclude_user_id admin admins :
  alert_chats exclude_user_id (admin :: admins) =
  match User.telegram_id admin.2 with
  | Some chat =>
      if decide (chat ≠ 0 ∧ exclude_user_id ≠ Some admin.1)
      then chat :: alert_chats exclude_user_id admins
      else alert_chats exclude_user_id admins
  | None => alert_chats exclude_user_id admins
  end.
Proof.
  unfold alert_chats. simpl.
  destruct (User.telegram_id admin.2); [|done]. by case_decide.
Qed.

Lemma send_alert_accepted bot chat remaining sent :
  accepts bot chat →
  send_alert bot chat remaining sent = (Ok tt, sent ++ [(chat, remaining)]).
Proof. unfold accepts, send_alert. by intros ->. Qed.

Lemma send_alert_raises bot chat remaining sent e :
  send_message bot (Some chat) = Some e →
  send_alert bot chat remaining sent = (Raise e, sent).
Proof. unfold send_alert. by intros ->. Qed.

(** One step of either loop: whether the admin is a chat to alert. *)
Lemma alert_step exclude_user_id admin :
  (∃ chat, User.telegram_id admin.2 = Some chat ∧ chat ≠ 0
           ∧ truthy (User.telegram_id admin.2) = true)
  ∨ (truthy (User.telegram_id admin.2) = false
     ∧ ∀ admins, alert_chats exclude_user_id (admin :: admins)
                 = alert_chats exclude_user_id admins).
Proof.
  destruct (User.telegram_id admin.2) as [chat|] eqn:Hchat.
  - destruct (decide (chat = 0)) as [->|Hnz].
    + right. split; [done|]. intros admins. rewrite alert_chats_cons, Hchat.
      rewrite decide_False; [done|]. by intros [? _].
    + left. exists chat. split; [done|]. split; [done|].
      simpl. by apply bool_decide_eq_true.
  - right. split; [done|]. intros admins. by rewrite alert_chats_cons, Hchat.
Qed.

Lemma check_threshold_loop_all bot remaining admins sent :
  Forall (accepts bot) (alert_chats None admins) →
  HandlersRequests.check_threshold_loop bot remaining admins sent
  = (Ok tt, sent ++ alerts remaining (alert_chats None admins)).
Proof.
  revert sent. induction admins as [|admin admins IH]; intros sent Hall.
  { simpl. unfold ret. by rewrite app_nil_r. }
  cbn [HandlersRequests.check_threshold_loop].
  destruct (alert_step None admin) as [(chat & Hchat & Hnz & ->)|[-> Hskip]].
  - rewrite alert_chats_cons, Hchat, decide_True in Hall |- * by done.
    apply Forall_cons in Hall as [Hchat_ok Hall].
    change (default 0 (Some chat)) with chat.
    rewrite (bind_Ok _ _ _ _ _ (send_alert_accepted _ _ remaining sent Hchat_ok)).
    rewrite IH by done. unfold alerts. simpl. by rewrite <- app_assoc.
  - rewrite Hskip in Hall |- *. by apply IH.
Qed.

Lemma check_threshold_loop_stops bot remaining admins sent before chat after e :
  alert_chats None admins = before ++ chat :: after →
  Forall (accepts bot) before →
  send_message bot (Some chat) = Some e →
  HandlersRequests.check_threshold_loop bot remaining admins sent
  = (Raise e, sent ++ alerts remaining before).
Proof.
  revert sent before. induction admins as [|admin admins IH];
    intros sent before Hsplit Hall Hrefused.
  { by destruct before. }
  cbn [HandlersRequests.check_threshold_loop].
  destruct (alert_step None admin) as [(first & Hfirst & Hnz & ->)|[-> Hskip]].
  - rewrite alert_chats_cons, Hfirst, decide_True in Hsplit by done.
    rewrite Hfirst. change (default 0 (Some first)) with first.
    destruct before as [|chat' before]; simpl in Hsplit; injection Hsplit as -> Hsplit.
    + rewrite (bind_Raise _ _ _ _ _ (send_alert_raises _ _ remaining sent _ Hrefused)).
      unfold alerts. simpl. by rewrite app_nil_r.
    + apply Forall_cons in Hall as [Hchat_ok Hall].
      rewrite (bind_Ok _ _ _ _ _ (send_alert_accepted _ _ remaining sent Hchat_ok)).
      rewrite (IH _ before) by done. unfold alerts. simpl. by rewrite <- app_assoc.
  - rewrite Hskip in Hsplit. by apply IH.
Qed.

(** One send of [notify_inventory_threshold], with its [except] clause. *)
Lemma notify_send bot chat remaining sent :
  try_except (send_alert bot chat remaining)
    (λ e, match e with
          | TelegramBadRequest | TelegramForbiddenError => ret tt
          | _ => raise e
          end) sent
  = match send_message bot (Some chat) with
    | None => (Ok tt, sent ++ [(chat, remaining)])
    | Some e => if decide (skipped e) then (Ok tt, sent) else (Raise e, sent)
    end.
Proof.
  unfold try_except, send_alert, skipped.
  destruct (send_message bot (Some chat)) as [e|]; [|done].
  destruct e; case_decide as H; try done;
    try (destruct H as [H|H]; discriminate); destruct H; auto.
Qed.

Lemma notify_loop_step bot remaining exclude_user_id admin admins sent :
  HandlersUtils.notify_loop bot remaining exclude_user_id (admin :: admins) sent =
  match alert_chats exclude_user_id [admin] with
  | chat :: _ =>
      match send_message bot (Some chat) with
      | None =>
          HandlersUtils.notify_loop bot remaining exclude_user_id admins
            (sent ++ [(chat, remaining)])
      | Some e =>
          if decide (skipped e)
          then HandlersUtils.notify_loop bot remaining exclude_user_id admins sent
          else (Raise e, sent)
      end
  | [] => HandlersUtils.notify_loop bot remaining exclude_user_id admins sent
  end.
Proof.
  cbn [HandlersUtils.notify_loop]. rewrite alert_chats_cons.
  destruct (alert_step exclude_user_id admin) as [(chat & Hchat & Hnz & ->)|[-> Hskip]].
  - rewrite Hchat. cbn [negb]. change (default 0 (Some chat)) with chat.
    destruct (decide (exclude_user_id = Some admin.1)) as [Hex|Hex].
    + rewrite decide_False; [done|]. by intros [_ ?].
    + rewrite decide_True by done. unfold bind. rewrite notify_send.
      cbv beta iota.
      destruct (send_message bot (Some chat)) as [e|]; [|done]. by case_decide.
  - cbn [negb]. specialize (Hskip []). rewrite alert_chats_cons in Hskip.
    by rewrite Hskip.
Qed.

Lemma alert_chats_step exclude_user_id admin admins :
  alert_chats exclude_user_id (admin :: admins)
  = alert_chats exclude_user_id [admin] ++ alert_chats exclude_user_id admins.
Proof.
  rewrite !alert_chats_cons. destruct (User.telegram_id admin.2); [|done].
  by case_decide.
Qed.

Lemma alert_chats_single exclude_user_id admin :
  alert_chats exclude_user_id [admin] = []
  ∨ ∃ chat, alert_chats exclude_user_id [admin] = [chat].
Proof.
  rewrite alert_chats_cons. destruct (User.telegram_id admin.2); [|by left].
  case_decide; [right; by eexists|by left].
Qed.

Lemma notify_loop_all bot remaining exclude_user_id admins sent :
  (∀ chat e, chat ∈ alert_chats exclude_user_id admins →
             send_message bot (Some chat) = Some e → skipped e) →
  HandlersUtils.notify_loop bot remaining exclude_user_id admins sent
  = (Ok tt, sent ++ alerts remaining
                      (filter (accepts bot) (alert_chats exclude_user_id admins))).
Proof.
  revert sent. induction admins as [|admin admins IH]; intros sent Hcaught.
  { simpl. unfold ret. by rewrite app_nil_r. }
  assert (Hrest : ∀ chat e, chat ∈ alert_chats exclude_user_id admins →
                            send_message bot (Some chat) = Some e → skipped e).
  { intros c e Hc. apply Hcaught. rewrite alert_chats_step.
    apply elem_of_app. by right. }
  assert (Hfirst : ∀ chat e, chat ∈ alert_chats exclude_user_id [admin] →
                             send_message bot (Some chat) = Some e → skipped e).
  { intros c e Hc. apply Hcaught. rewrite alert_chats_step.
    apply elem_of_app. by left. }
  clear Hcaught.
  rewrite (alert_chats_step _ admin admins), notify_loop_step.
  destruct (alert_chats_single exclude_user_id admin) as [Hnone|[chat Hone]].
  { rewrite Hnone. cbn [app]. by apply IH. }
  rewrite Hone in Hfirst |- *. cbn [app].
  rewrite filter_cons.
  destruct (send_message bot (Some chat)) as [e|] eqn:Hsend.
  - rewrite decide_True by (apply (Hfirst chat e); [left|done]).
    rewrite decide_False by (unfold accepts; by rewrite Hsend). by apply IH.
  - rewrite decide_True by done. rewrite IH by done.
    unfold alerts. simpl. by rewrite <- app_assoc.
Qed.

Lemma notify_loop_stops bot remaining exclude_user_id admins sent before chat after e :
  alert_chats exclude_user_id admins = before ++ chat :: after →
  (∀ c e', c ∈ before → send_message bot (Some c) = Some e' → skipped e') →
  send_message bot (Some chat) = Some e → ¬ skipped e →
  HandlersUtils.notify_loop bot remaining exclude_user_id admins sent
  = (Raise e, sent ++ alerts remaining (filter (accepts bot) before)).
Proof.
  revert sent before. induction admins as [|admin admins IH];
    intros sent before Hsplit Hcaught Hrefused Hnot.
  { by destruct before. }
  rewrite notify_loop_step. rewrite alert_chats_step in Hsplit.
  destruct (alert_chats_single exclude_user_id admin) as [Hnone|[first Hfirst]].
  { rewrite Hnone in Hsplit |- *. cbn [app] in Hsplit. by apply IH. }
  rewrite Hfirst in Hsplit |- *. cbn [app] in Hsplit.
  destruct before as [|chat' before]; cbn [app] in Hsplit;
    injection Hsplit as -> Hsplit.
  - rewrite Hrefused, decide_False by done. unfold alerts. simpl.
    by rewrite app_nil_r.
  - assert (Hrest : ∀ c e', c ∈ before → send_message bot (Some c) = Some e' →
                            skipped e').
    { intros c e' Hc. apply Hcaught. by right. }
    rewrite filter_cons.
    destruct (send_message bot (Some chat')) as [e'|] eqn:Hsend.
    + rewrite decide_True by (apply (Hcaught chat' e'); [left|done]).
      rewrite decide_False by (unfold accepts; by rewrite Hsend).
      by apply (IH _ before).
    + rewrite decide_True by done. rewrite (IH _ before) by done.
      unfold alerts. simpl. by rewrite <- app_assoc.
Qed.

(** X28. The stock alerts. Both [notify_inventory_threshold] and
    [_check_inventory_threshold] send nothing while more than two AVAILABLE
    cards of the type and amount remain. Otherwise they go through the chats
    of the active ADMIN users that have a Telegram id other than 0 (for the
    first, but the excluded user). [notify_inventory_threshold] skips a chat
    that Telegram turns down with TelegramBadRequest or
    TelegramForbiddenError and alerts every chat that accepts; any other
    exception ends it at that chat. [_check_inventory_threshold] alerts all
    the chats only if every one accepts: the first that Telegram turns down
    ends it with that exception, the chats after it unalerted. *)
Theorem inventory_alerts_reach_admins (bot : Bot) (card_type : CardType) (amount : Z)
    (exclude_user_id : option Z) (db : Database) (sent : Outbox) :
  let remaining := CardService.count_available card_type amount db in
  let admins := UserService.list_admins db in
  (remaining > 2 →
   HandlersUtils.notify_inventory_threshold bot card_type amount exclude_user_id db sent
     = (Ok tt, sent)
   ∧ HandlersRequests._check_inventory_threshold bot card_type amount db sent
     = (Ok tt, sent))
  ∧ (∀ chat, chat ∈ alert_chats exclude_user_id admins ↔
       ∃ id admin, users db !! id = Some admin
                   ∧ User.role admin = ADMIN ∧ User.is_active admin = true
                   ∧ User.telegram_id admin = Some chat ∧ chat ≠ 0
                   ∧ exclude_user_id ≠ Some id)
  ∧ (remaining ≤ 2 →
     (∀ chat e, chat ∈ alert_chats exclude_user_id admins →
                send_message bot (Some chat) = Some e → skipped e) →
     HandlersUtils.notify_inventory_threshold bot card_type amount exclude_user_id db
       sent
     = (Ok tt, sent ++ alerts remaining
                         (filter (accepts bot) (alert_chats exclude_user_id admins))))
  ∧ (∀ before chat after e,
       remaining ≤ 2 →
       alert_chats exclude_user_id admins = before ++ chat :: after →
       (∀ c e', c ∈ before → send_message bot (Some c) = Some e' → skipped e') →
       send_message bot (Some chat) = Some e → ¬ skipped e →
       HandlersUtils.notify_inventory_threshold bot card_type amount exclude_user_id
         db sent
       = (Raise e, sent ++ alerts remaining (filter (accepts bot) before)))
  ∧ (remaining ≤ 2 →
     Forall (accepts bot) (alert_chats None admins) →
     HandlersRequests._check_inventory_threshold bot card_type amount db sent
     = (Ok tt, sent ++ alerts remaining (alert_chats None admins)))
  ∧ (∀ before chat after e,
       remaining ≤ 2 →
       alert_chats None admins = before ++ chat :: after →
       Forall (accepts bot) before →
       send_message bot (Some chat) = Some e →
       HandlersRequests._check_inventory_threshold bot card_type amount db sent
       = (Raise e, sent ++ alerts remaining before)).
Proof.
  intros remaining admins.
  unfold HandlersUtils.notify_inventory_threshold,
    HandlersRequests._check_inventory_threshold. cbv zeta.
  fold remaining. fold admins.
  split; [|split; [|split; [|split; [|split]]]].
  - intros Hmany. by rewrite !decide_True by done.
  - intros chat. unfold alert_chats. rewrite list_elem_of_omap. split.
    + intros ([id admin] & Hin & Halert). apply elem_of_list_admins in Hin.
      destruct Hin as (Huser & Hrole & Hactive). simpl in Halert.
      destruct (User.telegram_id admin) as [chat'|] eqn:Hchat; [|discriminate].
      case_decide as Hok; [|discriminate]. injection Halert as <-.
      destruct Hok as [Hnz Hex]. by exists id, admin.
    + intros (id & admin & Huser & Hrole & Hactive & Hchat & Hnz & Hex).
      exists (id, admin). split; [by apply elem_of_list_admins|].
      simpl. rewrite Hchat. by rewrite decide_True.
  - intros Hfew Hcaught. rewrite decide_False by lia. by apply notify_loop_all.
  - intros before chat after e Hfew Hsplit Hcaught Hrefused Hnot.
    rewrite decide_False by lia. by apply (notify_loop_stops _ _ _ _ _ before chat after).
  - intros Hfew Hall. rewrite decide_False by lia. by apply check_threshold_loop_all.
  - intros before chat after e Hfew Hsplit Hall Hrefused.
    rewrite decide_False by lia.
    by apply (check_threshold_loop_stops _ _ _ _ before chat after).
Qed.

Lemma inventory_alerts_reach_admins_witness :
  CardService.count_available ASIA 5000 Sample.bureau ≤ 2
  ∧ (∀ chat e, chat ∈ alert_chats None (UserService.list_admins Sample.bureau) →
               send_message Sample.blocked_by_900 (Some chat) = Some e → skipped e)
  ∧ alert_chats None (UserService.list_admins Sample.bureau) = [] ++ 900 :: [1000]
  ∧ Forall (accepts Sample.blocked_by_900) []
  ∧ send_message Sample.blocked_by_900 (Some 900) = Some TelegramForbiddenError
  ∧ HandlersUtils.notify_inventory_threshold Sample.blocked_by_900 ASIA 5000 None
      Sample.bureau []
    = (Ok tt,
       [] ++ alerts (CardService.count_available ASIA 5000 Sample.bureau)
               (filter (accepts Sample.blocked_by_900)
                       (alert_chats None (UserService.list_admins Sample.bureau))))
  ∧ HandlersRequests._check_inventory_threshold Sample.blocked_by_900 ASIA 5000
      Sample.bureau []
    = (Raise TelegramForbiddenError,
       [] ++ alerts (CardService.count_available ASIA 5000 Sample.bureau) []).
Proof.
  assert (H1 : CardService.count_available ASIA 5000 Sample.bureau ≤ 2)
    by (by vm_compute).
  assert (H2 : ∀ chat e,
             chat ∈ alert_chats None (UserService.list_admins Sample.bureau) →
             send_message Sample.blocked_by_900 (Some chat) = Some e → skipped e).
  { intros chat e _. simpl. case_decide; [|discriminate].
    intros [= <-]. by right. }
  assert (H3 : alert_chats None (UserService.list_admins Sample.bureau)
               = [] ++ 900 :: [1000]) by (vm_compute; reflexivity).
  assert (H4 : Forall (accepts Sample.blocked_by_900) []) by constructor.
  assert (H5 : send_message Sample.blocked_by_900 (Some 900)
               = Some TelegramForbiddenError) by reflexivity.
  pose proof (inventory_alerts_reach_admins Sample.blocked_by_900 ASIA 5000 None
                Sample.bureau []) as H.
  cbv zeta in H. destruct H as (_ & _ & Hnotify & _ & _ & Hcheck).
  split; [exact H1|]. split; [exact H2|]. split; [exact H3|].
  split; [exact H4|]. split; [exact H5|].
  split; [exact (Hnotify H1 H2)|exact (Hcheck [] 900 [1000] _ H1 H3 H4 H5)].
Defined.

(** On that store the two functions part: the first admin has blocked the
    bot, [notify_inventory_threshold] still alerts the second, and
    [_check_inventory_threshold] alerts nobody and raises. *)
Example inventory_alerts_sample :
  HandlersUtils.notify_inventory_threshold Sample.blocked_by_900 ASIA 5000 None
    Sample.bureau [] = (Ok tt, [(1000, 2)])
  ∧ HandlersRequests._check_inventory_threshold Sample.blocked_by_900 ASIA 5000
      Sample.bureau [] = (Raise TelegramForbiddenError, []).
Proof. split; vm_compute; reflexivity. Qed.

(** ** The direct sends *)






(** On the store with the card 7 alone, whose photo has a Telegram file id,
    a target user who has blocked the bot makes the direct send of the admin
    end with TelegramForbiddenError, the card 7 RESERVED. *)
Example admin_send_escape_sample :
  (HandlersAdmin.admin_send_card_amount (Some (1, Sample.manager)) (2, Sample.member)
     ASIA 5000 Sample.blocked 10 Sample.gallery).1 = Raise TelegramForbiddenError
  ∧ Card.status <$>
      cards (HandlersAdmin.admin_send_card_amount (Some (1, Sample.manager))
               (2, Sample.member) ASIA 5000 Sample.blocked 10 Sample.gallery).2 !! 7
    = Some RESERVED.
Proof. split; vm_compute; reflexivity. Qed.
